(** * windfreak: SynthHD driver (windfreak/synth_hd.py)

    A shallow embedding of the SynthHD object model: Python values, the
    binary64 arithmetic of the unit conversions, the attribute table
    [SynthHD.API], the serial session the channels delegate to, the
    channel views and the typed properties built on them. *)

From Stdlib Require Import ZArith List String Ascii Bool Lia.
From Stdlib Require Import QArith Qabs Qpower Lqa.
From Stdlib Require Import DecimalString DecimalZ.
From Stdlib Require DecimalN DecimalPos DecimalFacts.
From Stdlib Require Import Floats.SpecFloat.
Import ListNotations.

Local Open Scope string_scope.
Local Open Scope Z_scope.

(* ================================================================== *)
(** ** Python values and exceptions *)

(** The values the properties receive and return.  A Python [float] is an
    IEEE-754 binary64 number, carried as a [spec_float]. *)
Inductive value : Type :=
| VNone
| VBool (b : bool)
| VInt (z : Z)
| VFloat (f : spec_float)
| VStr (s : string).

(** Exceptions.  The first four are raised by synth_hd.py itself (or by the
    Python operations it uses); the others belong to the serial session. *)
Inductive exn : Type :=
| ValueError
| TypeError
| IndexError
| OverflowError
| UnknownAttribute
| InvalidAttribute
| ArgumentMismatch
| ProtocolError
| Timeout.

(** What the spec calls a validation error: a rejected caller value. *)
Definition is_validation_error (e : exn) : bool :=
  match e with
  | ValueError | TypeError => true
  | _ => false
  end.

(** [isinstance(value, (float, int))]; [bool] is a subclass of [int]. *)
Definition isinstance_float_int (v : value) : bool :=
  match v with
  | VBool _ | VInt _ | VFloat _ => true
  | _ => false
  end.

(** [isinstance(value, int)]. *)
Definition isinstance_int (v : value) : bool :=
  match v with
  | VBool _ | VInt _ => true
  | _ => false
  end.

(** [isinstance(value, bool)]. *)
Definition isinstance_bool (v : value) : bool :=
  match v with
  | VBool _ => true
  | _ => false
  end.

(** Truth value of an object, and [not]. *)
Definition truthy (v : value) : bool :=
  match v with
  | VNone => false
  | VBool b => b
  | VInt z => negb (z =? 0)
  | VFloat (S754_zero _) => false
  | VFloat _ => true
  | VStr s => negb (String.eqb s "")
  end.

Definition py_not (v : value) : value := VBool (negb (truthy v)).

(* ================================================================== *)
(** ** binary64 arithmetic *)

Module Float.

Definition prec : Z := 53.
Definition emax : Z := 1024.

Definition div : spec_float -> spec_float -> spec_float := SFdiv prec emax.
Definition mul : spec_float -> spec_float -> spec_float := SFmul prec emax.

(** [float(z)] for an integer: the nearest binary64 number. *)
Definition of_Z (z : Z) : spec_float := binary_normalize prec emax z 0 false.

(** The correctly rounded value of [m * 10^k], the meaning of a decimal
    literal and of [float(text)]. *)
Definition of_decimal (m : Z) (k : Z) : spec_float :=
  match k with
  | Zneg p =>
      match m with
      | Z0 => S754_zero false
      | Zpos a => div (S754_finite false a 0) (S754_finite false (10 ^ p)%positive 0)
      | Zneg a => div (S754_finite true a 0) (S754_finite false (10 ^ p)%positive 0)
      end
  | _ => of_Z (m * 10 ^ k)
  end.

(** The signed integer mantissa of a finite number. *)
Definition signed (s : bool) (m : positive) : Z := cond_Zopp s (Zpos m).

(** Exact comparison of a float with an integer, as Python compares a
    [float] with an [int]. *)
Definition compare_Z (f : spec_float) (z : Z) : option comparison :=
  match f with
  | S754_nan => None
  | S754_infinity s => Some (if s then Lt else Gt)
  | S754_zero _ => Some (0 ?= z)
  | S754_finite s m e =>
      Some (if 0 <=? e then (signed s m * 2 ^ e ?= z)
            else (signed s m ?= z * 2 ^ (- e)))
  end.

(** Rounding of the rational [n / d] ([d > 0], [n >= 0]) to the nearest
    integer, ties to even. *)
Definition round_half_even (n d : Z) : Z :=
  let q := n / d in
  let r := n mod d in
  match 2 * r ?= d with
  | Lt => q
  | Gt => q + 1
  | Eq => if Z.even q then q else q + 1
  end.

(** [round(|f| * 10^k)] for a finite [f = m * 2^e]. *)
Definition scaled (m : positive) (e : Z) (k : Z) : Z :=
  if 0 <=? e then Zpos m * 2 ^ e * 10 ^ k
  else round_half_even (Zpos m * 10 ^ k) (2 ^ (- e)).

End Float.

(** The literals of synth_hd.py.  [13999.999999e6] denotes the integer
    13999999999, which binary64 holds exactly. *)
Definition f_1e6 : spec_float := Eval vm_compute in Float.of_decimal 1 6.
Definition f_53e6 : spec_float := Eval vm_compute in Float.of_decimal 53 6.
Definition f_13999_999999e6 : spec_float :=
  Eval vm_compute in Float.of_decimal 13999999999 0.
Definition f_10e6 : spec_float := Eval vm_compute in Float.of_decimal 10 6.
Definition f_100e6 : spec_float := Eval vm_compute in Float.of_decimal 100 6.
Definition f_1e3 : spec_float := Eval vm_compute in Float.of_decimal 1 3.

(** Numeric comparison [a <= b] of Python: exact between [int] and [float],
    false as soon as a NaN is involved, [bool] taken as 0 or 1.  [None] when
    an operand is not a number. *)
Definition Z_of_bool (b : bool) : Z := if b then 1 else 0.

Definition num_compare (a b : value) : option (option comparison) :=
  let as_num v :=
    match v with
    | VBool b => Some (inl (Z_of_bool b))
    | VInt z => Some (inl z)
    | VFloat f => Some (inr f)
    | _ => None
    end in
  match as_num a, as_num b with
  | Some (inl x), Some (inl y) => Some (Some (x ?= y))
  | Some (inr f), Some (inr g) => Some (SFcompare f g)
  | Some (inr f), Some (inl y) => Some (Float.compare_Z f y)
  | Some (inl x), Some (inr g) => Some (option_map CompOpp (Float.compare_Z g x))
  | _, _ => None
  end.

Definition py_le (a b : value) : bool :=
  match num_compare a b with
  | Some (Some (Lt | Eq)) => true
  | _ => false
  end.

(* ================================================================== *)
(** ** Text: rendering and parsing of numbers *)

Module Text.

(** [str(z)] for an integer. *)
Definition of_Z (z : Z) : string := NilZero.string_of_int (Z.to_int z).

(** Base-10 integer of a text, [None] when malformed. *)
Definition to_Z (s : string) : option Z :=
  option_map Z.of_int (NilZero.int_of_string s).

Fixpoint zeros (n : nat) : string :=
  match n with
  | O => ""
  | S n' => String "0" (zeros n')
  end.

(** Left padding with zeros up to [n] characters. *)
Definition pad (n : nat) (s : string) : string :=
  zeros (n - String.length s) ++ s.

(** Fixed notation with [k] decimals of [(-1)^neg * N / 10^k]. *)
Definition fixed (k : Z) (neg : bool) (N : Z) : string :=
  let sign := if neg then "-" else "" in
  let ip := of_Z (N / 10 ^ k) in
  if k =? 0 then sign ++ ip
  else sign ++ ip ++ "." ++ pad (Z.to_nat k) (of_Z (N mod 10 ^ k)).

(** ['{:.kf}'.format(f)] for a binary64 number. *)
Definition fixed_float (k : Z) (f : spec_float) : string :=
  match f with
  | S754_nan => "nan"
  | S754_infinity s => if s then "-inf" else "inf"
  | S754_zero s => fixed k s 0
  | S754_finite s m e => fixed k s (Float.scaled m e k)
  end.

(** ['{:.kf}'.format(z)] for an integer: the presentation type [f] converts
    the integer to binary64 first, so the digits are those of [float(z)];
    beyond the range of binary64 the conversion raises [OverflowError] and
    there is no text. *)
Definition fixed_int (k : Z) (z : Z) : option string :=
  match Float.of_Z z with
  | S754_infinity _ => None
  | f => Some (fixed_float k f)
  end.

(** ['{:.kf}'.format(v)]; [bool] is a subclass of [int]. *)
Definition format_fixed (k : Z) (v : value) : option string :=
  match v with
  | VInt z => fixed_int k z
  | VBool b => fixed_int k (Z_of_bool b)
  | VFloat f => Some (fixed_float k f)
  | _ => None
  end.

(** An integer that [float] cannot convert. *)
Definition too_large (v : value) : bool :=
  match v with
  | VInt z =>
      match Float.of_Z z with
      | S754_infinity _ => true
      | _ => false
      end
  | _ => false
  end.

(** ['{}'.format(v)] as the session renders it: integers in base 10,
    booleans as 0 or 1. *)
Definition format_plain (v : value) : option string :=
  match v with
  | VInt z => Some (of_Z z)
  | VBool b => Some (of_Z (Z_of_bool b))
  | VStr s => Some s
  | _ => None
  end.

Definition digit_value (c : ascii) : option Z :=
  let n := Z.of_nat (nat_of_ascii c) - 48 in
  if (0 <=? n) && (n <=? 9) then Some n else None.

(** [template.format( *args )] for the templates of the attribute table:
    literal characters, [{}] and [{:.kf}] placeholders.  [None] when the
    arguments do not fit the placeholders. *)
Fixpoint format (tpl : string) (args : list value) : option string :=
  match tpl with
  | EmptyString =>
      match args with
      | [] => Some ""
      | _ :: _ => None
      end
  | String "{" (String "}" rest) =>
      match args with
      | a :: args' =>
          match format_plain a, format rest args' with
          | Some x, Some r => Some (x ++ r)
          | _, _ => None
          end
      | [] => None
      end
  | String "{" (String ":" (String "." (String d (String "f" (String "}" rest))))) =>
      match args, digit_value d with
      | a :: args', Some k =>
          match format_fixed k a, format rest args' with
          | Some x, Some r => Some (x ++ r)
          | _, _ => None
          end
      | _, _ => None
      end
  | String c rest => option_map (String c) (format rest args)
  end.

(** The exception [template.format( *args )] ends with when there is no
    text: [OverflowError] at a [{:.kf}] placeholder whose argument is an
    integer that [float] cannot convert, and otherwise arguments that do
    not fit the placeholders. *)
Fixpoint failure (tpl : string) (args : list value) : exn :=
  match tpl with
  | EmptyString => ArgumentMismatch
  | String "{" (String "}" rest) =>
      match args with
      | _ :: args' => failure rest args'
      | [] => ArgumentMismatch
      end
  | String "{" (String ":" (String "." (String _ (String "f" (String "}" rest))))) =>
      match args with
      | a :: args' => if too_large a then OverflowError else failure rest args'
      | [] => ArgumentMismatch
      end
  | String _ rest => failure rest args
  end.

(** The text before the first dot and, when there is one, the text after. *)
Fixpoint split_dot (s : string) : string * option string :=
  match s with
  | EmptyString => ("", None)
  | String c r =>
      if Ascii.eqb c "." then ("", Some r)
      else let (a, b) := split_dot r in (String c a, b)
  end.

(** Decimal number of a text: optional sign, digits, optional fraction;
    the nearest binary64 number, [None] when malformed. *)
Definition to_float (s : string) : option spec_float :=
  let '(neg, body) :=
    match s with
    | String "-" r => (true, r)
    | String "+" r => (false, r)
    | _ => (false, s)
    end in
  let '(ip, fp) := split_dot body in
  let fp := match fp with Some f => f | None => "" end in
  match ip, NilEmpty.uint_of_string (ip ++ fp) with
  | String _ _, Some d =>
      let m := Z.of_uint d in
      if m =? 0 then Some (S754_zero neg)
      else Some (Float.of_decimal (if neg then - m else m)
                                  (- Z.of_nat (String.length fp)))
  | _, _ => None
  end.

(** A reply without its trailing line terminators. *)
Fixpoint rstrip_eol (s : string) : string :=
  match s with
  | EmptyString => ""
  | String c r =>
      match rstrip_eol r with
      | EmptyString =>
          if Ascii.eqb c "010" || Ascii.eqb c "013" then "" else String c ""
      | r' => String c r'
      end
  end.

End Text.

(* ================================================================== *)
(** ** The device object and its computations *)

(** [SynthHDChannel.__init__] stores the parent and the index; the parent
    is the one device every computation below runs on, so a channel view is
    its index. *)
Record SynthHDChannel : Type := { _index : Z }.

(** The serial link as a line-oriented request/response channel: the lines
    transmitted so far and the reply lines the device will deliver. *)
Record Transport : Type := {
  sent : list string;
  pending : list string
}.

(** A [SynthHD] object: the link owned by [SerialDevice] and the channel
    list built by [SynthHD.__init__]. *)
Record SynthHD : Type := {
  _dev : Transport;
  _channels : list SynthHDChannel
}.

Inductive result (A : Type) : Type :=
| Ok (a : A)
| Raise (e : exn).
Arguments Ok {A} a.
Arguments Raise {A} e.

(** A method call: it runs on the device object and returns or raises. *)
Definition M (A : Type) : Type := SynthHD -> result A * SynthHD.

Definition ret {A} (a : A) : M A := fun s => (Ok a, s).
Definition raise {A} (e : exn) : M A := fun s => (Raise e, s).
Definition bind {A B} (m : M A) (k : A -> M B) : M B :=
  fun s =>
    match m s with
    | (Ok a, s') => k a s'
    | (Raise e, s') => (Raise e, s')
    end.

Declare Scope py_scope.
Delimit Scope py_scope with py.
Notation "x <- m ;; k" := (bind m (fun x => k))
  (at level 61, m at next level, right associativity) : py_scope.
Notation "m ;; k" := (bind m (fun _ => k))
  (at level 61, right associativity) : py_scope.
Local Open Scope py_scope.

(** The lines a call transmits, given the device before and after. *)
Definition wire (s : SynthHD) : list string := sent (_dev s).

Definition write_line (text : string) : M unit :=
  fun s =>
    (Ok tt, {| _dev := {| sent := sent (_dev s) ++ [text];
                          pending := pending (_dev s) |};
               _channels := _channels s |}).

Definition read_line : M string :=
  fun s =>
    match pending (_dev s) with
    | [] => (Raise Timeout, s)
    | r :: rest =>
        (Ok r, {| _dev := {| sent := sent (_dev s); pending := rest |};
                  _channels := _channels s |})
    end.

(* ================================================================== *)
(** ** The attribute table [SynthHD.API] *)

Inductive dtype : Type := t_int | t_float | t_bool | t_str.

Record AttributeSpec : Type := {
  value_type : option dtype;
  write_template : option string;
  query_command : option string
}.

Definition entry (name : string) (ty : option dtype) (w r : option string)
  : string * AttributeSpec :=
  (name, {| value_type := ty; write_template := w; query_command := r |}).

Definition API : list (string * AttributeSpec) :=
  [ entry "channel"          (Some t_int)   (Some "C{}")     (Some "C?");
    entry "frequency"        (Some t_float) (Some "f{:.7f}") (Some "f?");
    entry "power"            (Some t_float) (Some "W{:.3f}") (Some "W?");
    entry "calibrated"       (Some t_bool)  None             (Some "V");
    entry "temp_comp_mode"   (Some t_int)   (Some "Z{}")     (Some "Z?");
    entry "vga_dac"          (Some t_int)   (Some "a{}")     (Some "a?");
    entry "phase_step"       (Some t_float) (Some "~{:.3f}") (Some "~?");
    entry "rf_mute"          (Some t_bool)  (Some "h{}")     (Some "h?");
    entry "pa_power_on"      (Some t_bool)  (Some "r{}")     (Some "r?");
    entry "pll_power_on"     (Some t_bool)  (Some "E{}")     (Some "E?");

    entry "model_type"       (Some t_str)   None             (Some "+");
    entry "serial_number"    (Some t_int)   None             (Some "-");
    entry "fw_version"       (Some t_str)   None             (Some "v0");
    entry "hw_version"       (Some t_str)   None             (Some "v1");
    entry "save"             None           (Some "e")       None;
    entry "reference_mode"   (Some t_int)   (Some "x{}")     (Some "x?");
    entry "trig_function"    (Some t_int)   (Some "w{}")     (Some "w?");
    entry "pll_lock"         (Some t_bool)  None             (Some "p");
    entry "temperature"      (Some t_float) None             (Some "z");
    entry "ref_frequency"    (Some t_float) (Some "*{:.3f}") (Some "*?");

    entry "sweep_freq_low"   (Some t_int)   (Some "l{}")     (Some "l?");
    entry "sweep_freq_high"  (Some t_int)   (Some "u{}")     (Some "u?");
    entry "sweep_freq_step"  (Some t_int)   (Some "s{}")     (Some "s?");
    entry "sweep_time_step"  (Some t_int)   (Some "t{:.3f}") (Some "t?");
    entry "sweep_power_low"  (Some t_int)   (Some "[{:.3f}") (Some "[?");
    entry "sweep_power_high" (Some t_int)   (Some "]{:.3f}") (Some "]?");
    entry "sweep_direction"  (Some t_int)   (Some "^{}")     (Some "^?");
    entry "sweep_diff_freq"  (Some t_int)   (Some "k{}")     (Some "k?");
    entry "sweep_diff_meth"  (Some t_int)   (Some "n{}")     (Some "n?");
    entry "sweep_type"       (Some t_int)   (Some "X{}")     (Some "X?");
    entry "sweep_single"     (Some t_bool)  (Some "g{}")     (Some "g?");
    entry "sweep_cont"       (Some t_bool)  (Some "c{}")     (Some "c?");

    entry "am_time_step"     (Some t_int)   (Some "F{}")     (Some "F?");
    entry "am_num_samples"   (Some t_int)   (Some "q{}")     (Some "q?");
    entry "am_cont"          (Some t_bool)  (Some "A{}")     (Some "A?");
    entry "am_lookup_table"  (Some t_int)   (Some "@{}{}")   (Some "@{}?");

    entry "pulse_on_time"    (Some t_int)   (Some "P{}")     (Some "P?");
    entry "pulse_off_time"   (Some t_int)   (Some "O{}")     (Some "O?");
    entry "pulse_num_rep"    (Some t_int)   (Some "R{}")     (Some "R?");
    entry "pulse_invert"     (Some t_bool)  (Some ":{}")     (Some ":?");
    entry "pulse_single"     None           (Some "G")       None;
    entry "pulse_cont"       (Some t_bool)  (Some "j{}")     (Some "j?");
    entry "dual_pulse_mod"   (Some t_bool)  (Some "D{}")     (Some "D?");

    entry "fm_frequency"     (Some t_int)   (Some "<{}")     (Some "<?");
    entry "fm_deviation"     (Some t_int)   (Some ">{}")     (Some ">?");
    entry "fm_num_samples"   (Some t_int)   (Some ",{}")     (Some ",?");
    entry "fm_mod_type"      (Some t_int)   (Some ";{}")     (Some ";?");
    entry "fm_cont"          (Some t_bool)  (Some "/{}")     (Some "/?") ].

Fixpoint lookup (tbl : list (string * AttributeSpec)) (name : string)
  : option AttributeSpec :=
  match tbl with
  | [] => None
  | (n, a) :: rest => if String.eqb n name then Some a else lookup rest name
  end.

(* ================================================================== *)
(** ** The session: [SerialDevice.write] and [SerialDevice.read] *)

Module Session.

(** Modelled from the spec: [SerialDevice.write] (windfreak/device.py is
    not among the sources).  The attribute is looked up in the table, its
    write template is formatted with the arguments and the text goes out
    as one line; no reply is consumed.  When the template does not format,
    nothing goes out and the exception is the one of the formatting. *)
Definition write (attribute : string) (args : list value) : M unit :=
  match lookup API attribute with
  | None => raise UnknownAttribute
  | Some a =>
      match write_template a with
      | None => raise InvalidAttribute
      | Some tpl =>
          match Text.format tpl args with
          | None => raise (Text.failure tpl args)
          | Some line => write_line line
          end
      end
  end.

(** Modelled from the spec: the decoding of one reply line according to
    the value type of the attribute. *)
Definition parse (ty : option dtype) (reply : string) : M value :=
  match ty with
  | Some t_bool => ret (VBool (String.eqb reply "1"))
  | Some t_int =>
      match Text.to_Z reply with
      | Some z => ret (VInt z)
      | None => raise ProtocolError
      end
  | Some t_float =>
      match Text.to_float reply with
      | Some f => ret (VFloat f)
      | None => raise ProtocolError
      end
  | Some t_str => ret (VStr (Text.rstrip_eol reply))
  | None => raise InvalidAttribute
  end.

(** Modelled from the spec: [SerialDevice.read] (windfreak/device.py is
    not among the sources).  The query command is formatted with the
    arguments and transmitted as one line, exactly one reply line is
    awaited and decoded. *)
Definition read (attribute : string) (args : list value) : M value :=
  match lookup API attribute with
  | None => raise UnknownAttribute
  | Some a =>
      match query_command a with
      | None => raise InvalidAttribute
      | Some tpl =>
          match Text.format tpl args with
          | None => raise ArgumentMismatch
          | Some line =>
              write_line line ;;
              reply <- read_line ;;
              parse (value_type a) reply
          end
      end
  end.

End Session.

(* ================================================================== *)
(** ** Python operations used by the properties *)

Record range : Type := { start : value; stop : value; step : value }.

(** [float(z)] inside an arithmetic operation on an [int]. *)
Definition float_of_int (z : Z) : M spec_float :=
  match Float.of_Z z with
  | S754_infinity _ => raise OverflowError
  | f => ret f
  end.

Definition as_float (v : value) : M spec_float :=
  match v with
  | VFloat f => ret f
  | VInt z => float_of_int z
  | VBool b => float_of_int (Z_of_bool b)
  | _ => raise TypeError
  end.

(** [v / c] and [v * c] for a float constant [c]. *)
Definition truediv_float (v : value) (c : spec_float) : M value :=
  f <- as_float v ;; ret (VFloat (Float.div f c)).

Definition mul_float (v : value) (c : spec_float) : M value :=
  f <- as_float v ;; ret (VFloat (Float.mul f c)).

(** [t[i]] on a tuple of strings: a negative index counts from the end. *)
Definition tuple_getitem (t : list string) (i : value) : M value :=
  let at_ (z : Z) : M value :=
    let n := Z.of_nat (List.length t) in
    let j := if z <? 0 then z + n else z in
    if (j <? 0) || (n <=? j) then raise IndexError
    else match nth_error t (Z.to_nat j) with
         | Some s => ret (VStr s)
         | None => raise IndexError
         end in
  match i with
  | VInt z => at_ z
  | VBool b => at_ (Z_of_bool b)
  | _ => raise TypeError
  end.

(** [value in t]. *)
Definition tuple_contains (t : list string) (v : value) : bool :=
  match v with
  | VStr s => existsb (String.eqb s) t
  | _ => false
  end.

(** [t.index(s)]: the position of the first occurrence. *)
Fixpoint index_of (t : list string) (s : string) : option Z :=
  match t with
  | [] => None
  | x :: rest =>
      if String.eqb x s then Some 0 else option_map Z.succ (index_of rest s)
  end.

Definition tuple_index (t : list string) (v : value) : M value :=
  match v with
  | VStr s =>
      match index_of t s with
      | Some i => ret (VInt i)
      | None => raise ValueError
      end
  | _ => raise ValueError
  end.

(* ================================================================== *)
(** ** class SynthHDChannel *)

Module Channel.

Section Methods.

Variable self : SynthHDChannel.

Definition select : M unit :=
  Session.write "channel" [VInt (_index self)].

Definition write (attribute : string) (args : list value) : M unit :=
  select ;; Session.write attribute args.

Definition read (attribute : string) (args : list value) : M value :=
  select ;; Session.read attribute args.

Definition frequency_range : range :=
  {| start := VFloat f_53e6;
     stop := VFloat f_13999_999999e6;
     step := VFloat (Float.of_decimal 1 (-1)) |}.

Definition frequency : M value :=
  v <- read "frequency" [] ;; mul_float v f_1e6.

Definition set_frequency (value : value) : M unit :=
  let f_range := frequency_range in
  if negb (isinstance_float_int value)
     || negb (py_le (start f_range) value && py_le value (stop f_range))
  then raise ValueError
  else x <- truediv_float value f_1e6 ;; write "frequency" [x].

Definition power_range : range :=
  {| start := VFloat (Float.of_decimal (-60) 0);
     stop := VFloat (Float.of_decimal 20 0);
     step := VFloat (Float.of_decimal 1 (-3)) |}.

Definition power : M value := read "power" [].

Definition set_power (value : value) : M unit :=
  if negb (isinstance_float_int value) then raise TypeError
  else write "power" [value].

Definition calibrated : M value := read "calibrated" [].

Definition temp_compensation_modes : list string :=
  ["none"; "on set"; "1 sec"; "10 sec"].

Definition temp_compensation_mode : M value :=
  i <- read "temp_comp_mode" [] ;;
  tuple_getitem temp_compensation_modes i.

Definition set_temp_compensation_mode (value : value) : M unit :=
  let modes := temp_compensation_modes in
  if negb (tuple_contains modes value) then raise ValueError
  else i <- tuple_index modes value ;; write "temp_comp_mode" [i].

Definition vga_dac_range : range :=
  {| start := VInt 0; stop := VInt 45000; step := VInt 1 |}.

Definition vga_dac : M value := read "vga_dac" [].

Definition set_vga_dac (value : value) : M unit :=
  if negb (isinstance_int value) then raise TypeError
  else write "vga_dac" [value].

Definition phase_range : range :=
  {| start := VFloat (S754_zero false);
     stop := VFloat (Float.of_decimal 360 0);
     step := VFloat (Float.of_decimal 1 (-3)) |}.

Definition phase : M value := read "phase_step" [].

Definition set_phase (value : value) : M unit :=
  if negb (isinstance_float_int value) then raise TypeError
  else write "phase_step" [value].

Definition rf_mute : M value :=
  v <- read "rf_mute" [] ;; ret (py_not v).

Definition set_rf_mute (value : value) : M unit :=
  if negb (isinstance_bool value) then raise ValueError
  else write "rf_mute" [py_not value].

Definition pa_enable : M value := read "pa_power_on" [].

Definition set_pa_enable (value : value) : M unit :=
  if negb (isinstance_bool value) then raise ValueError
  else write "pa_power_on" [value].

Definition pll_enable : M value := read "pll_power_on" [].

Definition set_pll_enable (value : value) : M unit :=
  if negb (isinstance_bool value) then raise ValueError
  else write "pll_power_on" [value].

(** [not self.rf_mute and self.pll_enable and self.pa_enable]: [and]
    evaluates its right operand only when the left one is true. *)
Definition enable : M value :=
  m <- rf_mute ;;
  let a := py_not m in
  if negb (truthy a) then ret a
  else
    p <- pll_enable ;;
    if negb (truthy p) then ret p
    else pa_enable.

Definition set_enable (value : value) : M unit :=
  if negb (isinstance_bool value) then raise TypeError
  else
    set_rf_mute (py_not value) ;;
    set_pll_enable value ;;
    set_pa_enable value.

Definition lock_status : M value := read "pll_lock" [].

Definition init : M unit :=
  set_enable (VBool false) ;;
  set_frequency (start frequency_range) ;;
  set_power (start power_range) ;;
  set_phase (VFloat (S754_zero false)) ;;
  set_temp_compensation_mode (VStr "10 sec").

End Methods.

End Channel.

(* ================================================================== *)
(** ** class SynthHD *)

Module Device.

(** [SynthHD.__init__]: the link opened by [SerialDevice.__init__] and
    [[SynthHDChannel(self, index) for index in range(2)]]. *)
Definition __init__ (link : Transport) : SynthHD :=
  {| _dev := link;
     _channels := map (fun index => {| _index := index |}) [0; 1] |}.

(** [self._channels.__getitem__(key)] for an integer key. *)
Definition __getitem__ (key : Z) : M SynthHDChannel :=
  fun s =>
    let n := Z.of_nat (List.length (_channels s)) in
    let j := if key <? 0 then key + n else key in
    if (j <? 0) || (n <=? j) then (Raise IndexError, s)
    else match nth_error (_channels s) (Z.to_nat j) with
         | Some ch => (Ok ch, s)
         | None => (Raise IndexError, s)
         end.

Definition __len__ : M Z :=
  fun s => (Ok (Z.of_nat (List.length (_channels s))), s).

Definition model_type : M value := Session.read "model_type" [].
Definition serial_number : M value := Session.read "serial_number" [].
Definition firmware_version : M value := Session.read "fw_version" [].
Definition hardware_version : M value := Session.read "hw_version" [].

Definition save : M unit := Session.write "save" [].

Definition reference_modes : list string :=
  ["external"; "internal 27mhz"; "internal 10mhz"].

Definition reference_mode : M value :=
  i <- Session.read "reference_mode" [] ;;
  tuple_getitem reference_modes i.

Definition set_reference_mode (value : value) : M unit :=
  let modes := reference_modes in
  if negb (tuple_contains modes value) then raise ValueError
  else i <- tuple_index modes value ;; Session.write "reference_mode" [i].

Definition trigger_modes : list string :=
  [ "disabled";
    "full frequency sweep";
    "single frequency step";
    "stop all";
    "rf enable";
    "remove interrupts";
    "reserved";
    "reserved";
    "am modulation";
    "fm modulation" ].

Definition trigger_mode : M value :=
  i <- Session.read "trig_function" [] ;;
  tuple_getitem trigger_modes i.

Definition set_trigger_mode (value : value) : M unit :=
  let modes := trigger_modes in
  if negb (tuple_contains modes value) then raise ValueError
  else i <- tuple_index modes value ;; Session.write "trig_function" [i].

Definition temperature : M value := Session.read "temperature" [].

Definition reference_frequency_range : range :=
  {| start := VFloat f_10e6; stop := VFloat f_100e6; step := VFloat f_1e3 |}.

Definition reference_frequency : M value :=
  v <- Session.read "ref_frequency" [] ;; mul_float v f_1e6.

Definition set_reference_frequency (value : value) : M unit :=
  let f_range := reference_frequency_range in
  if negb (isinstance_float_int value)
     || negb (py_le (start f_range) value && py_le value (stop f_range))
  then raise ValueError
  else x <- truediv_float value f_1e6 ;; Session.write "ref_frequency" [x].

(** The five boolean switches share one shape. *)
Definition get_switch (attribute : string) : M value :=
  Session.read attribute [].

Definition set_switch (attribute : string) (value : value) : M unit :=
  if negb (isinstance_bool value) then raise ValueError
  else Session.write attribute [value].

Definition sweep_enable := get_switch "sweep_cont".
Definition set_sweep_enable := set_switch "sweep_cont".
Definition am_enable := get_switch "am_cont".
Definition set_am_enable := set_switch "am_cont".
Definition pulse_mod_enable := get_switch "pulse_cont".
Definition set_pulse_mod_enable := set_switch "pulse_cont".
Definition dual_pulse_mod_enable := get_switch "dual_pulse_mod".
Definition set_dual_pulse_mod_enable := set_switch "dual_pulse_mod".
Definition fm_enable := get_switch "fm_cont".
Definition set_fm_enable := set_switch "fm_cont".

(** [for channel in self: body(channel)]: the sequence protocol yields
    [self[0]], [self[1]], ... in order. *)
Fixpoint for_each (chs : list SynthHDChannel)
         (body : SynthHDChannel -> M unit) : M unit :=
  match chs with
  | [] => ret tt
  | ch :: rest => body ch ;; for_each rest body
  end.

Definition init : M unit :=
  set_reference_mode (VStr "internal 27mhz") ;;
  set_trigger_mode (VStr "disabled") ;;
  set_sweep_enable (VBool false) ;;
  set_am_enable (VBool false) ;;
  set_pulse_mod_enable (VBool false) ;;
  set_dual_pulse_mod_enable (VBool false) ;;
  set_fm_enable (VBool false) ;;
  fun s => for_each (_channels s) Channel.init s.

End Device.

(* ================================================================== *)
(** ** Exact values of binary64 numbers and of decimal texts *)

(** [2^e] as a rational number. *)
Definition pow2 (e : Z) : Q := ((2 # 1) ^ e)%Q.

(** The rational number a finite binary64 number stands for. *)
Definition to_Q (f : spec_float) : Q :=
  match f with
  | S754_finite s m e => (inject_Z (Float.signed s m) * pow2 e)%Q
  | _ => 0%Q
  end.

(** The rational number a Python number stands for. *)
Definition value_Q (v : value) : Q :=
  match v with
  | VInt z => inject_Z z
  | VBool b => inject_Z (Z_of_bool b)
  | VFloat f => to_Q f
  | _ => 0%Q
  end.

(** The relative rounding error of binary64, [2^-53]. *)
Definition u53 : Q := 1 # (2 ^ 53).

(** [located P D mrs]: the shift record [mrs] holds the integer part of
    [P / D] and the position of the remainder with respect to one half. *)
Definition located (P D : Z) (mrs : shr_record) : Prop :=
  0 < D /\ 0 <= P /\ shr_m mrs = P / D
  /\ shr_r mrs = (D <=? 2 * (P mod D))
  /\ shr_s mrs = negb ((P mod D =? 0) || (2 * (P mod D) =? D)).

(** The position of [P / D] between two integers. *)
Definition loc_of (P D : Z) : location :=
  if P mod D =? 0 then loc_Exact else loc_Inexact (2 * (P mod D) ?= D).

(** A canonical positive binary64 number [m0 * 2^e0] of the frequency range
    [53e6, 13999999999]. *)
Definition in_band (m0 : positive) (e0 : Z) : Prop :=
  2 ^ 52 <= Zpos m0 < 2 ^ 53 /\ -27 <= e0 <= -19
  /\ 53000000 * 2 ^ (- e0) <= Zpos m0 <= 13999999999 * 2 ^ (- e0).


Module Digits.

Import Decimal.

(** The value of a digit sequence read after the digits worth [acc]. *)
Fixpoint uval (acc : Z) (u : uint) : Z :=
  match u with
  | Nil => acc
  | D0 l => uval (10 * acc) l
  | D1 l => uval (1 + 10 * acc) l
  | D2 l => uval (2 + 10 * acc) l
  | D3 l => uval (3 + 10 * acc) l
  | D4 l => uval (4 + 10 * acc) l
  | D5 l => uval (5 + 10 * acc) l
  | D6 l => uval (6 + 10 * acc) l
  | D7 l => uval (7 + 10 * acc) l
  | D8 l => uval (8 + 10 * acc) l
  | D9 l => uval (9 + 10 * acc) l
  end.

(** One digit sequence after another. *)
Fixpoint uapp (u v : uint) : uint :=
  match u with
  | Nil => v
  | D0 l => D0 (uapp l v)
  | D1 l => D1 (uapp l v)
  | D2 l => D2 (uapp l v)
  | D3 l => D3 (uapp l v)
  | D4 l => D4 (uapp l v)
  | D5 l => D5 (uapp l v)
  | D6 l => D6 (uapp l v)
  | D7 l => D7 (uapp l v)
  | D8 l => D8 (uapp l v)
  | D9 l => D9 (uapp l v)
  end.

(** The digits of a natural number. *)
Definition digits_of (r : Z) : uint := N.to_uint (Z.to_N r).

End Digits.


(* ================================================================== *)
(** ** Basic facts about the session *)

Local Open Scope list_scope.

Lemma append_empty (s : string) : (s ++ "")%string = s.
Proof. induction s as [|c s IH]; simpl; [reflexivity | now rewrite IH]. Qed.

(** The line of a channel-select write. *)
Definition select_line (index : Z) : string :=
  ("C" ++ Text.of_Z index)%string.

(** The device after one more transmitted line. *)
Definition transmit (s : SynthHD) (line : string) : SynthHD :=
  {| _dev := {| sent := sent (_dev s) ++ [line]; pending := pending (_dev s) |};
     _channels := _channels s |}.


Lemma wire_transmit (s : SynthHD) (line : string) :
  wire (transmit s line) = wire s ++ [line].
Proof. reflexivity. Qed.

Lemma select_transmit (ch : SynthHDChannel) (s : SynthHD) :
  Channel.select ch s = (Ok tt, transmit s (select_line (_index ch))).
Proof.
  unfold Channel.select, Session.write, select_line. simpl.
  now rewrite append_empty.
Qed.

Lemma channel_write_eq (ch : SynthHDChannel) attribute args (s : SynthHD) :
  Channel.write ch attribute args s =
  Session.write attribute args (transmit s (select_line (_index ch))).
Proof. unfold Channel.write, bind. now rewrite select_transmit. Qed.

Lemma channel_read_eq (ch : SynthHDChannel) attribute args (s : SynthHD) :
  Channel.read ch attribute args s =
  Session.read attribute args (transmit s (select_line (_index ch))).
Proof. unfold Channel.read, bind. now rewrite select_transmit. Qed.

(** A session write transmits at most its own line, after what was sent. *)
Lemma session_write_wire attribute args (s : SynthHD) :
  exists tail, wire (snd (Session.write attribute args s)) = wire s ++ tail
               /\ (List.length tail <= 1)%nat.
Proof.
  unfold Session.write.
  destruct (lookup API attribute) as [a|]; [|exists []; simpl; rewrite app_nil_r; auto].
  destruct (write_template a) as [tpl|]; [|exists []; simpl; rewrite app_nil_r; auto].
  destruct (Text.format tpl args) as [line|]; [|exists []; simpl; rewrite app_nil_r; auto].
  exists [line]. simpl. auto.
Qed.

(** A boolean as the device reports it. *)
Definition reply_of_bool (b : bool) : string := if b then "1" else "0".

(** The device about to deliver the given replies. *)
Definition device (out replies : list string) (chs : list SynthHDChannel)
  : SynthHD :=
  {| _dev := {| sent := out; pending := replies |}; _channels := chs |}.

(* ================================================================== *)
(** ** Channel-scoped reads and writes *)

(** C5.  A channel-scoped write or read first performs exactly one
    channel-select write, which transmits the line [C{index}] and nothing
    else, and then is the session's own write or read of the requested
    attribute, run on the device right after that line: nothing is sent or
    received in between, and whatever the delegate transmits follows the
    select line.  This holds for every attribute and argument list and
    every index, in particular for the channels 0 and 1, whose select lines
    are [C0] and [C1]. *)
Theorem channel_io_selects_first
        (ch : SynthHDChannel) (attribute : string) (args : list value)
        (s : SynthHD) :
  let s1 := transmit s (select_line (_index ch)) in
  Channel.select ch s = Session.write "channel" [VInt (_index ch)] s
  /\ Channel.select ch s = (Ok tt, s1)
  /\ wire s1 = wire s ++ [select_line (_index ch)]
  /\ pending (_dev s1) = pending (_dev s)
  /\ Channel.write ch attribute args s = Session.write attribute args s1
  /\ Channel.read ch attribute args s = Session.read attribute args s1
  /\ (exists tail,
         wire (snd (Channel.write ch attribute args s))
         = wire s ++ select_line (_index ch) :: tail
         /\ (List.length tail <= 1)%nat)
  /\ select_line 0 = "C0" /\ select_line 1 = "C1".
Proof.
  intros s1. subst s1.
  repeat split; try reflexivity.
  - apply select_transmit.
  - apply channel_write_eq.
  - apply channel_read_eq.
  - rewrite channel_write_eq.
    destruct (session_write_wire attribute args
                (transmit s (select_line (_index ch)))) as [tail [Hw Hl]].
    exists tail. split; [|exact Hl].
    rewrite Hw, wire_transmit, <- app_assoc. reflexivity.
Qed.

(* ================================================================== *)
(** ** The composite [enable] property *)

(** The lines of a boolean write on a channel. *)
Lemma channel_write_bool (ch : SynthHDChannel) (s : SynthHD) (b : bool)
      (attribute : string) (code : ascii) :
  lookup API attribute
  = Some {| value_type := Some t_bool;
            write_template := Some (String code "{}");
            query_command := Some (String code "?") |} ->
  code <> "{"%char ->
  Channel.write ch attribute [VBool b] s
  = (Ok tt, transmit (transmit s (select_line (_index ch)))
                     (String code (reply_of_bool b))).
Proof.
  intros Hl Hc. rewrite channel_write_eq. unfold Session.write.
  rewrite Hl. cbn [write_template].
  assert (Hf : Text.format (String code "{}") [VBool b]
               = Some (String code (reply_of_bool b))).
  { cbn [Text.format].
    destruct code as [[] [] [] [] [] [] [] []];
      try (exfalso; apply Hc; reflexivity); destruct b; reflexivity. }
  rewrite Hf. reflexivity.
Qed.

(** C1 (as the code has it).  [enable = True] is the three channel writes
    of rf_mute, pll_power_on and pa_power_on, in that order and each with
    the value [True]: the rf_mute setter stores the inverse of the mute
    flag, so unmuting transmits [h1].  Each write is preceded by its
    channel-select line, so the lines transmitted are
    [C{i}, h1, C{i}, E1, C{i}, r1]; the call returns normally and consumes
    no reply. *)
Theorem enable_true_fans_out (ch : SynthHDChannel) (s : SynthHD) :
  let c := select_line (_index ch) in
  let s' := snd (Channel.set_enable ch (VBool true) s) in
  Channel.set_enable ch (VBool true) s
  = (Channel.write ch "rf_mute" [VBool true] ;;
     Channel.write ch "pll_power_on" [VBool true] ;;
     Channel.write ch "pa_power_on" [VBool true]) s
  /\ fst (Channel.set_enable ch (VBool true) s) = Ok tt
  /\ wire s' = wire s ++ [c; "h1"; c; "E1"; c; "r1"]
  /\ pending (_dev s') = pending (_dev s).
Proof.
  cbv zeta.
  assert (E : Channel.set_enable ch (VBool true) s
              = (Channel.write ch "rf_mute" [VBool true] ;;
                 Channel.write ch "pll_power_on" [VBool true] ;;
                 Channel.write ch "pa_power_on" [VBool true]) s)
    by reflexivity.
  split; [exact E|]. rewrite E. unfold bind.
  rewrite (channel_write_bool ch s true "rf_mute" "h" eq_refl) by discriminate.
  rewrite (channel_write_bool ch _ true "pll_power_on" "E" eq_refl) by discriminate.
  rewrite (channel_write_bool ch _ true "pa_power_on" "r" eq_refl) by discriminate.
  repeat split. unfold wire, transmit. simpl.
  repeat rewrite <- app_assoc. reflexivity.
Qed.

(** A fresh device on an idle link. *)
Definition idle : SynthHD := Device.__init__ {| sent := []; pending := [] |}.

(** C1, the claim as stated fails: with [enable = True] on channel 0 the
    attribute lines (the select lines left out) are [h1, E1, r1]; the line
    [h0] is never transmitted. *)
Lemma enable_true_sends_h1_not_h0 :
  let s' := snd (Channel.set_enable {| _index := 0 |} (VBool true) idle) in
  filter (fun l => negb (String.eqb l "C0")) (wire s') = ["h1"; "E1"; "r1"]
  /\ filter (fun l => negb (String.eqb l "C0")) (wire s') <> ["h0"; "E1"; "r1"]
  /\ ~ In "h0" (wire s').
Proof.
  vm_compute. repeat split; try discriminate.
  intros H. repeat (destruct H as [H|H]; [discriminate|]). exact H.
Qed.

(** The replies of the three underlying reads of [enable]. *)
Definition enable_replies (h e r : bool) : list string :=
  [reply_of_bool h; reply_of_bool e; reply_of_bool r].

Lemma channel_read_bool (ch : SynthHDChannel) (b : bool)
      (attribute : string) (code : ascii) out replies chs :
  lookup API attribute
  = Some {| value_type := Some t_bool;
            write_template := Some (String code "{}");
            query_command := Some (String code "?") |} ->
  code <> "{"%char ->
  Channel.read ch attribute [] (device out (reply_of_bool b :: replies) chs)
  = (Ok (VBool b),
     device (out ++ [select_line (_index ch); String code "?"]) replies chs).
Proof.
  intros Hl Hc. rewrite channel_read_eq. unfold Session.read.
  rewrite Hl. cbn [query_command value_type].
  assert (Hf : Text.format (String code "?") [] = Some (String code "?")).
  { cbn [Text.format].
    destruct code as [[] [] [] [] [] [] [] []];
      try (exfalso; apply Hc; reflexivity); reflexivity. }
  rewrite Hf. unfold bind, transmit, device, write_line, read_line. simpl.
  rewrite <- app_assoc. simpl. destruct b; reflexivity.
Qed.

(** C4 (as the code has it).  For all eight combinations of the three
    underlying reads, the [enable] getter returns the conjunction of the
    rf_mute attribute read, the pll_power_on read and the pa_power_on read,
    none of them inverted: the rf_mute property is the inverse of the
    attribute and [enable] inverts it again.  So it is [True] exactly when
    the rf_mute property reads false (the attribute reads true) and both
    power attributes read true. *)
Theorem enable_getter_is_conjunction
        (ch : SynthHDChannel) (h e r : bool) out rest chs :
  let s := device out (enable_replies h e r ++ rest) chs in
  fst (Channel.enable ch s) = Ok (VBool (h && e && r))
  /\ fst (Channel.rf_mute ch s) = Ok (VBool (negb h))
  /\ (fst (Channel.enable ch s) = Ok (VBool true)
      <-> fst (Channel.rf_mute ch s) = Ok (VBool false)
          /\ e = true /\ r = true).
Proof.
  cbv zeta. unfold enable_replies. cbn [app].
  assert (Hm : Channel.rf_mute ch
                 (device out (reply_of_bool h :: reply_of_bool e
                              :: reply_of_bool r :: rest) chs)
               = (Ok (VBool (negb h)),
                  device (out ++ [select_line (_index ch); "h?"%string])
                         (reply_of_bool e :: reply_of_bool r :: rest) chs)).
  { unfold Channel.rf_mute, bind.
    rewrite (channel_read_bool ch h "rf_mute" "h") by (reflexivity || discriminate).
    reflexivity. }
  assert (He : fst (Channel.enable ch
                 (device out (reply_of_bool h :: reply_of_bool e
                              :: reply_of_bool r :: rest) chs))
               = Ok (VBool (h && e && r))).
  { unfold Channel.enable, bind. rewrite Hm.
    destruct h; cbn [py_not truthy negb andb]; [|reflexivity].
    unfold Channel.pll_enable.
    rewrite (channel_read_bool ch e "pll_power_on" "E") by (reflexivity || discriminate).
    destruct e; cbn [py_not truthy negb andb]; [|reflexivity].
    unfold Channel.pa_enable.
    rewrite (channel_read_bool ch r "pa_power_on" "r") by (reflexivity || discriminate).
    reflexivity. }
  rewrite He, Hm. cbn [fst]. repeat split.
  - destruct h; [reflexivity|discriminate].
  - destruct h, e; try reflexivity; discriminate.
  - destruct h, e, r; try reflexivity; discriminate.
  - intros [Hh [-> ->]]. destruct h; [reflexivity|discriminate].
Qed.

(** C4, the claim as stated fails: when the rf_mute attribute reads false
    and both power attributes read true, the claim expects [True] and the
    getter returns [False]. *)
Lemma enable_getter_mute_attribute_false :
  let s := Device.__init__
             {| sent := []; pending := enable_replies false true true |} in
  fst (Session.read "rf_mute" [] s) = Ok (VBool false)
  /\ fst (Channel.enable {| _index := 0 |} s) = Ok (VBool false)
  /\ fst (Channel.enable {| _index := 0 |} s)
     <> Ok (VBool (negb false && true && true)).
Proof. vm_compute. repeat split; discriminate. Qed.

(* ================================================================== *)
(** ** Enumerated modes *)

Lemma tuple_getitem_int (t : list string) (z : Z) (s : SynthHD) :
  let n := Z.of_nat (List.length t) in
  (z < - n \/ n <= z -> tuple_getitem t (VInt z) s = (Raise IndexError, s))
  /\ (- n <= z < 0 ->
      tuple_getitem t (VInt z) s = (Ok (VStr (nth (Z.to_nat (z + n)) t "")), s))
  /\ (0 <= z < n ->
      tuple_getitem t (VInt z) s = (Ok (VStr (nth (Z.to_nat z) t "")), s)).
Proof.
  intros n. unfold tuple_getitem. fold n.
  assert (Hnth : forall j, 0 <= j < n ->
            nth_error t (Z.to_nat j) = Some (nth (Z.to_nat j) t ""%string)).
  { intros j Hj. apply nth_error_nth'. subst n. lia. }
  repeat split.
  - intros H. destruct (Z.ltb_spec z 0) as [Hz|Hz].
    + destruct (Z.ltb_spec (z + n) 0); cbn [orb]; [reflexivity|].
      destruct (Z.leb_spec n (z + n)); [reflexivity|lia].
    + destruct (Z.ltb_spec z 0); [lia|]. cbn [orb].
      destruct (Z.leb_spec n z); [reflexivity|lia].
  - intros H. destruct (Z.ltb_spec z 0) as [Hz|Hz]; [|lia].
    destruct (Z.ltb_spec (z + n) 0); [lia|]. cbn [orb].
    destruct (Z.leb_spec n (z + n)); [lia|].
    rewrite Hnth by lia. reflexivity.
  - intros H. destruct (Z.ltb_spec z 0) as [Hz|Hz]; [lia|].
    destruct (Z.ltb_spec z 0); [lia|]. cbn [orb].
    destruct (Z.leb_spec n z); [lia|].
    rewrite Hnth by lia. reflexivity.
Qed.

(** Reading an integer attribute whose query is one letter and [?]. *)
Lemma session_read_int (attribute : string) (code : ascii) w
      (reply : string) (z : Z) out rest chs :
  lookup API attribute
  = Some {| value_type := Some t_int; write_template := w;
            query_command := Some (String code "?") |} ->
  code <> "{"%char ->
  Text.to_Z reply = Some z ->
  Session.read attribute [] (device out (reply :: rest) chs)
  = (Ok (VInt z), device (out ++ [String code "?"]) rest chs).
Proof.
  intros Hl Hc Hz. unfold Session.read. rewrite Hl.
  cbn [query_command value_type].
  assert (Hf : Text.format (String code "?") [] = Some (String code "?")).
  { cbn [Text.format].
    destruct code as [[] [] [] [] [] [] [] []];
      try (exfalso; apply Hc; reflexivity); reflexivity. }
  rewrite Hf. unfold bind, write_line, read_line, Session.parse. cbn.
  rewrite Hz. reflexivity.
Qed.

(** What a mode getter [g] over the tuple [modes] does when the reply
    decodes to [z]: an index past either end raises [IndexError], a negative
    index within the length counts from the end, any other one selects its
    mode. *)
Definition indexes_like_tuple (modes : list string) (g : M value)
           (s : SynthHD) (z : Z) : Prop :=
  let n := Z.of_nat (List.length modes) in
  (z < - n \/ n <= z -> fst (g s) = Raise IndexError)
  /\ (- n <= z < 0 ->
      fst (g s) = Ok (VStr (nth (Z.to_nat (z + n)) modes "")))
  /\ (0 <= z < n -> fst (g s) = Ok (VStr (nth (Z.to_nat z) modes ""))).

Lemma indexes_like_tuple_intro modes (g : M value) s s' z :
  g s = tuple_getitem modes (VInt z) s' ->
  indexes_like_tuple modes g s z.
Proof.
  intros E. unfold indexes_like_tuple. rewrite E.
  destruct (tuple_getitem_int modes z s') as [H1 [H2 H3]].
  repeat split; intros H.
  - now rewrite H1.
  - now rewrite H2.
  - now rewrite H3.
Qed.

(** C2 (as the code has it).  When the reply decodes to an integer [z], each
    of the three mode getters indexes its tuple of names the way Python
    does: for [z >= len] and for [z < -len] it raises [IndexError], the
    predictable failure; for [-len <= z < 0] it does not fail and returns
    the name at position [len + z]; for [0 <= z < len] it returns the name
    at position [z]. *)
Theorem mode_getters_index_like_tuple
        (ch : SynthHDChannel) (reply : string) (z : Z) out rest chs :
  Text.to_Z reply = Some z ->
  let s := device out (reply :: rest) chs in
  indexes_like_tuple Device.reference_modes Device.reference_mode s z
  /\ indexes_like_tuple Device.trigger_modes Device.trigger_mode s z
  /\ indexes_like_tuple Channel.temp_compensation_modes
                        (Channel.temp_compensation_mode ch) s z.
Proof.
  intros Hz s. subst s. split; [|split].
  - eapply indexes_like_tuple_intro.
    unfold Device.reference_mode, bind.
    rewrite (session_read_int "reference_mode" "x" _ reply z)
      by (reflexivity || discriminate || assumption).
    reflexivity.
  - eapply indexes_like_tuple_intro.
    unfold Device.trigger_mode, bind.
    rewrite (session_read_int "trig_function" "w" _ reply z)
      by (reflexivity || discriminate || assumption).
    reflexivity.
  - eapply indexes_like_tuple_intro.
    unfold Channel.temp_compensation_mode, bind.
    rewrite channel_read_eq. unfold transmit, wire. cbn [_dev sent pending _channels device].
    fold (device (out ++ [select_line (_index ch)]) (reply :: rest) chs).
    rewrite (session_read_int "temp_comp_mode" "Z" _ reply z)
      by (reflexivity || discriminate || assumption).
    reflexivity.
Qed.

Lemma mode_getters_index_like_tuple_witness :
  indexes_like_tuple Device.reference_modes Device.reference_mode
                     (device [] ["3"%string] []) 3
  /\ indexes_like_tuple Device.trigger_modes Device.trigger_mode
                        (device [] ["3"%string] []) 3
  /\ indexes_like_tuple Channel.temp_compensation_modes
                        (Channel.temp_compensation_mode {| _index := 1 |})
                        (device [] ["3"%string] []) 3.
Proof.
  apply (mode_getters_index_like_tuple {| _index := 1 |} "3" 3 [] [] []).
  reflexivity.
Defined.

(** A fresh device whose link will deliver the given replies. *)
Definition replying (replies : list string) : SynthHD :=
  Device.__init__ {| sent := []; pending := replies |}.

(** C2, the claim as stated fails: the reply [-1] decodes to the integer -1,
    which is outside the positions 0..2 of the reference modes, and the
    getter returns the last mode instead of raising. *)
Lemma reference_mode_accepts_minus_one :
  Text.to_Z "-1" = Some (-1)
  /\ ~ (0 <= -1 < Z.of_nat (List.length Device.reference_modes))
  /\ fst (Device.reference_mode (replying ["-1"%string]))
     = Ok (VStr "internal 10mhz")
  /\ fst (Device.reference_mode (replying ["-1"%string])) <> Raise ProtocolError.
Proof.
  repeat split; try reflexivity.
  - intros [H _]. apply H. reflexivity.
  - vm_compute. discriminate.
Qed.

Lemma tuple_contains_false (t : list string) (v : value) :
  (forall m, In m t -> v <> VStr m) -> tuple_contains t v = false.
Proof.
  intros H. destruct v as [| | | |m]; try reflexivity.
  cbn [tuple_contains]. destruct (existsb (String.eqb m) t) eqn:E; [|reflexivity].
  apply existsb_exists in E. destruct E as [x [Hin Heq]].
  apply String.eqb_eq in Heq. subst x. exfalso. now apply (H m).
Qed.

(** C8.  Setting [reference_mode] to a value that is not one of the three
    mode names raises [ValueError] and leaves the device as it was, so that
    nothing is transmitted; setting it to the name at position [i] of the
    sequence is the session write of that index to the reference_mode
    attribute, which transmits the line [x{i}]. *)
Theorem set_reference_mode_checks_then_writes (v : value) (s : SynthHD) :
  ((forall m, In m Device.reference_modes -> v <> VStr m) ->
   Device.set_reference_mode v s = (Raise ValueError, s))
  /\ (forall i m,
         nth_error Device.reference_modes i = Some m -> v = VStr m ->
         Device.set_reference_mode v s
         = Session.write "reference_mode" [VInt (Z.of_nat i)] s
         /\ Device.set_reference_mode v s
            = (Ok tt, transmit s ("x" ++ Text.of_Z (Z.of_nat i))%string)).
Proof.
  split.
  - intros H. unfold Device.set_reference_mode.
    now rewrite (tuple_contains_false _ _ H).
  - intros i m Hn ->.
    destruct i as [|[|[|i]]]; cbn in Hn;
      try (injection Hn as <-; split; reflexivity).
    destruct i; discriminate.
Qed.

Lemma set_reference_mode_checks_then_writes_witness :
  Device.set_reference_mode (VStr "internal") idle = (Raise ValueError, idle)
  /\ Device.set_reference_mode (VStr "internal 10mhz") idle
     = (Ok tt, transmit idle "x2").
Proof.
  split.
  - apply (proj1 (set_reference_mode_checks_then_writes (VStr "internal") idle)).
    intros m Hin. cbn in Hin.
    repeat (destruct Hin as [<-|Hin]; [discriminate|]). destruct Hin.
  - apply (proj2 (set_reference_mode_checks_then_writes
                    (VStr "internal 10mhz") idle) 2%nat "internal 10mhz"%string);
      reflexivity.
Defined.

Ltac written_index i :=
  exists i; split; [cbn; tauto | reflexivity].

(** The names the trigger-mode setter accepts, each with the index it
    writes. *)
Lemma set_trigger_mode_cases (v : value) (s : SynthHD) :
  Device.set_trigger_mode v s = (Raise ValueError, s)
  \/ exists i, In i [0; 1; 2; 3; 4; 5; 6; 8; 9]
               /\ Device.set_trigger_mode v s
                  = (Ok tt, transmit s ("w" ++ Text.of_Z i)%string).
Proof.
  unfold Device.set_trigger_mode.
  destruct (tuple_contains Device.trigger_modes v) eqn:E; [|left; reflexivity].
  right. destruct v as [| | | |m]; try discriminate.
  cbn [tuple_contains] in E. apply existsb_exists in E.
  destruct E as [x [Hin Heq]]. apply String.eqb_eq in Heq. subst x.
  cbn in Hin.
  repeat (destruct Hin as [<-|Hin];
          [first [ written_index 0 | written_index 1 | written_index 2
                 | written_index 3 | written_index 4 | written_index 5
                 | written_index 6 | written_index 8 | written_index 9 ]|]).
  destruct Hin.
Qed.

(** C9.  The trigger modes hold the name [reserved] at the positions 6 and
    7.  The setter given [reserved] writes the index 6, the first
    occurrence, and transmits [w6]; whatever value the setter is given, it
    never transmits [w7]; and when the device holds 7, reading the mode
    yields [reserved] and writing that back transmits [w6], so the
    get-then-set round trip does not restore 7. *)
Theorem trigger_mode_reserved_twice :
  nth_error Device.trigger_modes 6 = Some "reserved"%string
  /\ nth_error Device.trigger_modes 7 = Some "reserved"%string
  /\ (forall s,
         Device.set_trigger_mode (VStr "reserved") s
         = Session.write "trig_function" [VInt 6] s
         /\ Device.set_trigger_mode (VStr "reserved") s
            = (Ok tt, transmit s "w6"))
  /\ (forall v s,
         wire (snd (Device.set_trigger_mode v s)) <> wire s ++ ["w7"%string])
  /\ (forall out rest chs,
         let s := device out ("7"%string :: rest) chs in
         Device.trigger_mode s
         = (Ok (VStr "reserved"), device (out ++ ["w?"%string]) rest chs)
         /\ (v <- Device.trigger_mode ;; Device.set_trigger_mode v) s
            = (Ok tt, device (out ++ ["w?"; "w6"]%string) rest chs)).
Proof.
  split; [reflexivity|]. split; [reflexivity|].
  split; [intros s; split; reflexivity|].
  split.
  - intros v s. destruct (set_trigger_mode_cases v s) as [E|[i [Hin E]]];
      rewrite E; cbn [snd].
    + intros H. apply (f_equal (@List.length string)) in H.
      rewrite length_app in H. cbn in H. lia.
    + rewrite wire_transmit. intros H. apply app_inv_head in H.
      cbn in Hin.
      repeat (destruct Hin as [<-|Hin]; [discriminate H|]). destruct Hin.
  - intros out rest chs s. subst s.
    assert (E : Device.trigger_mode (device out ("7"%string :: rest) chs)
                = (Ok (VStr "reserved"), device (out ++ ["w?"%string]) rest chs))
      by reflexivity.
    split; [exact E|]. unfold bind. rewrite E.
    unfold device. cbn. unfold write_line. cbn [_dev sent pending _channels].
    rewrite <- app_assoc. reflexivity.
Qed.

(* ================================================================== *)
(** ** Range-bounded numeric properties *)

Section RangeGuard.

(** A range whose float bounds [flo] and [fhi] are the integers [lo] and
    [hi]. *)
Variables (lo hi : Z) (flo fhi : spec_float).
Hypothesis flo_is_lo : forall z, Float.compare_Z flo z = Some (lo ?= z).
Hypothesis fhi_is_hi : forall z, Float.compare_Z fhi z = Some (hi ?= z).

(** A value that is not a number of the closed interval: not a number at
    all, an integer (or boolean, as 0 or 1) below [lo] or above [hi], or a
    float for which [flo <= f <= fhi] does not hold, NaN included. *)
Definition outside (v : value) : Prop :=
  match v with
  | VInt z => z < lo \/ hi < z
  | VBool b => Z_of_bool b < lo \/ hi < Z_of_bool b
  | VFloat f => SFleb flo f = false \/ SFleb f fhi = false
  | VNone | VStr _ => True
  end.

(** A number of the closed interval. *)
Definition inside (v : value) : Prop :=
  match v with
  | VInt z => lo <= z <= hi
  | VBool b => lo <= Z_of_bool b <= hi
  | VFloat f => SFleb flo f = true /\ SFleb f fhi = true
  | VNone | VStr _ => False
  end.

Lemma py_le_lo_int (z : Z) : py_le (VFloat flo) (VInt z) = (lo <=? z).
Proof.
  unfold py_le, num_compare. rewrite flo_is_lo.
  rewrite Z.leb_compare. now destruct (lo ?= z).
Qed.

Lemma py_le_int_hi (z : Z) : py_le (VInt z) (VFloat fhi) = (z <=? hi).
Proof.
  unfold py_le, num_compare. rewrite fhi_is_hi. cbn [option_map].
  rewrite Z.leb_compare, (Z.compare_antisym hi z).
  now destruct (hi ?= z).
Qed.

Lemma py_le_float (f g : spec_float) :
  py_le (VFloat f) (VFloat g) = SFleb f g.
Proof. reflexivity. Qed.

(** The guard of a range-checked setter, as the source writes it. *)
Definition guard (v : value) : bool :=
  negb (isinstance_float_int v)
  || negb (py_le (VFloat flo) v && py_le v (VFloat fhi)).

Lemma guard_outside (v : value) : outside v -> guard v = true.
Proof.
  unfold guard. destruct v as [|b|z|f|m]; cbn [outside isinstance_float_int negb orb];
    try reflexivity.
  - intros H.
    assert (E1 : py_le (VFloat flo) (VBool b) = (lo <=? Z_of_bool b)).
    { unfold py_le, num_compare. rewrite flo_is_lo.
      rewrite Z.leb_compare. now destruct (lo ?= Z_of_bool b). }
    assert (E2 : py_le (VBool b) (VFloat fhi) = (Z_of_bool b <=? hi)).
    { unfold py_le, num_compare. rewrite fhi_is_hi. cbn [option_map].
      rewrite Z.leb_compare, (Z.compare_antisym hi (Z_of_bool b)).
      now destruct (hi ?= Z_of_bool b). }
    rewrite E1, E2. apply negb_true_iff, andb_false_iff.
    destruct H; [left|right]; apply Z.leb_gt; assumption.
  - intros H. rewrite py_le_lo_int, py_le_int_hi.
    apply negb_true_iff, andb_false_iff.
    destruct H; [left|right]; apply Z.leb_gt; assumption.
  - intros H. rewrite !py_le_float.
    apply negb_true_iff, andb_false_iff. exact H.
Qed.

Lemma guard_inside (v : value) : inside v -> guard v = false.
Proof.
  unfold guard. destruct v as [|b|z|f|m]; cbn [inside isinstance_float_int negb orb];
    try contradiction.
  - intros [H1 H2].
    assert (E1 : py_le (VFloat flo) (VBool b) = (lo <=? Z_of_bool b)).
    { unfold py_le, num_compare. rewrite flo_is_lo.
      rewrite Z.leb_compare. now destruct (lo ?= Z_of_bool b). }
    assert (E2 : py_le (VBool b) (VFloat fhi) = (Z_of_bool b <=? hi)).
    { unfold py_le, num_compare. rewrite fhi_is_hi. cbn [option_map].
      rewrite Z.leb_compare, (Z.compare_antisym hi (Z_of_bool b)).
      now destruct (hi ?= Z_of_bool b). }
    rewrite E1, E2.
    apply Z.leb_le in H1, H2. now rewrite H1, H2.
  - intros [H1 H2]. rewrite py_le_lo_int, py_le_int_hi.
    apply Z.leb_le in H1, H2. now rewrite H1, H2.
  - intros [H1 H2]. rewrite !py_le_float. now rewrite H1, H2.
Qed.

End RangeGuard.

(** The float bounds of the two frequency ranges are integers. *)
Lemma compare_Z_integer (m : positive) (k : positive) (n z : Z) :
  Zpos m = n * 2 ^ Zpos k ->
  Float.compare_Z (S754_finite false m (Zneg k)) z = Some (n ?= z).
Proof.
  intros Hm. unfold Float.compare_Z, Float.signed, cond_Zopp.
  change (0 <=? Z.neg k) with false. change (- Z.neg k) with (Z.pos k).
  cbv iota. rewrite Hm. f_equal.
  assert (Hp : 0 < 2 ^ Z.pos k) by (apply Z.pow_pos_nonneg; lia).
  destruct (Z.compare_spec n z) as [->|Hlt|Hgt].
  - apply Z.compare_refl.
  - apply Z.compare_lt_iff. nia.
  - apply Z.compare_gt_iff. nia.
Qed.

Lemma f_53e6_integer z : Float.compare_Z f_53e6 z = Some (53000000 ?= z).
Proof. apply compare_Z_integer. reflexivity. Qed.

Lemma f_13999_999999e6_integer z :
  Float.compare_Z f_13999_999999e6 z = Some (13999999999 ?= z).
Proof. apply compare_Z_integer. reflexivity. Qed.

Lemma f_10e6_integer z : Float.compare_Z f_10e6 z = Some (10000000 ?= z).
Proof. apply compare_Z_integer. reflexivity. Qed.

Lemma f_100e6_integer z : Float.compare_Z f_100e6 z = Some (100000000 ?= z).
Proof. apply compare_Z_integer. reflexivity. Qed.

(** Outside [53e6, 13999.999999e6] Hz. *)
Definition outside_frequency_range : value -> Prop :=
  outside 53000000 13999999999 f_53e6 f_13999_999999e6.

(** Outside [10e6, 100e6] Hz. *)
Definition outside_reference_frequency_range : value -> Prop :=
  outside 10000000 100000000 f_10e6 f_100e6.

Lemma set_frequency_guarded (ch : SynthHDChannel) (v : value) (s : SynthHD) :
  Channel.set_frequency ch v s
  = if guard f_53e6 f_13999_999999e6 v then (Raise ValueError, s)
    else (x <- truediv_float v f_1e6 ;; Channel.write ch "frequency" [x]) s.
Proof.
  unfold Channel.set_frequency, guard. cbn [start stop Channel.frequency_range].
  now destruct (_ || _).
Qed.

Lemma set_reference_frequency_guarded (v : value) (s : SynthHD) :
  Device.set_reference_frequency v s
  = if guard f_10e6 f_100e6 v then (Raise ValueError, s)
    else (x <- truediv_float v f_1e6 ;; Session.write "ref_frequency" [x]) s.
Proof.
  unfold Device.set_reference_frequency, guard.
  cbn [start stop Device.reference_frequency_range].
  now destruct (_ || _).
Qed.

(** C6.  Setting the channel frequency to a value outside
    [53e6, 13999.999999e6] Hz, or to a value that is not a number, raises
    [ValueError], a validation error, and leaves the device exactly as it
    was: no select line and no frequency line is transmitted, no reply is
    consumed and the channel list is untouched. *)
Theorem set_frequency_rejects_before_io
        (ch : SynthHDChannel) (v : value) (s : SynthHD) :
  outside_frequency_range v ->
  Channel.set_frequency ch v s = (Raise ValueError, s)
  /\ is_validation_error ValueError = true
  /\ wire (snd (Channel.set_frequency ch v s)) = wire s
  /\ snd (Channel.set_frequency ch v s) = s.
Proof.
  intros H.
  assert (E : Channel.set_frequency ch v s = (Raise ValueError, s)).
  { rewrite set_frequency_guarded.
    rewrite (guard_outside 53000000 13999999999 f_53e6 f_13999_999999e6
               f_53e6_integer f_13999_999999e6_integer v H).
    reflexivity. }
  rewrite E. repeat split.
Qed.

Lemma set_frequency_rejects_before_io_witness :
  Channel.set_frequency {| _index := 0 |} (VInt 14000000000) idle
  = (Raise ValueError, idle)
  /\ Channel.set_frequency {| _index := 1 |} (VFloat (Float.of_decimal 529 5)) idle
     = (Raise ValueError, idle)
  /\ Channel.set_frequency {| _index := 1 |} (VStr "1e9") idle
     = (Raise ValueError, idle).
Proof.
  split; [|split].
  - apply (set_frequency_rejects_before_io {| _index := 0 |} (VInt 14000000000) idle).
    right. reflexivity.
  - apply (set_frequency_rejects_before_io {| _index := 1 |}
             (VFloat (Float.of_decimal 529 5)) idle).
    left. reflexivity.
  - apply (set_frequency_rejects_before_io {| _index := 1 |} (VStr "1e9") idle).
    exact I.
Defined.

(** A Python number ([float], [int] or [bool]) and a Python integer. *)
Definition number (v : value) : Prop :=
  match v with
  | VBool _ | VInt _ | VFloat _ => True
  | VNone | VStr _ => False
  end.

Definition integer (v : value) : Prop :=
  match v with
  | VBool _ | VInt _ => True
  | _ => False
  end.

Lemma format_fixed_number (k : Z) (v : value) :
  number v -> Text.too_large v = false ->
  exists x, Text.format_fixed k v = Some x.
Proof.
  destruct v as [|b|z|f|m]; cbn [number]; try contradiction; intros _ H.
  - destruct b; eexists; reflexivity.
  - cbn [Text.format_fixed Text.too_large] in *. unfold Text.fixed_int.
    destruct (Float.of_Z z); try discriminate H; eexists; reflexivity.
  - eexists; reflexivity.
Qed.

(** A channel write of one number through a [{:.3f}] template. *)
Lemma channel_write_fixed3 (ch : SynthHDChannel) (s : SynthHD) (v : value)
      (attribute : string) (code : ascii) (q : option string) :
  lookup API attribute
  = Some {| value_type := Some t_float;
            write_template := Some (String code "{:.3f}");
            query_command := q |} ->
  code <> "{"%char ->
  number v -> Text.too_large v = false ->
  exists x, Text.format_fixed 3 v = Some x
            /\ Channel.write ch attribute [v] s
               = (Ok tt, transmit (transmit s (select_line (_index ch)))
                                  (String code x)).
Proof.
  intros Hl Hc Hv Hf3. destruct (format_fixed_number 3 v Hv Hf3) as [x Hx].
  exists x. split; [exact Hx|].
  rewrite channel_write_eq. unfold Session.write. rewrite Hl.
  cbn [write_template].
  assert (Hf : Text.format (String code "{:.3f}") [v] = Some (String code x)).
  { destruct code as [[] [] [] [] [] [] [] []];
      try (exfalso; apply Hc; reflexivity);
      cbn [Text.format option_map]; change (Text.digit_value "3") with (Some 3);
      cbv iota; rewrite Hx; cbn [Text.format]; now rewrite append_empty. }
  rewrite Hf. reflexivity.
Qed.

(** C3 (as the code has it).  The setters of frequency and reference
    frequency raise [ValueError] for a value that is not a number and for a
    number outside the closed interval of their range, and leave the device
    as it was.  The setters of power and phase check the type only: a value
    that is not a number raises [TypeError] with the device left as it was,
    and a number is compared with no range: a float, and an integer that
    binary64 can hold, is written to the channel in fixed notation whatever
    its size.  The setter of the VGA DAC value likewise rejects only what
    is not an integer, and writes an integer whatever its size. *)
Theorem numeric_setters_validation
        (ch : SynthHDChannel) (v : value) (s : SynthHD) :
  let s1 := transmit s (select_line (_index ch)) in
  (outside_frequency_range v ->
   Channel.set_frequency ch v s = (Raise ValueError, s))
  /\ (outside_reference_frequency_range v ->
      Device.set_reference_frequency v s = (Raise ValueError, s))
  /\ (~ number v ->
      Channel.set_power ch v s = (Raise TypeError, s)
      /\ Channel.set_phase ch v s = (Raise TypeError, s))
  /\ (number v -> Text.too_large v = false ->
      exists x, Text.format_fixed 3 v = Some x
                /\ Channel.set_power ch v s
                   = (Ok tt, transmit s1 (String "W" x))
                /\ Channel.set_phase ch v s
                   = (Ok tt, transmit s1 (String "~" x)))
  /\ (~ integer v -> Channel.set_vga_dac ch v s = (Raise TypeError, s))
  /\ (forall z, v = VInt z ->
      Channel.set_vga_dac ch v s
      = (Ok tt, transmit s1 (String "a" (Text.of_Z z)))).
Proof.
  cbv zeta. repeat split.
  - intros H. rewrite set_frequency_guarded.
    now rewrite (guard_outside _ _ _ _ f_53e6_integer f_13999_999999e6_integer v H).
  - intros H. rewrite set_reference_frequency_guarded.
    now rewrite (guard_outside _ _ _ _ f_10e6_integer f_100e6_integer v H).
  - destruct v; cbn [number] in *; try tauto; reflexivity.
  - destruct v; cbn [number] in *; try tauto; reflexivity.
  - intros Hv Hc.
    destruct (channel_write_fixed3 ch s v "power" "W" _ eq_refl
                ltac:(discriminate) Hv Hc) as [x [Hx Hw]].
    destruct (channel_write_fixed3 ch s v "phase_step" "~" _ eq_refl
                ltac:(discriminate) Hv Hc) as [y [Hy Hp]].
    assert (y = x) by congruence. subst y.
    exists x. split; [exact Hx|].
    unfold Channel.set_power, Channel.set_phase.
    assert (Hn : isinstance_float_int v = true)
      by (destruct v; cbn [number] in Hv; try contradiction; reflexivity).
    rewrite Hn. cbn [negb]. split; assumption.
  - destruct v; cbn [integer] in *; try tauto; reflexivity.
  - intros z ->. unfold Channel.set_vga_dac. cbn [isinstance_int negb].
    rewrite channel_write_eq. unfold Session.write. cbn.
    now rewrite append_empty.
Qed.

Lemma numeric_setters_validation_witness :
  Channel.set_frequency {| _index := 0 |} (VInt 52999999) idle
  = (Raise ValueError, idle)
  /\ Device.set_reference_frequency (VInt 100000001) idle
     = (Raise ValueError, idle)
  /\ Channel.set_power {| _index := 0 |} (VStr "20") idle
     = (Raise TypeError, idle)
  /\ (exists x, Text.format_fixed 3 (VInt 21) = Some x
                /\ Channel.set_power {| _index := 0 |} (VInt 21) idle
                   = (Ok tt, transmit (transmit idle "C0") (String "W" x))
                /\ Channel.set_phase {| _index := 0 |} (VInt 21) idle
                   = (Ok tt, transmit (transmit idle "C0") (String "~" x)))
  /\ Channel.set_vga_dac {| _index := 0 |} VNone idle = (Raise TypeError, idle)
  /\ Channel.set_vga_dac {| _index := 0 |} (VInt 45001) idle
     = (Ok tt, transmit (transmit idle "C0") (String "a" (Text.of_Z 45001))).
Proof.
  pose proof (numeric_setters_validation {| _index := 0 |}) as T.
  split; [|split; [|split; [|split; [|split]]]].
  - apply (T (VInt 52999999) idle). left. reflexivity.
  - apply (T (VInt 100000001) idle). right. reflexivity.
  - apply (T (VStr "20") idle). intros H. exact H.
  - apply (T (VInt 21) idle); [exact I|reflexivity].
  - apply (T VNone idle). intros H. exact H.
  - apply (T (VInt 45001) idle). reflexivity.
Defined.

(** C3, the claim as stated fails: 100 dBm is a number above the published
    power range [-60, 20], 720 degrees is above the phase range [0, 360]
    and 50000 is above the VGA DAC range [0, 45000]; each setter returns
    normally and transmits the value. *)
Lemma power_phase_vga_dac_not_range_checked :
  py_le (VInt 100) (stop Channel.power_range) = false
  /\ Channel.set_power {| _index := 0 |} (VInt 100) idle
     = (Ok tt, transmit (transmit idle "C0") "W100.000")
  /\ py_le (VInt 720) (stop Channel.phase_range) = false
  /\ Channel.set_phase {| _index := 0 |} (VInt 720) idle
     = (Ok tt, transmit (transmit idle "C0") "~720.000")
  /\ py_le (VInt 50000) (stop Channel.vga_dac_range) = false
  /\ Channel.set_vga_dac {| _index := 0 |} (VInt 50000) idle
     = (Ok tt, transmit (transmit idle "C0") "a50000")
  /\ fst (Channel.set_power {| _index := 0 |} (VInt 100) idle)
     <> Raise ValueError.
Proof. repeat split; try reflexivity. vm_compute. discriminate. Qed.

(* ================================================================== *)
(** ** The channel list over the lifetime of a device *)

(** Every method a caller can invoke on a channel view and on the device
    itself: the methods and the property reads and assignments. *)
Inductive channel_call : Type :=
| c_init
| c_write (attribute : string) (args : list value)
| c_read (attribute : string) (args : list value)
| c_select
| c_frequency
| c_set_frequency (v : value)
| c_power
| c_set_power (v : value)
| c_calibrated
| c_temp_compensation_mode
| c_set_temp_compensation_mode (v : value)
| c_vga_dac
| c_set_vga_dac (v : value)
| c_phase
| c_set_phase (v : value)
| c_rf_mute
| c_set_rf_mute (v : value)
| c_pa_enable
| c_set_pa_enable (v : value)
| c_pll_enable
| c_set_pll_enable (v : value)
| c_enable
| c_set_enable (v : value)
| c_lock_status.

Inductive call : Type :=
| d_channel (key : Z) (c : channel_call)
| d_len
| d_init
| d_write (attribute : string) (args : list value)
| d_read (attribute : string) (args : list value)
| d_model_type
| d_serial_number
| d_firmware_version
| d_hardware_version
| d_save
| d_reference_mode
| d_set_reference_mode (v : value)
| d_trigger_mode
| d_set_trigger_mode (v : value)
| d_temperature
| d_reference_frequency
| d_set_reference_frequency (v : value)
| d_sweep_enable
| d_set_sweep_enable (v : value)
| d_am_enable
| d_set_am_enable (v : value)
| d_pulse_mod_enable
| d_set_pulse_mod_enable (v : value)
| d_dual_pulse_mod_enable
| d_set_dual_pulse_mod_enable (v : value)
| d_fm_enable
| d_set_fm_enable (v : value).

(** A method without a result returns [None]. *)
Definition returns_none (m : M unit) : M value := m ;; ret VNone.

Definition run_channel (ch : SynthHDChannel) (c : channel_call) : M value :=
  match c with
  | c_init => returns_none (Channel.init ch)
  | c_write a args => returns_none (Channel.write ch a args)
  | c_read a args => Channel.read ch a args
  | c_select => returns_none (Channel.select ch)
  | c_frequency => Channel.frequency ch
  | c_set_frequency v => returns_none (Channel.set_frequency ch v)
  | c_power => Channel.power ch
  | c_set_power v => returns_none (Channel.set_power ch v)
  | c_calibrated => Channel.calibrated ch
  | c_temp_compensation_mode => Channel.temp_compensation_mode ch
  | c_set_temp_compensation_mode v =>
      returns_none (Channel.set_temp_compensation_mode ch v)
  | c_vga_dac => Channel.vga_dac ch
  | c_set_vga_dac v => returns_none (Channel.set_vga_dac ch v)
  | c_phase => Channel.phase ch
  | c_set_phase v => returns_none (Channel.set_phase ch v)
  | c_rf_mute => Channel.rf_mute ch
  | c_set_rf_mute v => returns_none (Channel.set_rf_mute ch v)
  | c_pa_enable => Channel.pa_enable ch
  | c_set_pa_enable v => returns_none (Channel.set_pa_enable ch v)
  | c_pll_enable => Channel.pll_enable ch
  | c_set_pll_enable v => returns_none (Channel.set_pll_enable ch v)
  | c_enable => Channel.enable ch
  | c_set_enable v => returns_none (Channel.set_enable ch v)
  | c_lock_status => Channel.lock_status ch
  end.

Definition run (c : call) : M value :=
  match c with
  | d_channel key c => ch <- Device.__getitem__ key ;; run_channel ch c
  | d_len => n <- Device.__len__ ;; ret (VInt n)
  | d_init => returns_none Device.init
  | d_write a args => returns_none (Session.write a args)
  | d_read a args => Session.read a args
  | d_model_type => Device.model_type
  | d_serial_number => Device.serial_number
  | d_firmware_version => Device.firmware_version
  | d_hardware_version => Device.hardware_version
  | d_save => returns_none Device.save
  | d_reference_mode => Device.reference_mode
  | d_set_reference_mode v => returns_none (Device.set_reference_mode v)
  | d_trigger_mode => Device.trigger_mode
  | d_set_trigger_mode v => returns_none (Device.set_trigger_mode v)
  | d_temperature => Device.temperature
  | d_reference_frequency => Device.reference_frequency
  | d_set_reference_frequency v =>
      returns_none (Device.set_reference_frequency v)
  | d_sweep_enable => Device.sweep_enable
  | d_set_sweep_enable v => returns_none (Device.set_sweep_enable v)
  | d_am_enable => Device.am_enable
  | d_set_am_enable v => returns_none (Device.set_am_enable v)
  | d_pulse_mod_enable => Device.pulse_mod_enable
  | d_set_pulse_mod_enable v => returns_none (Device.set_pulse_mod_enable v)
  | d_dual_pulse_mod_enable => Device.dual_pulse_mod_enable
  | d_set_dual_pulse_mod_enable v =>
      returns_none (Device.set_dual_pulse_mod_enable v)
  | d_fm_enable => Device.fm_enable
  | d_set_fm_enable v => returns_none (Device.set_fm_enable v)
  end.

(** The device after a sequence of calls; a call that raises leaves the
    object in the state it had reached. *)
Definition run_all (calls : list call) (s : SynthHD) : SynthHD :=
  fold_left (fun s c => snd (run c s)) calls s.

(** A computation that leaves the channel list alone. *)
Definition keeps_channels {A} (m : M A) : Prop :=
  forall s, _channels (snd (m s)) = _channels s.

Lemma keeps_ret {A} (a : A) : keeps_channels (ret a).
Proof. intros s. reflexivity. Qed.

Lemma keeps_raise {A} (e : exn) : keeps_channels (@raise A e).
Proof. intros s. reflexivity. Qed.

Lemma keeps_bind {A B} (m : M A) (k : A -> M B) :
  keeps_channels m -> (forall a, keeps_channels (k a)) ->
  keeps_channels (bind m k).
Proof.
  intros Hm Hk s. unfold bind. specialize (Hm s).
  destruct (m s) as [[a|e] s']; cbn [snd] in *.
  - now rewrite Hk.
  - exact Hm.
Qed.

Lemma keeps_write_line (line : string) : keeps_channels (write_line line).
Proof. intros s. reflexivity. Qed.

Lemma keeps_read_line : keeps_channels read_line.
Proof. intros s. unfold read_line. now destruct (pending (_dev s)). Qed.

Lemma keeps_if {A} (b : bool) (m1 m2 : M A) :
  keeps_channels m1 -> keeps_channels m2 ->
  keeps_channels (if b then m1 else m2).
Proof. now destruct b. Qed.

Create HintDb keeps.
#[local] Hint Resolve keeps_ret keeps_raise keeps_write_line keeps_read_line
  : keeps.
#[local] Hint Extern 2 (keeps_channels (bind _ _)) =>
  apply keeps_bind; [|intro] : keeps.
#[local] Hint Extern 2 (keeps_channels (if _ then _ else _)) =>
  apply keeps_if : keeps.
#[local] Hint Extern 3 (keeps_channels (match ?x with _ => _ end)) =>
  destruct x : keeps.

Lemma keeps_session_write attribute args :
  keeps_channels (Session.write attribute args).
Proof. unfold Session.write. auto 8 with keeps. Qed.

Lemma keeps_parse ty reply : keeps_channels (Session.parse ty reply).
Proof. unfold Session.parse. auto 8 with keeps. Qed.

#[local] Hint Resolve keeps_session_write keeps_parse : keeps.

Lemma keeps_session_read attribute args :
  keeps_channels (Session.read attribute args).
Proof. unfold Session.read. auto 10 with keeps. Qed.

#[local] Hint Resolve keeps_session_read : keeps.

Lemma keeps_as_float v : keeps_channels (as_float v).
Proof. unfold as_float, float_of_int. auto 8 with keeps. Qed.

Lemma keeps_tuple_getitem t i : keeps_channels (tuple_getitem t i).
Proof. unfold tuple_getitem. auto 8 with keeps. Qed.

Lemma keeps_tuple_index t v : keeps_channels (tuple_index t v).
Proof. unfold tuple_index. auto 8 with keeps. Qed.

#[local] Hint Resolve keeps_as_float keeps_tuple_getitem keeps_tuple_index
  : keeps.

#[local] Hint Unfold
  Channel.select Channel.write Channel.read
  Channel.frequency Channel.set_frequency Channel.power Channel.set_power
  Channel.calibrated Channel.temp_compensation_mode
  Channel.set_temp_compensation_mode Channel.vga_dac Channel.set_vga_dac
  Channel.phase Channel.set_phase Channel.rf_mute Channel.set_rf_mute
  Channel.pa_enable Channel.set_pa_enable Channel.pll_enable
  Channel.set_pll_enable Channel.enable Channel.set_enable
  Channel.lock_status Channel.init
  truediv_float mul_float returns_none
  Device.model_type Device.serial_number Device.firmware_version
  Device.hardware_version Device.save Device.reference_mode
  Device.set_reference_mode Device.trigger_mode Device.set_trigger_mode
  Device.temperature Device.reference_frequency
  Device.set_reference_frequency Device.get_switch Device.set_switch
  Device.sweep_enable Device.set_sweep_enable Device.am_enable
  Device.set_am_enable Device.pulse_mod_enable Device.set_pulse_mod_enable
  Device.dual_pulse_mod_enable Device.set_dual_pulse_mod_enable
  Device.fm_enable Device.set_fm_enable : keeps.

Ltac keeps := autounfold with keeps; auto 30 with keeps.

Lemma keeps_run_channel ch c : keeps_channels (run_channel ch c).
Proof. destruct c; cbn [run_channel]; keeps. Qed.

Lemma keeps_for_each chs (body : SynthHDChannel -> M unit) :
  (forall ch, keeps_channels (body ch)) ->
  keeps_channels (Device.for_each chs body).
Proof.
  intros Hb. induction chs as [|ch rest IH]; cbn [Device.for_each].
  - apply keeps_ret.
  - apply keeps_bind; auto.
Qed.

Lemma keeps_device_init : keeps_channels Device.init.
Proof.
  unfold Device.init.
  repeat (apply keeps_bind; [keeps|intros _]).
  intros s. apply keeps_for_each. intros ch. keeps.
Qed.

Lemma keeps_getitem key : keeps_channels (Device.__getitem__ key).
Proof.
  intros s. unfold Device.__getitem__.
  destruct (_ || _); [reflexivity|].
  now destruct (nth_error _ _).
Qed.

Lemma keeps_run c : keeps_channels (run c).
Proof.
  destruct c; cbn [run]; try (keeps; fail).
  - apply keeps_bind; [apply keeps_getitem|intros ch; apply keeps_run_channel].
  - apply keeps_bind; [|intro; apply keeps_ret]. intros s. reflexivity.
  - unfold returns_none. apply keeps_bind; [apply keeps_device_init|intro; apply keeps_ret].
Qed.

Lemma run_all_channels calls s : _channels (run_all calls s) = _channels s.
Proof.
  revert s. induction calls as [|c rest IH]; intros s; cbn [run_all fold_left].
  - reflexivity.
  - change (_channels (run_all rest (snd (run c s))) = _channels s).
    rewrite IH. apply keeps_run.
Qed.

(** C10.  A device is built with exactly two channels and keeps them: after
    any sequence of calls on the device and on its channel views, the
    channel list is the one built by the constructor, [len(device)] is 2,
    [device[0]] and [device[1]] are the views of index 0 and 1, whose
    channel-select writes transmit [C0] and [C1], and no single call
    replaces or resizes the list. *)
Theorem channels_fixed_for_life (link : Transport) (calls : list call) :
  let d := run_all calls (Device.__init__ link) in
  _channels d = [{| _index := 0 |}; {| _index := 1 |}]
  /\ Device.__len__ d = (Ok 2, d)
  /\ Device.__getitem__ 0 d = (Ok {| _index := 0 |}, d)
  /\ Device.__getitem__ 1 d = (Ok {| _index := 1 |}, d)
  /\ Channel.select {| _index := 0 |} d = (Ok tt, transmit d "C0")
  /\ Channel.select {| _index := 1 |} d = (Ok tt, transmit d "C1")
  /\ (forall c, _channels (snd (run c d)) = _channels d).
Proof.
  intros d.
  assert (H : _channels d = [{| _index := 0 |}; {| _index := 1 |}]).
  { subst d. rewrite run_all_channels. reflexivity. }
  split; [exact H|].
  split; [unfold Device.__len__; now rewrite H|].
  split; [unfold Device.__getitem__; now rewrite H|].
  split; [unfold Device.__getitem__; now rewrite H|].
  split; [apply select_transmit|].
  split; [apply select_transmit|].
  intros c. apply keeps_run.
Qed.

(* ================================================================== *)
(** ** binary64 rounding: the error of one operation *)

Lemma digits2_pos_bounds (p : positive) :
  2 ^ (Zpos (digits2_pos p) - 1) <= Zpos p < 2 ^ Zpos (digits2_pos p).
Proof.
  induction p as [p IH|p IH|]; cbn [digits2_pos].
  - rewrite Pos2Z.inj_succ.
    replace (Z.succ (Z.pos (digits2_pos p)) - 1) with (Z.succ (Z.pos (digits2_pos p) - 1)) by lia.
    rewrite !Z.pow_succ_r by lia. lia.
  - rewrite Pos2Z.inj_succ.
    replace (Z.succ (Z.pos (digits2_pos p)) - 1) with (Z.succ (Z.pos (digits2_pos p) - 1)) by lia.
    rewrite !Z.pow_succ_r by lia. lia.
  - cbn. lia.
Qed.

Lemma Zdigits2_bounds (m : Z) :
  0 < m -> 2 ^ (Zdigits2 m - 1) <= m < 2 ^ Zdigits2 m.
Proof.
  destruct m as [|p|p]; try lia. intros _. apply digits2_pos_bounds.
Qed.

Lemma Zdigits2_pos (m : Z) : 0 < m -> 0 < Zdigits2 m.
Proof. destruct m; cbn; lia. Qed.

(** The number of digits is fixed by the power-of-two bracket. *)
Lemma Zdigits2_unique (m d : Z) :
  2 ^ (d - 1) <= m < 2 ^ d -> 0 < d -> Zdigits2 m = d.
Proof.
  intros [Hl Hu] Hd.
  assert (Hm : 0 < m) by (pose proof (Z.pow_pos_nonneg 2 (d - 1)); lia).
  destruct (Zdigits2_bounds m Hm) as [Hl' Hu'].
  pose proof (Zdigits2_pos m Hm) as Hp.
  destruct (Z.lt_trichotomy (Zdigits2 m) d) as [H|[H|H]]; [|exact H|].
  - exfalso. assert (2 ^ Zdigits2 m <= 2 ^ (d - 1)) by (apply Z.pow_le_mono_r; lia). lia.
  - exfalso. assert (2 ^ d <= 2 ^ (Zdigits2 m - 1)) by (apply Z.pow_le_mono_r; lia). lia.
Qed.

(** ** Right shifts keep track of the exact value *)

Lemma shr_1_nonneg (m : Z) (r s : bool) :
  0 <= m ->
  shr_1 {| shr_m := m; shr_r := r; shr_s := s |}
  = {| shr_m := m / 2; shr_r := Z.odd m; shr_s := r || s |}.
Proof.
  intros Hm. rewrite <- Z.div2_div.
  destruct m as [|p|p]; [reflexivity| |lia].
  destruct p; reflexivity.
Qed.

Lemma shr_1_located (P D : Z) (mrs : shr_record) :
  located P D mrs -> located P (2 * D) (shr_1 mrs).
Proof.
  destruct mrs as [m r s]. unfold located. cbn [shr_m shr_r shr_s].
  intros (HD & HP & Hm & Hr & Hs).
  assert (Hm0 : 0 <= m) by (subst m; apply Z.div_pos; lia).
  rewrite shr_1_nonneg by exact Hm0. cbn [shr_m shr_r shr_s].
  pose proof (Z.mod_pos_bound P D HD) as Hrem.
  pose proof (Z.div_mod P D ltac:(lia)) as Hdm.
  pose proof (Z.div_mod m 2 ltac:(lia)) as Hm2.
  pose proof (Z.mod_pos_bound m 2 ltac:(lia)) as Hb2.
  assert (Hq : P / (2 * D) = m / 2).
  { symmetry. apply Z.div_unique with (r := D * (m mod 2) + P mod D); nia. }
  assert (Hrm : P mod (2 * D) = D * (m mod 2) + P mod D).
  { symmetry. apply Z.mod_unique with (q := m / 2); nia. }
  rewrite Hrm, Hq. rewrite (Zmod_odd m) in *.
  repeat split; try lia.
  - destruct (Z.odd m);
      destruct (Z.leb_spec (2 * D) (2 * (D * (if true then 1 else 0) + P mod D)));
      destruct (Z.leb_spec (2 * D) (2 * (D * (if false then 1 else 0) + P mod D)));
      try reflexivity; lia.
  - subst r s.
    destruct (Z.odd m);
      repeat match goal with
             | |- context [?a <=? ?b] => destruct (Z.leb_spec a b)
             | |- context [?a =? ?b] => destruct (Z.eqb_spec a b)
             end; cbn [orb negb]; try reflexivity; lia.
Qed.

Lemma iter_pos_located (P D : Z) (p : positive) (mrs : shr_record) :
  located P D mrs -> located P (D * 2 ^ Zpos p) (iter_pos shr_1 p mrs).
Proof.
  revert D mrs. induction p as [p IH|p IH|]; intros D mrs H; cbn [iter_pos].
  - apply shr_1_located in H. apply IH in H. apply IH in H.
    replace (D * 2 ^ Z.pos p~1) with (2 * D * 2 ^ Z.pos p * 2 ^ Z.pos p); [exact H|].
    replace (Z.pos p~1) with (1 + Z.pos p + Z.pos p) by lia.
    rewrite !Z.pow_add_r, Z.pow_1_r by lia. ring.
  - apply IH in H. apply IH in H.
    replace (D * 2 ^ Z.pos p~0) with (D * 2 ^ Z.pos p * 2 ^ Z.pos p); [exact H|].
    replace (Z.pos p~0) with (Z.pos p + Z.pos p) by lia.
    rewrite !Z.pow_add_r by lia. ring.
  - apply shr_1_located in H. rewrite Z.pow_1_r, Z.mul_comm. exact H.
Qed.

Lemma located_init (P D : Z) :
  0 < D -> 0 <= P -> located P D (shr_record_of_loc (P / D) (loc_of P D)).
Proof.
  intros HD HP. unfold located, loc_of.
  pose proof (Z.mod_pos_bound P D HD) as Hrem.
  repeat split; try assumption;
    destruct (Z.eqb_spec (P mod D) 0) as [E|E];
    [ | destruct (Z.compare_spec (2 * (P mod D)) D) | | destruct (Z.compare_spec (2 * (P mod D)) D) | | destruct (Z.compare_spec (2 * (P mod D)) D) ];
    cbn [shr_record_of_loc shr_m shr_r shr_s]; try reflexivity;
    repeat match goal with
           | |- context [?a <=? ?b] => destruct (Z.leb_spec a b)
           | |- context [?a =? ?b] => destruct (Z.eqb_spec a b)
           end; cbn [orb negb]; try reflexivity; lia.
Qed.

Lemma round_located (P D : Z) (mrs : shr_record) :
  located P D mrs ->
  let m1 := round_nearest_even (shr_m mrs) (loc_of_shr_record mrs) in
  Z.abs (2 * m1 * D - 2 * P) <= D /\ P / D <= m1 <= P / D + 1.
Proof.
  destruct mrs as [m r s]. unfold located. cbn [shr_m shr_r shr_s].
  intros (HD & HP & Hm & Hr & Hs). cbv zeta.
  pose proof (Z.mod_pos_bound P D HD) as Hrem.
  pose proof (Z.div_mod P D ltac:(lia)) as Hdm.
  rewrite <- Hm in *.
  destruct r, s; cbn [loc_of_shr_record round_nearest_even];
    symmetry in Hr, Hs;
    repeat match type of Hr with
           | (?a <=? ?b) = _ => destruct (Z.leb_spec a b); try discriminate
           end;
    repeat match type of Hs with
           | context [?a =? ?b] => destruct (Z.eqb_spec a b); cbn [orb negb] in Hs; try discriminate
           end;
    try (destruct (Z.even m)); split; nia.
Qed.

Lemma shr_located (P D : Z) (mrs : shr_record) (e n : Z) :
  located P D mrs ->
  located P (D * 2 ^ Z.max 0 n) (fst (shr mrs e n))
  /\ snd (shr mrs e n) = e + Z.max 0 n.
Proof.
  intros H. destruct n as [|p|p]; cbn [shr fst snd].
  - rewrite Z.max_id, Z.pow_0_r, Z.mul_1_r, Z.add_0_r. auto.
  - rewrite Z.max_r by lia. split; [now apply iter_pos_located|reflexivity].
  - rewrite Z.max_l by lia. rewrite Z.pow_0_r, Z.mul_1_r, Z.add_0_r. auto.
Qed.

Lemma fexp_normal (z : Z) : -1074 <= z - 53 -> fexp 53 1024 z = z - 53.
Proof. intros H. unfold fexp, emin. lia. Qed.

(** The rounding step of every operation, for a result in the normal
    range: the mantissa is canonical and the result is within half a unit
    in the last place of the exact value [P / D * 2^ex]. *)
Lemma binary_round_aux_normal (sx : bool) (P D ex : Z) :
  0 < D -> 0 < P ->
  let mx := P / D in
  let d := Zdigits2 mx in
  53 <= d -> -1074 <= d + ex - 53 -> d + ex - 53 < 971 ->
  exists m e,
    binary_round_aux 53 1024 sx mx ex (loc_of P D) = S754_finite sx m e
    /\ 2 ^ 52 <= Zpos m < 2 ^ 53
    /\ d + ex - 53 <= e <= d + ex - 52
    /\ Z.abs (2 * (Zpos m * 2 ^ (e - ex)) * D - 2 * P) <= 2 ^ (d - 53) * D.
Proof.
  intros HD HP mx d Hd Hlo Hhi.
  assert (Hmx : 0 < mx).
  { destruct (Z.lt_trichotomy mx 0) as [H|[H|H]]; [| |exact H].
    - subst mx. pose proof (Z.div_pos P D); lia.
    - exfalso. subst d. rewrite H in Hd. cbn in Hd. lia. }
  destruct (Zdigits2_bounds mx Hmx) as [Hml Hmu]. fold d in Hml, Hmu.
  set (n := d - 53) in *.
  assert (Hn : 0 <= n) by lia.
  assert (Hpn : 0 < 2 ^ n) by (apply Z.pow_pos_nonneg; lia).
  unfold binary_round_aux, shr_fexp.
  fold d. rewrite (fexp_normal (d + ex)) by lia.
  replace (d + ex - 53 - ex) with n by lia.
  destruct (shr_located P D (shr_record_of_loc mx (loc_of P D)) ex n
              (located_init P D HD ltac:(lia))) as [Hloc He].
  destruct (shr (shr_record_of_loc mx (loc_of P D)) ex n) as [mrs' e'].
  cbn [fst snd] in Hloc, He. rewrite Z.max_r in Hloc, He by lia. subst e'.
  destruct (round_located _ _ _ Hloc) as [Habs Hm1].
  set (m1 := round_nearest_even (shr_m mrs') (loc_of_shr_record mrs')) in *.
  assert (Hdiv : P / (D * 2 ^ n) = mx / 2 ^ n).
  { subst mx. rewrite Z.div_div by lia. reflexivity. }
  rewrite Hdiv in Hm1.
  assert (Hq : 2 ^ 52 <= mx / 2 ^ n < 2 ^ 53).
  { replace (d - 1) with (52 + n) in Hml by lia.
    replace d with (53 + n) in Hmu by lia.
    rewrite Z.pow_add_r in Hml, Hmu by lia.
    split.
    - apply Z.div_le_lower_bound; lia.
    - apply Z.div_lt_upper_bound; lia. }
  assert (Hcase : m1 < 2 ^ 53 \/ m1 = 2 ^ 53) by lia.
  destruct Hcase as [Hlt|Heq].
  - assert (Hdg : Zdigits2 m1 = 53) by (apply Zdigits2_unique; cbn; lia).
    rewrite Hdg. rewrite (fexp_normal (53 + (ex + n))) by lia.
    replace (53 + (ex + n) - 53 - (ex + n)) with 0 by lia.
    cbn [shr shr_record_of_loc shr_m].
    destruct m1 as [|m|m] eqn:Em; try lia.
    exists m, (ex + n).
    replace (ex + n <=? 1024 - 53) with true by (symmetry; apply Z.leb_le; lia).
    repeat split; try lia.
    replace (ex + n - ex) with n by lia. nia.
  - rewrite Heq.
    replace (Zdigits2 (2 ^ 53)) with 54 by reflexivity.
    rewrite (fexp_normal (54 + (ex + n))) by lia.
    replace (54 + (ex + n) - 53 - (ex + n)) with 1 by lia.
    cbn [shr shr_record_of_loc shr_m iter_pos].
    change (shr_m (shr_1 {| shr_m := 2 ^ 53; shr_r := false; shr_s := false |}))
      with (Z.pos (2 ^ 52)).
    cbv iota.
    exists (2 ^ 52)%positive, (ex + n + 1).
    replace (ex + n + 1 <=? 1024 - 53) with true by (symmetry; apply Z.leb_le; lia).
    repeat split; try lia.
    replace (ex + n + 1 - ex) with (n + 1) by lia.
    rewrite Z.pow_add_r, Z.pow_1_r by lia.
    change (Z.pos (2 ^ 52)) with (2 ^ 52).
    assert (E : 2 ^ 52 * (2 ^ n * 2) = m1 * 2 ^ n).
    { rewrite Heq. change (2 ^ 53) with (2 ^ 52 * 2). ring. }
    rewrite E. nia.
Qed.

Lemma new_location_loc_of (P D : Z) :
  0 < D -> 0 <= P -> new_location D (P mod D) = loc_of P D.
Proof.
  intros HD HP. pose proof (Z.mod_pos_bound P D HD) as Hrem.
  unfold new_location, new_location_even, new_location_odd, loc_of.
  destruct (Z.even D) eqn:Ev; destruct (Z.eqb_spec (P mod D) 0); try reflexivity.
  f_equal.
  assert (Hodd : Z.odd D = true) by (rewrite <- Z.negb_even, Ev; reflexivity).
  apply Z.odd_spec in Hodd. destruct Hodd as [k Hk].
  destruct (Z.compare_spec (2 * (P mod D) + 1) D);
    destruct (Z.compare_spec (2 * (P mod D)) D); try reflexivity; lia.
Qed.

(** Division of two positive numbers whose quotient is in the normal
    range: [P / D * 2^e'] is the exact quotient. *)
Lemma div_normal (mx my : positive) (ex ey : Z) :
  let d1 := Zpos (digits2_pos mx) in
  let d2 := Zpos (digits2_pos my) in
  let e' := d1 + ex - (d2 + ey) - 53 in
  let s := d2 - d1 + 53 in
  0 <= s -> -1074 <= e' -> e' + 1 < 971 ->
  exists m e,
    Float.div (S754_finite false mx ex) (S754_finite false my ey)
    = S754_finite false m e
    /\ 2 ^ 52 <= Zpos m < 2 ^ 53
    /\ e' <= e <= e' + 2
    /\ 2 ^ 53 * Z.abs (Zpos m * 2 ^ (e - e') * Zpos my - Zpos mx * 2 ^ s)
       <= Zpos mx * 2 ^ s.
Proof.
  intros d1 d2 e' s Hs Hlo Hhi.
  unfold Float.div, Float.prec, Float.emax, SFdiv, SFdiv_core_binary.
  cbn [xorb Zdigits2].
  fold d1 d2.
  rewrite (fexp_normal (d1 + ex - (d2 + ey))) by (subst e'; lia).
  fold e'.
  rewrite Z.min_l by (subst e' s; lia).
  replace (ex - ey - e') with s by (subst e' s; lia).
  set (m' := match s with Z0 => Zpos mx | Zpos _ => Z.shiftl (Zpos mx) s | Zneg _ => 0 end).
  assert (Hm' : m' = Zpos mx * 2 ^ s).
  { subst m'. destruct s as [|p|p] eqn:Es; [rewrite Z.pow_0_r; lia| |lia].
    rewrite Z.shiftl_mul_pow2 by lia. reflexivity. }
  assert (Hps : 0 < 2 ^ s) by (apply Z.pow_pos_nonneg; lia).
  assert (HP : 0 < m') by (rewrite Hm'; lia).
  assert (Hqr : Z.div_eucl m' (Zpos my) = (m' / Zpos my, m' mod Zpos my)).
  { unfold Z.div, Z.modulo. now destruct (Z.div_eucl m' (Zpos my)). }
  rewrite Hqr. rewrite new_location_loc_of by lia.
  (* the quotient has 53 or 54 digits *)
  destruct (digits2_pos_bounds mx) as [Hxl Hxu]. fold d1 in Hxl, Hxu.
  destruct (digits2_pos_bounds my) as [Hyl Hyu]. fold d2 in Hyl, Hyu.
  assert (Hd1 : 0 < d1) by (subst d1; lia).
  assert (Hd2 : 0 < d2) by (subst d2; lia).
  assert (Hq52 : 2 ^ 52 <= m' / Zpos my).
  { apply Z.div_le_lower_bound; [lia|].
    assert (E : 2 ^ (d1 - 1) * 2 ^ s = 2 ^ 52 * 2 ^ d2).
    { rewrite <- !Z.pow_add_r by lia. f_equal. subst s. lia. }
    rewrite Hm'. nia. }
  assert (Hq54 : m' / Zpos my < 2 ^ 54).
  { apply Z.div_lt_upper_bound; [lia|].
    assert (E : 2 ^ d1 * 2 ^ s = 2 ^ 54 * 2 ^ (d2 - 1)).
    { rewrite <- !Z.pow_add_r by lia. f_equal. subst s. lia. }
    rewrite Hm'. nia. }
  set (q := m' / Zpos my) in *.
  assert (Hdq : Zdigits2 q = 53 \/ Zdigits2 q = 54).
  { destruct (Z.lt_ge_cases q (2 ^ 53)).
    - left. apply Zdigits2_unique; cbn; lia.
    - right. apply Zdigits2_unique; cbn; lia. }
  destruct (binary_round_aux_normal false m' (Zpos my) e' ltac:(lia) HP)
    as (m & e & Hr & Hm & He & Hab); fold q; try lia.
  fold q in Hr, He, Hab.
  exists m, e. split; [exact Hr|]. split; [exact Hm|]. split; [lia|].
  (* half an ulp is at most the value over 2^53 *)
  assert (Hq0 : 0 < q) by lia.
  destruct (Zdigits2_bounds q Hq0) as [Hql _].
  assert (HqP : q * Zpos my <= m').
  { subst q. pose proof (Z.mul_div_le m' (Zpos my) ltac:(lia)). lia. }
  assert (E53 : 2 ^ 53 * 2 ^ (Zdigits2 q - 53) = 2 * 2 ^ (Zdigits2 q - 1)).
  { destruct Hdq as [-> | ->]; reflexivity. }
  rewrite <- Hm'. nia.
Qed.

Lemma loc_of_integer (P : Z) : loc_of P 1 = loc_Exact.
Proof. unfold loc_of. now rewrite Z.mod_1_r. Qed.


Lemma iter_xO_pow2 (p k : positive) :
  Zpos (Pos.iter xO p k) = Zpos p * 2 ^ Zpos k.
Proof.
  induction k as [|k IH] using Pos.peano_ind.
  - cbn. lia.
  - rewrite Pos.iter_succ, Pos2Z.inj_succ, Z.pow_succ_r by lia.
    rewrite Pos2Z.inj_xO, IH. ring.
Qed.

(** [float(z)] is exact for a positive integer below [2^53]. *)
Lemma of_Z_exact (z : Z) :
  0 < z < 2 ^ 53 ->
  exists m e,
    Float.of_Z z = S754_finite false m e
    /\ 2 ^ 52 <= Zpos m < 2 ^ 53
    /\ e = Zdigits2 z - 53
    /\ Zpos m = z * 2 ^ (- e).
Proof.
  intros [Hz0 Hz]. destruct z as [|p|p]; try lia.
  unfold Float.of_Z, Float.prec, Float.emax, binary_normalize, binary_round.
  set (d := Zpos (digits2_pos p)).
  destruct (digits2_pos_bounds p) as [Hl Hu]. fold d in Hl, Hu.
  assert (Hd : 0 < d <= 53).
  { split; [subst d; lia|].
    destruct (Z.le_gt_cases d 53) as [H|H]; [exact H|exfalso].
    assert (2 ^ 53 <= 2 ^ (d - 1)) by (apply Z.pow_le_mono_r; lia). lia. }
  rewrite (fexp_normal (d + 0)) by lia.
  set (k := 53 - d).
  assert (Hal : exists mz, shl_align p 0 (d + 0 - 53) = (mz, d - 53)
                           /\ Zpos mz = Zpos p * 2 ^ k).
  { unfold shl_align. replace (d + 0 - 53 - 0) with (- k) by (subst k; lia).
    destruct k as [|j|j] eqn:Ek; try lia.
    - exists p. cbn [Z.opp]. split; [f_equal; lia|]. rewrite Z.pow_0_r. lia.
    - exists (Pos.iter xO p j). cbn [Z.opp]. split; [f_equal; lia|].
      apply iter_xO_pow2. }
  destruct Hal as (mz & Hal & Hmz). rewrite Hal.
  assert (Hk : 0 <= k) by (subst k; lia).
  assert (Hpk : 0 < 2 ^ k) by (apply Z.pow_pos_nonneg; lia).
  assert (Hmzb : 2 ^ 52 <= Zpos mz < 2 ^ 53).
  { rewrite Hmz.
    assert (E1 : 2 ^ (d - 1) * 2 ^ k = 2 ^ 52)
      by (rewrite <- Z.pow_add_r by lia; f_equal; subst k; lia).
    assert (E2 : 2 ^ d * 2 ^ k = 2 ^ 53)
      by (rewrite <- Z.pow_add_r by lia; f_equal; subst k; lia).
    nia. }
  assert (Hdz : Zdigits2 (Zpos mz) = 53) by (apply Zdigits2_unique; cbn; lia).
  assert (Hdiv : Zpos mz / 1 = Zpos mz) by apply Z.div_1_r.
  destruct (binary_round_aux_normal false (Zpos mz) 1 (d - 53) ltac:(lia) ltac:(lia))
    as (m & e & Hr & Hm & He & Hab); rewrite ?Hdiv, ?Hdz; try lia.
  rewrite Hdiv, loc_of_integer in Hr. rewrite Hdiv, Hdz in He, Hab.
  change (2 ^ (53 - 53)) with 1 in Hab.
  assert (Hee : e = d - 53 \/ e = d - 52) by lia.
  exists m, e. split; [exact Hr|]. split; [exact Hm|].
  destruct Hee as [-> | ->].
  - replace (d - 53 - (d - 53)) with 0 in Hab by lia. rewrite Z.pow_0_r in Hab.
    split; [reflexivity|]. replace (- (d - 53)) with k by (subst k; lia). lia.
  - exfalso. replace (d - 52 - (d - 53)) with 1 in Hab by lia.
    rewrite Z.pow_1_r in Hab. lia.
Qed.

Lemma pow2_pos (e : Z) : (0 < pow2 e)%Q.
Proof. apply Qpower_0_lt. reflexivity. Qed.

Lemma pow2_add (a b : Z) : (pow2 (a + b) == pow2 a * pow2 b)%Q.
Proof. apply Qpower_plus. discriminate. Qed.

Lemma pow2_nonneg (e : Z) : 0 <= e -> (pow2 e == inject_Z (2 ^ e))%Q.
Proof. intros H. unfold pow2. now rewrite Zpower_Qpower. Qed.

Lemma rel_err_Q (M P D : Z) (c X : Q) :
  0 < D -> (0 < c)%Q ->
  2 ^ 53 * Z.abs (M * D - P) <= P ->
  (X * inject_Z D == inject_Z P * c)%Q ->
  (Qabs (inject_Z M * c - X) <= X * u53)%Q.
Proof.
  intros HD Hc Hab HX.
  assert (H1 : 2 ^ 53 * (M * D - P) <= P) by lia.
  assert (H2 : - P <= 2 ^ 53 * (M * D - P)) by lia.
  rewrite Zle_Qle in H1, H2.
  unfold Z.sub in H1, H2.
  repeat (rewrite inject_Z_mult in H1 || rewrite inject_Z_plus in H1
          || rewrite inject_Z_opp in H1).
  repeat (rewrite inject_Z_mult in H2 || rewrite inject_Z_plus in H2
          || rewrite inject_Z_opp in H2).
  assert (HDq : (inject_Z 0 < inject_Z D)%Q) by (rewrite <- Zlt_Qlt; exact HD).
  change (inject_Z 0) with 0%Q in HDq.
  set (d := inject_Z D) in *. set (p := inject_Z P) in *. set (m := inject_Z M) in *.
  change (inject_Z (2 ^ 53)) with (9007199254740992 # 1)%Q in H1, H2.
  unfold u53. change (1 # 2 ^ 53)%Q with (1 # 9007199254740992)%Q.
  assert (Hk1 : (c * (m * d - p) <= c * (p * (1 # 9007199254740992)))%Q)
    by (apply Qmult_le_l; [exact Hc|lra]).
  assert (Hk2 : (c * (- p * (1 # 9007199254740992)) <= c * (m * d - p))%Q)
    by (apply Qmult_le_l; [exact Hc|lra]).
  apply Qabs_Qle_condition. split.
  - apply Qmult_le_r with (z := d); [exact HDq|]. lra.
  - apply Qmult_le_r with (z := d); [exact HDq|]. lra.
Qed.

Lemma pow2_scale (m : Z) (e e' : Z) :
  e' <= e ->
  (inject_Z (m * 2 ^ (e - e')) * pow2 e' == inject_Z m * pow2 e)%Q.
Proof.
  intros H. rewrite inject_Z_mult, <- pow2_nonneg by lia.
  rewrite <- Qmult_assoc, <- pow2_add.
  replace (e - e' + e') with e by lia. reflexivity.
Qed.

Lemma div_Q (mx my : positive) (ex ey : Z) :
  let d1 := Zpos (digits2_pos mx) in
  let d2 := Zpos (digits2_pos my) in
  let e' := d1 + ex - (d2 + ey) - 53 in
  0 <= d2 - d1 + 53 -> -1074 <= e' -> e' + 1 < 971 ->
  exists m e,
    Float.div (S754_finite false mx ex) (S754_finite false my ey)
    = S754_finite false m e
    /\ 2 ^ 52 <= Zpos m < 2 ^ 53
    /\ e' <= e <= e' + 2
    /\ forall X : Q,
        (X * to_Q (S754_finite false my ey) == to_Q (S754_finite false mx ex))%Q ->
        (Qabs (to_Q (S754_finite false m e) - X) <= X * u53)%Q.
Proof.
  intros d1 d2 e' Hs Hlo Hhi.
  destruct (div_normal mx my ex ey Hs Hlo Hhi) as (m & e & Hr & Hm & He & Hab).
  fold d1 d2 e' in He, Hab.
  exists m, e. split; [exact Hr|]. split; [exact Hm|]. split; [exact He|].
  intros X HX. cbn [to_Q Float.signed cond_Zopp] in *.
  set (s := d2 - d1 + 53) in *.
  rewrite <- (pow2_scale (Zpos m) e e') by lia.
  apply rel_err_Q with (P := Zpos mx * 2 ^ s) (D := Zpos my);
    [lia|apply pow2_pos|exact Hab|].
  apply Qmult_inj_r with (z := pow2 ey).
  { intros H. pose proof (pow2_pos ey) as Hp. rewrite H in Hp. discriminate. }
  rewrite <- Qmult_assoc, HX.
  rewrite inject_Z_mult, <- pow2_nonneg by lia.
  replace ex with (s + e' + ey) by (subst s e'; lia).
  rewrite !pow2_add. ring.
Qed.


(* ================================================================== *)
(** ** Decimal texts *)

Module DigitsFacts.

Import Decimal.
Import DecimalFacts.
Import Digits.

Lemma of_uint_acc_uval (l : uint) (acc : positive) :
  Zpos (Pos.of_uint_acc l acc) = uval (Zpos acc) l.
Proof.
  revert acc. induction l; intros acc; cbn [Pos.of_uint_acc uval];
    try reflexivity; rewrite IHl; f_equal; lia.
Qed.

Lemma of_uint_uval (u : uint) : Z.of_uint u = uval 0 u.
Proof.
  unfold Z.of_uint. induction u; cbn [Pos.of_uint uval]; try reflexivity;
    try (rewrite Z.mul_0_r, ?Z.add_0_r; cbn [Z.of_N]; apply of_uint_acc_uval).
  rewrite Z.mul_0_r. exact IHu.
Qed.

Lemma uval_app (u v : uint) (acc : Z) :
  uval acc (uapp u v) = uval (uval acc u) v.
Proof. revert acc. induction u; intros acc; cbn [uapp uval]; auto. Qed.

Lemma uval_shift (v : uint) (acc : Z) :
  uval acc v = acc * 10 ^ Z.of_nat (nb_digits v) + uval 0 v.
Proof.
  revert acc. induction v; intros acc; cbn [uval nb_digits];
    try (rewrite Z.pow_0_r; lia);
    rewrite Nat2Z.inj_succ, Z.pow_succ_r by lia;
    rewrite IHv; rewrite (IHv (_ + 10 * 0)) || rewrite (IHv (10 * 0)); lia.
Qed.

Lemma uval_nonneg (v : uint) (acc : Z) : 0 <= acc -> 0 <= uval acc v.
Proof. revert acc. induction v; intros acc H; cbn [uval]; try apply IHv; lia. Qed.

Lemma string_of_uint_app (u v : uint) :
  NilEmpty.string_of_uint (uapp u v)
  = (NilEmpty.string_of_uint u ++ NilEmpty.string_of_uint v)%string.
Proof. induction u; cbn [uapp NilEmpty.string_of_uint String.append]; congruence. Qed.

Lemma zeros_string (n : nat) :
  Text.zeros n = NilEmpty.string_of_uint (Nat.iter n D0 Nil).
Proof.
  induction n as [|n IH]; [reflexivity|].
  change (Nat.iter (S n) D0 Nil) with (D0 (Nat.iter n D0 Nil)).
  cbn [Text.zeros NilEmpty.string_of_uint]. now rewrite IH.
Qed.

Lemma length_string_of_uint (u : uint) :
  String.length (NilEmpty.string_of_uint u) = nb_digits u.
Proof. induction u; cbn; congruence. Qed.

Lemma uval_zeros (n : nat) (acc : Z) :
  uval acc (Nat.iter n D0 Nil) = acc * 10 ^ Z.of_nat n.
Proof.
  revert acc. induction n as [|n IH]; intros acc.
  - cbn. lia.
  - change (Nat.iter (S n) D0 Nil) with (D0 (Nat.iter n D0 Nil)).
    cbn [uval]. rewrite IH, Nat2Z.inj_succ, Z.pow_succ_r by lia. lia.
Qed.

Lemma nb_digits_zeros (n : nat) : nb_digits (Nat.iter n D0 Nil) = n.
Proof.
  induction n as [|n IH]; [reflexivity|].
  change (Nat.iter (S n) D0 Nil) with (D0 (Nat.iter n D0 Nil)).
  cbn [nb_digits]. now rewrite IH.
Qed.

Lemma nb_digits_uapp (u v : uint) :
  nb_digits (uapp u v) = (nb_digits u + nb_digits v)%nat.
Proof. induction u; cbn; congruence. Qed.

(** A digit sequence without leading zero has a value of full width. *)
Lemma uval_normal_lower (u : uint) :
  unorm u = u -> u <> zero ->
  10 ^ (Z.of_nat (nb_digits u) - 1) <= uval 0 u.
Proof.
  intros Hn Hz.
  assert (Hd : forall k l, 1 <= k -> 10 ^ Z.of_nat (nb_digits l) <= uval (k + 10 * 0) l).
  { intros k l Hk. rewrite uval_shift.
    pose proof (uval_nonneg l 0 ltac:(lia)).
    assert (0 < 10 ^ Z.of_nat (nb_digits l)) by (apply Z.pow_pos_nonneg; lia). nia. }
  destruct u; cbn [nb_digits uval];
    rewrite ?Nat2Z.inj_succ;
    try (replace (Z.succ (Z.of_nat (nb_digits u)) - 1) with (Z.of_nat (nb_digits u)) by lia;
         apply Hd; lia).
  - cbn in Hn. discriminate.
  - exfalso. unfold unorm in Hn. cbn [nzhead] in Hn.
    pose proof (nb_digits_nzhead u) as Hlen.
    destruct (nzhead u) eqn:E.
    + injection Hn as Hn. apply Hz. now rewrite <- Hn.
    + rewrite Hn in Hlen. cbn in Hlen. lia.
    + rewrite Hn in Hlen. cbn in Hlen. lia.
    + rewrite Hn in Hlen. cbn in Hlen. lia.
    + rewrite Hn in Hlen. cbn in Hlen. lia.
    + rewrite Hn in Hlen. cbn in Hlen. lia.
    + rewrite Hn in Hlen. cbn in Hlen. lia.
    + rewrite Hn in Hlen. cbn in Hlen. lia.
    + rewrite Hn in Hlen. cbn in Hlen. lia.
    + rewrite Hn in Hlen. cbn in Hlen. lia.
    + rewrite Hn in Hlen. cbn in Hlen. lia.
Qed.

Lemma of_Z_digits (r : Z) :
  0 <= r -> Text.of_Z r = NilEmpty.string_of_uint (digits_of r).
Proof.
  intros H. unfold Text.of_Z, digits_of. destruct r as [|p|p]; try lia.
  - reflexivity.
  - cbn [Z.to_int NilZero.string_of_int Z.to_N N.to_uint].
    unfold NilZero.string_of_uint.
    pose proof (DecimalPos.Unsigned.to_uint_nonnil p) as Hn.
    destruct (Pos.to_uint p); try reflexivity. now elim Hn.
Qed.

Lemma uval_digits_of (r : Z) : 0 <= r -> uval 0 (digits_of r) = r.
Proof.
  intros H. rewrite <- of_uint_uval. unfold Z.of_uint, digits_of.
  change (Pos.of_uint (N.to_uint (Z.to_N r))) with (N.of_uint (N.to_uint (Z.to_N r))).
  rewrite DecimalN.Unsigned.of_to. lia.
Qed.

Lemma digits_of_normal (r : Z) : unorm (digits_of r) = digits_of r.
Proof.
  unfold digits_of. rewrite <- DecimalN.Unsigned.to_of.
  now rewrite DecimalN.Unsigned.of_to.
Qed.

Lemma digits_of_nonnil (r : Z) : digits_of r <> Nil.
Proof.
  unfold digits_of. destruct (Z.to_N r); cbn [N.to_uint]; [discriminate|].
  apply DecimalPos.Unsigned.to_uint_nonnil.
Qed.

(** A number below [10^k] has at most [k] digits. *)
Lemma nb_digits_digits_of (r : Z) (k : nat) :
  0 <= r < 10 ^ Z.of_nat k -> (1 <= k)%nat ->
  (nb_digits (digits_of r) <= k)%nat.
Proof.
  intros [H0 Hk] H1.
  destruct (uint_eq_dec (digits_of r) zero) as [E|E].
  - rewrite E. cbn. lia.
  - pose proof (uval_normal_lower _ (digits_of_normal r) E) as Hl.
    rewrite uval_digits_of in Hl by lia.
    destruct (Nat.le_gt_cases (nb_digits (digits_of r)) k) as [H|H]; [exact H|].
    exfalso.
    assert (10 ^ Z.of_nat k <= 10 ^ (Z.of_nat (nb_digits (digits_of r)) - 1))
      by (apply Z.pow_le_mono_r; lia).
    lia.
Qed.

Lemma split_dot_digits (u : uint) (t : string) :
  Text.split_dot (NilEmpty.string_of_uint u ++ String "." t)
  = (NilEmpty.string_of_uint u, Some t).
Proof.
  induction u; cbn [NilEmpty.string_of_uint String.append Text.split_dot];
    try reflexivity;
    match goal with
    | |- context [Ascii.eqb ?a ?b] => change (Ascii.eqb a b) with false
    end; cbv iota; rewrite IHu; reflexivity.
Qed.



End DigitsFacts.

(* ================================================================== *)
(** ** The frequency round trip *)

Lemma round_half_even_spec (n d : Z) :
  0 < d -> 0 <= n ->
  Z.abs (2 * Float.round_half_even n d * d - 2 * n) <= d.
Proof.
  intros Hd Hn. unfold Float.round_half_even.
  pose proof (Z.div_mod n d ltac:(lia)) as Hdm.
  pose proof (Z.mod_pos_bound n d Hd) as Hr.
  destruct (Z.compare_spec (2 * (n mod d)) d); try destruct (Z.even (n / d)); nia.
Qed.

Lemma pow2_inverse (e : Z) : e <= 0 -> (pow2 e * inject_Z (2 ^ (- e)) == 1)%Q.
Proof.
  intros H. rewrite <- pow2_nonneg by lia. rewrite <- pow2_add.
  replace (e + - e) with 0 by lia. reflexivity.
Qed.

(** The integer a finite number is rendered from, with [k = 7]: within one
    half of the number times [10^7]. *)
Lemma scaled_Q (m : positive) (e : Z) :
  e < 0 ->
  (Qabs (inject_Z (Float.scaled m e 7) - to_Q (S754_finite false m e) * inject_Z (10 ^ 7))
   <= 1 # 2)%Q.
Proof.
  intros He. unfold Float.scaled.
  replace (0 <=? e) with false by (symmetry; apply Z.leb_gt; exact He).
  set (t := 2 ^ (- e)).
  assert (Ht : 0 < t) by (apply Z.pow_pos_nonneg; lia).
  pose proof (round_half_even_spec (Zpos m * 10 ^ 7) t Ht ltac:(lia)) as Hab.
  set (N := Float.round_half_even (Zpos m * 10 ^ 7) t) in *.
  assert (H1 : 2 * N * t - 2 * (Zpos m * 10 ^ 7) <= t) by lia.
  assert (H2 : - t <= 2 * N * t - 2 * (Zpos m * 10 ^ 7)) by lia.
  rewrite Zle_Qle in H1, H2. unfold Z.sub in H1, H2.
  repeat (rewrite inject_Z_mult in H1 || rewrite inject_Z_plus in H1
          || rewrite inject_Z_opp in H1).
  repeat (rewrite inject_Z_mult in H2 || rewrite inject_Z_plus in H2
          || rewrite inject_Z_opp in H2).
  cbn [to_Q Float.signed cond_Zopp].
  pose proof (pow2_inverse e ltac:(lia)) as Hinv. fold t in Hinv.
  assert (Htq : (inject_Z 0 < inject_Z t)%Q) by (rewrite <- Zlt_Qlt; exact Ht).
  change (inject_Z 0) with 0%Q in Htq.
  set (tq := inject_Z t) in *. set (c := pow2 e) in *.
  set (mq := inject_Z (Zpos m)) in *. set (nq := inject_Z N) in *.
  set (k7 := inject_Z (10 ^ 7)) in *.
  change (inject_Z 2) with 2%Q in H1, H2.
  assert (Hm : (mq * c * k7 * tq == mq * k7)%Q).
  { setoid_replace (mq * c * k7 * tq)%Q with (mq * k7 * (c * tq))%Q by ring.
    rewrite Hinv. ring. }
  apply Qabs_Qle_condition. split.
  - apply Qmult_le_r with (z := tq); [exact Htq|]. lra.
  - apply Qmult_le_r with (z := tq); [exact Htq|]. lra.
Qed.

Lemma Zdigits2_range (m a b : Z) :
  0 <= a -> 2 ^ a <= m < 2 ^ b -> a < Zdigits2 m <= b.
Proof.
  intros Ha [Hl Hu].
  assert (Hm : 0 < m) by (pose proof (Z.pow_pos_nonneg 2 a); lia).
  destruct (Zdigits2_bounds m Hm) as [Hl' Hu'].
  pose proof (Zdigits2_pos m Hm) as Hp.
  split.
  - destruct (Z.lt_ge_cases a (Zdigits2 m)) as [H|H]; [exact H|exfalso].
    assert (2 ^ Zdigits2 m <= 2 ^ a) by (apply Z.pow_le_mono_r; lia). lia.
  - destruct (Z.le_gt_cases (Zdigits2 m) b) as [H|H]; [exact H|exfalso].
    assert (2 ^ b <= 2 ^ (Zdigits2 m - 1)) by (apply Z.pow_le_mono_r; lia). lia.
Qed.

Lemma to_Q_1e6 : (to_Q f_1e6 == 1000000)%Q.
Proof. reflexivity. Qed.

Lemma Qabs_bounds (x y r : Q) : (Qabs (x - y) <= r -> y - r <= x <= y + r)%Q.
Proof.
  intros H. apply Qabs_Qle_condition in H. destruct H. split; lra.
Qed.


Lemma in_band_Q (m0 : positive) (e0 : Z) :
  in_band m0 e0 ->
  (53000000 <= to_Q (S754_finite false m0 e0) <= 13999999999)%Q.
Proof.
  intros (Hm & He & Hl & Hu).
  cbn [to_Q Float.signed cond_Zopp].
  pose proof (pow2_inverse e0 ltac:(lia)) as Hinv.
  set (t := 2 ^ (- e0)) in *.
  assert (Ht : 0 < t) by (apply Z.pow_pos_nonneg; lia).
  assert (Htq : (inject_Z 0 < inject_Z t)%Q) by (rewrite <- Zlt_Qlt; exact Ht).
  change (inject_Z 0) with 0%Q in Htq.
  rewrite Zle_Qle in Hl, Hu. rewrite inject_Z_mult in Hl, Hu.
  change (inject_Z 53000000) with 53000000%Q in Hl.
  change (inject_Z 13999999999) with 13999999999%Q in Hu.
  set (tq := inject_Z t) in *. set (c := pow2 e0) in *.
  set (mq := inject_Z (Zpos m0)) in *.
  assert (E : (mq * c * tq == mq)%Q)
    by (rewrite <- Qmult_assoc, Hinv; ring).
  split; apply Qmult_le_r with (z := tq); try exact Htq; lra.
Qed.

Lemma valid_in_band (f : spec_float) :
  valid_binary 53 1024 f = true ->
  SFleb f_53e6 f = true -> SFleb f f_13999_999999e6 = true ->
  exists m0 e0, f = S754_finite false m0 e0 /\ in_band m0 e0.
Proof.
  intros Hv Hlo Hhi.
  destruct f as [s|s| |s m e].
  - discriminate Hlo.
  - destruct s; [discriminate Hlo|discriminate Hhi].
  - discriminate Hlo.
  - destruct s; [discriminate Hlo|].
    exists m, e. split; [reflexivity|].
    unfold SFleb, SFcompare, f_53e6 in Hlo. unfold SFleb, SFcompare, f_13999_999999e6 in Hhi.
    cbn [valid_binary] in Hv. unfold bounded, canonical_mantissa in Hv.
    apply andb_true_iff in Hv. destruct Hv as [Hc _]. apply Z.eqb_eq in Hc.
    unfold fexp, emin in Hc.
    rewrite Pos.compare_cont_spec in Hlo, Hhi. cbn [Pos.switch_Eq] in Hlo, Hhi.
    assert (Hlo' : -27 < e \/ (e = -27 /\ 7113539584000000 <= Zpos m)).
    { destruct (Z.compare_spec (-27) e); [right|left; lia|discriminate Hlo].
      split; [lia|].
      destruct (Pos.compare_spec 7113539584000000 m) as [E|E|E];
        [rewrite E; apply Z.le_refl
        |apply Z.lt_le_incl; exact E
        |discriminate Hlo]. }
    assert (Hhi' : e < -19 \/ (e = -19 /\ Zpos m <= 7340031999475712)).
    { destruct (Z.compare_spec e (-19)); [right|left; lia|discriminate Hhi].
      split; [lia|].
      destruct (Pos.compare_spec m 7340031999475712) as [E|E|E];
        [rewrite E; apply Z.le_refl
        |apply Z.lt_le_incl; exact E
        |discriminate Hhi]. }
    clear Hlo Hhi.
    assert (He : -27 <= e <= -19) by lia.
    assert (Hd : Zpos (digits2_pos m) = 53) by lia.
    destruct (digits2_pos_bounds m) as [Hl Hu]. rewrite Hd in Hl, Hu.
    change (2 ^ (53 - 1)) with (2 ^ 52) in Hl.
    unfold in_band. split; [lia|]. split; [lia|].
    change (2 ^ 52) with 4503599627370496 in Hl.
    change (2 ^ 53) with 9007199254740992 in Hu.
    split.
    + destruct Hlo' as [Hlo'|[-> Hlo']].
      * assert (H26 : 2 ^ (- e) <= 2 ^ 26) by (apply Z.pow_le_mono_r; lia).
        change (2 ^ 26) with 67108864 in H26. lia.
      * change (2 ^ (- -27)) with 134217728. lia.
    + destruct Hhi' as [Hhi'|[-> Hhi']].
      * assert (H20 : 2 ^ 20 <= 2 ^ (- e)) by (apply Z.pow_le_mono_r; lia).
        change (2 ^ 20) with 1048576 in H20. lia.
      * change (2 ^ (- -19)) with 524288. lia.
Qed.

Lemma int_in_band (z : Z) :
  53000000 <= z <= 13999999999 ->
  exists m0 e0, Float.of_Z z = S754_finite false m0 e0 /\ in_band m0 e0
                /\ (to_Q (S754_finite false m0 e0) == inject_Z z)%Q.
Proof.
  intros Hz.
  destruct (of_Z_exact z) as (m & e & Hf & Hm & He & Hv).
  { change (2 ^ 53) with 9007199254740992. lia. }
  destruct (Zdigits2_range z 25 34 ltac:(lia)) as [Hdl Hdu].
  { change (2 ^ 25) with 33554432. change (2 ^ 34) with 17179869184. lia. }
  exists m, e. split; [exact Hf|].
  assert (Hpos : 0 < 2 ^ (- e)) by (apply Z.pow_pos_nonneg; lia).
  split.
  - unfold in_band. split; [exact Hm|]. split; [lia|]. rewrite Hv. nia.
  - cbn [to_Q Float.signed cond_Zopp]. rewrite Hv, inject_Z_mult.
    rewrite <- Qmult_assoc, (Qmult_comm (inject_Z (2 ^ (- e)))).
    rewrite pow2_inverse by lia. ring.
Qed.

Lemma session_read_float (attribute : string) (code : ascii) w
      (reply : string) (y : spec_float) out rest chs :
  lookup API attribute
  = Some {| value_type := Some t_float; write_template := w;
            query_command := Some (String code "?") |} ->
  code <> "{"%char ->
  Text.to_float reply = Some y ->
  Session.read attribute [] (device out (reply :: rest) chs)
  = (Ok (VFloat y), device (out ++ [String code "?"]) rest chs).
Proof.
  intros Hl Hc Hy. unfold Session.read. rewrite Hl.
  cbn [query_command value_type].
  assert (Hf : Text.format (String code "?") [] = Some (String code "?")).
  { cbn [Text.format].
    destruct code as [[] [] [] [] [] [] [] []];
      try (exfalso; apply Hc; reflexivity); reflexivity. }
  rewrite Hf. unfold bind, write_line, read_line, Session.parse.
  cbn [_dev sent pending _channels device]. rewrite Hy. reflexivity.
Qed.

(** A number of the frequency range as the float the setter divides. *)
Lemma as_float_in_band (v : value) (s : SynthHD) :
  inside 53000000 13999999999 f_53e6 f_13999_999999e6 v ->
  (forall f, v = VFloat f -> valid_binary 53 1024 f = true) ->
  exists m0 e0,
    as_float v s = (Ok (S754_finite false m0 e0), s)
    /\ in_band m0 e0
    /\ (to_Q (S754_finite false m0 e0) == value_Q v)%Q.
Proof.
  intros Hin Hvalid. destruct v as [|b|z|f|t]; cbn [inside] in Hin; try contradiction.
  - exfalso. destruct b; cbn [Z_of_bool] in Hin; lia.
  - destruct (int_in_band z Hin) as (m0 & e0 & Hf & Hb & HQ).
    exists m0, e0. split; [|split; assumption].
    cbn [as_float]. unfold float_of_int. rewrite Hf. reflexivity.
  - destruct Hin as [Hlo Hhi].
    destruct (valid_in_band f (Hvalid f eq_refl) Hlo Hhi) as (m0 & e0 & -> & Hb).
    exists m0, e0. split; [reflexivity|]. split; [exact Hb|reflexivity].
Qed.



(* ================================================================== *)
(** ** Sequences of transmitted lines *)

(** The device after several more transmitted lines. *)
Definition transmit_all (s : SynthHD) (lines : list string) : SynthHD :=
  fold_left transmit lines s.

(** The lines of [SynthHDChannel.init] on the channel of the given index. *)
Definition channel_init_lines (index : Z) : list string :=
  let c := select_line index in
  [c; "h0"; c; "E0"; c; "r0"; c; "f53.0000000"; c; "W-60.000";
   c; "~0.000"; c; "Z3"]%string.

(** The lines of [SynthHD.init]. *)
Definition device_init_lines : list string :=
  ["x1"; "w0"; "c0"; "A0"; "j0"; "D0"; "/0"]%string
  ++ channel_init_lines 0 ++ channel_init_lines 1.

Lemma bind_ok {A B} (m : M A) (k : A -> M B) (s s1 : SynthHD) (a : A) :
  m s = (Ok a, s1) -> bind m k s = k a s1.
Proof. intros H. unfold bind. now rewrite H. Qed.

Lemma bind_raise {A B} (m : M A) (k : A -> M B) (s s1 : SynthHD) (e : exn) :
  m s = (Raise e, s1) -> bind m k s = (Raise e, s1).
Proof. intros H. unfold bind. now rewrite H. Qed.

Lemma transmit_device out replies chs (line : string) :
  transmit (device out replies chs) line = device (out ++ [line]) replies chs.
Proof. reflexivity. Qed.

Lemma transmit_all_app (s : SynthHD) (l1 l2 : list string) :
  transmit_all s (l1 ++ l2) = transmit_all (transmit_all s l1) l2.
Proof. apply fold_left_app. Qed.

Lemma transmit_all_device out replies chs (lines : list string) :
  transmit_all (device out replies chs) lines = device (out ++ lines) replies chs.
Proof.
  revert out. induction lines as [|l rest IH]; intros out.
  - cbn. now rewrite app_nil_r.
  - cbn [transmit_all fold_left]. change (fold_left transmit rest ?x) with (transmit_all x rest).
    unfold transmit at 1. cbn [_dev sent pending _channels device].
    fold (device (out ++ [l]) replies chs). rewrite IH, <- app_assoc. reflexivity.
Qed.

Lemma transmit_all_wire (s : SynthHD) (lines : list string) :
  wire (transmit_all s lines) = wire s ++ lines
  /\ pending (_dev (transmit_all s lines)) = pending (_dev s)
  /\ _channels (transmit_all s lines) = _channels s.
Proof.
  destruct s as [[out replies] chs].
  change {| _dev := {| sent := out; pending := replies |}; _channels := chs |}
    with (device out replies chs).
  rewrite transmit_all_device. repeat split.
Qed.

(* ================================================================== *)
(** ** Boolean properties *)

Lemma session_write_bool (s : SynthHD) (b : bool)
      (attribute : string) (code : ascii) :
  lookup API attribute
  = Some {| value_type := Some t_bool;
            write_template := Some (String code "{}");
            query_command := Some (String code "?") |} ->
  code <> "{"%char ->
  Session.write attribute [VBool b] s
  = (Ok tt, transmit s (String code (reply_of_bool b))).
Proof.
  intros Hl Hc. unfold Session.write. rewrite Hl. cbn [write_template].
  assert (Hf : Text.format (String code "{}") [VBool b]
               = Some (String code (reply_of_bool b))).
  { cbn [Text.format].
    destruct code as [[] [] [] [] [] [] [] []];
      try (exfalso; apply Hc; reflexivity); destruct b; reflexivity. }
  rewrite Hf. reflexivity.
Qed.

Lemma session_read_bool (b : bool) (attribute : string) (code : ascii)
      out replies chs :
  lookup API attribute
  = Some {| value_type := Some t_bool;
            write_template := Some (String code "{}");
            query_command := Some (String code "?") |} ->
  code <> "{"%char ->
  Session.read attribute [] (device out (reply_of_bool b :: replies) chs)
  = (Ok (VBool b), device (out ++ [String code "?"]) replies chs).
Proof.
  intros Hl Hc. unfold Session.read. rewrite Hl.
  cbn [query_command value_type].
  assert (Hf : Text.format (String code "?") [] = Some (String code "?")).
  { cbn [Text.format].
    destruct code as [[] [] [] [] [] [] [] []];
      try (exfalso; apply Hc; reflexivity); reflexivity. }
  rewrite Hf. unfold bind, write_line, read_line, Session.parse.
  cbn [_dev sent pending _channels device]. destruct b; reflexivity.
Qed.

(** A value that is not a Python [bool]. *)
Definition not_bool (v : value) : Prop :=
  match v with
  | VBool _ => False
  | _ => True
  end.

Lemma not_bool_isinstance (v : value) : not_bool v -> isinstance_bool v = false.
Proof. destruct v; cbn; tauto. Qed.

(** X5.  The three boolean channel properties.  Assigning a bool [b] to
    [rf_mute] transmits the select line and [h] with the inverse of [b];
    assigning it to [pa_enable] or [pll_enable] transmits [r{b}] or [E{b}].
    Reading the property back from a device that reports the value it was
    sent returns [b]: the inversion of [rf_mute] is undone by its getter.  A
    value that is not a bool raises [ValueError] and leaves the device as
    it was. *)
Theorem channel_switches_round_trip
        (ch : SynthHDChannel) (b : bool) (v : value) out rest chs (s : SynthHD) :
  let c := select_line (_index ch) in
  (Channel.set_rf_mute ch (VBool b) ;; Channel.rf_mute ch)
    (device out (reply_of_bool (negb b) :: rest) chs)
  = (Ok (VBool b),
     device (out ++ [c; String "h" (reply_of_bool (negb b)); c; "h?"]) rest chs)
  /\ (Channel.set_pa_enable ch (VBool b) ;; Channel.pa_enable ch)
       (device out (reply_of_bool b :: rest) chs)
     = (Ok (VBool b),
        device (out ++ [c; String "r" (reply_of_bool b); c; "r?"]) rest chs)
  /\ (Channel.set_pll_enable ch (VBool b) ;; Channel.pll_enable ch)
       (device out (reply_of_bool b :: rest) chs)
     = (Ok (VBool b),
        device (out ++ [c; String "E" (reply_of_bool b); c; "E?"]) rest chs)
  /\ (not_bool v ->
      Channel.set_rf_mute ch v s = (Raise ValueError, s)
      /\ Channel.set_pa_enable ch v s = (Raise ValueError, s)
      /\ Channel.set_pll_enable ch v s = (Raise ValueError, s)).
Proof.
  cbv zeta. split; [|split; [|split]].
  - unfold Channel.set_rf_mute, Channel.rf_mute. cbn [isinstance_bool negb py_not truthy].
    rewrite (bind_ok _ _ _ _ _
               (channel_write_bool ch _ (negb b) "rf_mute" "h" eq_refl ltac:(discriminate))).
    rewrite !transmit_device.
    rewrite (bind_ok _ _ _ _ _
               (channel_read_bool ch (negb b) "rf_mute" "h" _ _ _ eq_refl ltac:(discriminate))).
    unfold ret, py_not. cbn [truthy]. rewrite negb_involutive.
    rewrite <- !app_assoc. reflexivity.
  - unfold Channel.set_pa_enable, Channel.pa_enable. cbn [isinstance_bool negb].
    rewrite (bind_ok _ _ _ _ _
               (channel_write_bool ch _ b "pa_power_on" "r" eq_refl ltac:(discriminate))).
    rewrite !transmit_device.
    rewrite (channel_read_bool ch b "pa_power_on" "r" _ _ _ eq_refl ltac:(discriminate)).
    rewrite <- !app_assoc. reflexivity.
  - unfold Channel.set_pll_enable, Channel.pll_enable. cbn [isinstance_bool negb].
    rewrite (bind_ok _ _ _ _ _
               (channel_write_bool ch _ b "pll_power_on" "E" eq_refl ltac:(discriminate))).
    rewrite !transmit_device.
    rewrite (channel_read_bool ch b "pll_power_on" "E" _ _ _ eq_refl ltac:(discriminate)).
    rewrite <- !app_assoc. reflexivity.
  - intros Hv. apply not_bool_isinstance in Hv.
    unfold Channel.set_rf_mute, Channel.set_pa_enable, Channel.set_pll_enable.
    rewrite Hv. repeat split.
Qed.

Lemma set_enable_bool (ch : SynthHDChannel) (b : bool) (s : SynthHD) :
  let c := select_line (_index ch) in
  Channel.set_enable ch (VBool b) s
  = (Ok tt, transmit_all s [c; String "h" (reply_of_bool b);
                            c; String "E" (reply_of_bool b);
                            c; String "r" (reply_of_bool b)]).
Proof.
  cbv zeta. unfold Channel.set_enable, Channel.set_rf_mute, Channel.set_pll_enable,
    Channel.set_pa_enable, py_not.
  cbn [isinstance_bool negb truthy]. rewrite negb_involutive.
  rewrite (bind_ok _ _ _ _ _
             (channel_write_bool ch _ b "rf_mute" "h" eq_refl ltac:(discriminate))).
  rewrite (bind_ok _ _ _ _ _
             (channel_write_bool ch _ b "pll_power_on" "E" eq_refl ltac:(discriminate))).
  rewrite (channel_write_bool ch _ b "pa_power_on" "r" eq_refl ltac:(discriminate)).
  reflexivity.
Qed.

Lemma enable_reads (ch : SynthHDChannel) (h e r : bool) out rest chs :
  fst (Channel.enable ch
         (device out (reply_of_bool h :: reply_of_bool e :: reply_of_bool r :: rest) chs))
  = Ok (VBool (h && e && r)).
Proof.
  unfold Channel.enable, Channel.rf_mute, Channel.pll_enable, Channel.pa_enable.
  rewrite (bind_ok _ _ _ _ _
             (bind_ok _ _ _ _ _
                (channel_read_bool ch h "rf_mute" "h" _ _ _ eq_refl ltac:(discriminate)))).
  unfold ret, py_not. cbn [truthy]. rewrite !negb_involutive.
  destruct h; cbn [negb andb]; [|reflexivity].
  rewrite (bind_ok _ _ _ _ _
             (channel_read_bool ch e "pll_power_on" "E" _ _ _ eq_refl ltac:(discriminate))).
  destruct e; cbn [truthy negb andb]; [|reflexivity].
  rewrite (channel_read_bool ch r "pa_power_on" "r" _ _ _ eq_refl ltac:(discriminate)).
  reflexivity.
Qed.

(** X4.  The composite [enable] property, for both values.  Assigning a
    bool [b] returns normally after transmitting, each after its select
    line, [h{b}], [E{b}] and [r{b}]; reading [enable] back from a device
    that reports the three values it was sent returns [b].  A value that is
    not a bool raises [TypeError] and leaves the device as it was. *)
Theorem enable_round_trip
        (ch : SynthHDChannel) (b : bool) (v : value) out rest chs (s : SynthHD) :
  let c := select_line (_index ch) in
  Channel.set_enable ch (VBool b) s
  = (Ok tt, transmit_all s [c; String "h" (reply_of_bool b);
                            c; String "E" (reply_of_bool b);
                            c; String "r" (reply_of_bool b)])
  /\ fst ((Channel.set_enable ch (VBool b) ;; Channel.enable ch)
            (device out (enable_replies b b b ++ rest) chs))
     = Ok (VBool b)
  /\ (not_bool v -> Channel.set_enable ch v s = (Raise TypeError, s)).
Proof.
  cbv zeta. split; [apply set_enable_bool|]. split.
  - rewrite (bind_ok _ _ _ _ _ (set_enable_bool ch b _)).
    rewrite transmit_all_device. unfold enable_replies. cbn [app].
    rewrite enable_reads. now destruct b.
  - intros Hv. apply not_bool_isinstance in Hv.
    unfold Channel.set_enable. now rewrite Hv.
Qed.

(** X6.  The five boolean switches of the device (sweep, AM, pulse
    modulation, dual pulse modulation, FM).  Assigning a bool [b] transmits
    the letter of the switch followed by 0 or 1, and reading the switch back
    from a device that reports the value it was sent returns [b].  A value
    that is not a bool raises [ValueError] and leaves the device as it
    was. *)
Theorem device_switches_round_trip
        (b : bool) (v : value) out rest chs (s : SynthHD) :
  let round_trip (set : value -> M unit) (get : M value) (code : ascii) :=
    (set (VBool b) ;; get) (device out (reply_of_bool b :: rest) chs)
    = (Ok (VBool b),
       device (out ++ [String code (reply_of_bool b); String code "?"]) rest chs)
    /\ (not_bool v -> set v s = (Raise ValueError, s)) in
  round_trip Device.set_sweep_enable Device.sweep_enable "c"%char
  /\ round_trip Device.set_am_enable Device.am_enable "A"%char
  /\ round_trip Device.set_pulse_mod_enable Device.pulse_mod_enable "j"%char
  /\ round_trip Device.set_dual_pulse_mod_enable Device.dual_pulse_mod_enable "D"%char
  /\ round_trip Device.set_fm_enable Device.fm_enable "/"%char.
Proof.
  cbv zeta.
  assert (G : forall attribute code,
             lookup API attribute
             = Some {| value_type := Some t_bool;
                       write_template := Some (String code "{}");
                       query_command := Some (String code "?") |} ->
             code <> "{"%char ->
             (Device.set_switch attribute (VBool b) ;; Device.get_switch attribute)
               (device out (reply_of_bool b :: rest) chs)
             = (Ok (VBool b),
                device (out ++ [String code (reply_of_bool b); String code "?"]) rest chs)
             /\ (not_bool v -> Device.set_switch attribute v s = (Raise ValueError, s))).
  { intros attribute code Hl Hc. split.
    - unfold Device.set_switch, Device.get_switch. cbn [isinstance_bool negb].
      rewrite (bind_ok _ _ _ _ _ (session_write_bool _ b attribute code Hl Hc)).
      rewrite transmit_device.
      rewrite (session_read_bool b attribute code _ _ _ Hl Hc).
      rewrite <- app_assoc. reflexivity.
    - intros Hv. apply not_bool_isinstance in Hv.
      unfold Device.set_switch. now rewrite Hv. }
  split; [|split; [|split; [|split]]]; apply G; (reflexivity || discriminate).
Qed.

(* ================================================================== *)
(** ** Initialisation *)

Lemma channel_init_eq (ch : SynthHDChannel) (s : SynthHD) :
  Channel.init ch s = (Ok tt, transmit_all s (channel_init_lines (_index ch))).
Proof.
  unfold Channel.init, channel_init_lines.
  rewrite (bind_ok _ _ _ _ _ (set_enable_bool ch false s)).
  cbv zeta.
  set (s1 := transmit_all s _).
  assert (Hf : Channel.set_frequency ch (start Channel.frequency_range) s1
               = (Ok tt, transmit (transmit s1 (select_line (_index ch))) "f53.0000000")).
  { rewrite set_frequency_guarded.
    replace (guard f_53e6 f_13999_999999e6 (start Channel.frequency_range))
      with false by (vm_compute; reflexivity).
    unfold truediv_float, as_float, start, Channel.frequency_range.
    unfold bind at 1 2. unfold ret. rewrite channel_write_eq.
    let x := eval vm_compute in (Float.div f_53e6 f_1e6) in
    change (Float.div f_53e6 f_1e6) with x.
    reflexivity. }
  rewrite (bind_ok _ _ _ _ _ Hf).
  set (s2 := transmit _ "f53.0000000"%string).
  assert (Hp : Channel.set_power ch (start Channel.power_range) s2
               = (Ok tt, transmit (transmit s2 (select_line (_index ch))) "W-60.000")).
  { unfold Channel.set_power, start, Channel.power_range. cbn [isinstance_float_int negb].
    rewrite channel_write_eq.
    let x := eval vm_compute in (Float.of_decimal (-60) 0) in
    change (Float.of_decimal (-60) 0) with x.
    reflexivity. }
  rewrite (bind_ok _ _ _ _ _ Hp).
  set (s3 := transmit _ "W-60.000"%string).
  assert (Hph : Channel.set_phase ch (VFloat (S754_zero false)) s3
                = (Ok tt, transmit (transmit s3 (select_line (_index ch))) "~0.000")).
  { unfold Channel.set_phase. cbn [isinstance_float_int negb].
    rewrite channel_write_eq. reflexivity. }
  rewrite (bind_ok _ _ _ _ _ Hph).
  set (s4 := transmit _ "~0.000"%string).
  assert (Ht : Channel.set_temp_compensation_mode ch (VStr "10 sec") s4
               = (Ok tt, transmit (transmit s4 (select_line (_index ch))) "Z3")).
  { unfold Channel.set_temp_compensation_mode.
    replace (tuple_contains Channel.temp_compensation_modes (VStr "10 sec"))
      with true by reflexivity.
    cbn [negb].
    rewrite (bind_ok _ _ s4 s4 (VInt 3)) by reflexivity.
    rewrite channel_write_eq. reflexivity. }
  rewrite Ht. reflexivity.
Qed.

(** X2.  [SynthHDChannel.init] never fails and consumes no reply: on the
    channel of index [i] it transmits, each after the select line [C{i}],
    the lines [h0], [E0], [r0] (output muted, PLL and PA off),
    [f53.0000000] (the lower end of the frequency range in MHz),
    [W-60.000], [~0.000] and [Z3] (temperature compensation every 10 s), in
    this order, and nothing else. *)
Theorem channel_init_transmits (ch : SynthHDChannel) (s : SynthHD) :
  let c := select_line (_index ch) in
  let s' := snd (Channel.init ch s) in
  fst (Channel.init ch s) = Ok tt
  /\ wire s' = wire s ++ [c; "h0"; c; "E0"; c; "r0"; c; "f53.0000000";
                          c; "W-60.000"; c; "~0.000"; c; "Z3"]%string
  /\ pending (_dev s') = pending (_dev s)
  /\ _channels s' = _channels s.
Proof.
  cbv zeta. rewrite channel_init_eq. cbn [fst snd].
  destruct (transmit_all_wire s (channel_init_lines (_index ch))) as (Hw & Hp & Hc).
  repeat split; assumption.
Qed.

Lemma for_each_init_lines (s : SynthHD) :
  Device.for_each [{| _index := 0 |}; {| _index := 1 |}] Channel.init s
  = (Ok tt, transmit_all s (channel_init_lines 0 ++ channel_init_lines 1)).
Proof.
  cbn [Device.for_each].
  rewrite (bind_ok _ _ _ _ _ (channel_init_eq {| _index := 0 |} s)).
  rewrite (bind_ok _ _ _ _ _ (channel_init_eq {| _index := 1 |} _)).
  rewrite transmit_all_app. reflexivity.
Qed.

(** X3.  [SynthHD.init], on a device in any state it can reach after
    construction, never fails and consumes no reply.  It transmits [x1]
    (reference mode internal 27 MHz), [w0] (trigger disabled), [c0], [A0],
    [j0], [D0], [/0] (sweep, AM, pulse, dual pulse and FM off) and then the
    lines of the channel initialisation, first for channel 0 and then for
    channel 1. *)
Theorem device_init_transmits (link : Transport) (calls : list call) :
  let d := run_all calls (Device.__init__ link) in
  let d' := snd (Device.init d) in
  fst (Device.init d) = Ok tt
  /\ wire d' = wire d ++ ["x1"; "w0"; "c0"; "A0"; "j0"; "D0"; "/0"]%string
                      ++ channel_init_lines 0 ++ channel_init_lines 1
  /\ pending (_dev d') = pending (_dev d)
  /\ _channels d' = _channels d.
Proof.
  intros d.
  assert (Hch : _channels d = [{| _index := 0 |}; {| _index := 1 |}])
    by (subst d; rewrite run_all_channels; reflexivity).
  assert (E : Device.init d = (Ok tt, transmit_all d device_init_lines)).
  { unfold Device.init.
    rewrite (bind_ok _ _ d (transmit d "x1") tt) by reflexivity.
    rewrite (bind_ok _ _ _ (transmit (transmit d "x1") "w0") tt) by reflexivity.
    rewrite (bind_ok _ _ _ (transmit (transmit (transmit d "x1") "w0") "c0") tt)
      by reflexivity.
    rewrite (bind_ok _ _ _
               (transmit (transmit (transmit (transmit d "x1") "w0") "c0") "A0") tt)
      by reflexivity.
    rewrite (bind_ok _ _ _
               (transmit (transmit (transmit (transmit (transmit d "x1") "w0") "c0")
                                   "A0") "j0") tt)
      by reflexivity.
    rewrite (bind_ok _ _ _
               (transmit (transmit (transmit (transmit (transmit (transmit d "x1") "w0")
                                                       "c0") "A0") "j0") "D0") tt)
      by reflexivity.
    rewrite (bind_ok _ _ _
               (transmit (transmit (transmit (transmit (transmit (transmit
                  (transmit d "x1") "w0") "c0") "A0") "j0") "D0") "/0") tt)
      by reflexivity.
    cbv beta.
    replace (_channels (transmit (transmit (transmit (transmit (transmit (transmit
               (transmit d "x1") "w0") "c0") "A0") "j0") "D0") "/0"))
      with [{| _index := 0 |}; {| _index := 1 |}] by (symmetry; exact Hch).
    rewrite for_each_init_lines. unfold device_init_lines.
    rewrite transmit_all_app. reflexivity. }
  cbv zeta. rewrite E. cbn [fst snd].
  destruct (transmit_all_wire d device_init_lines) as (Hw & Hp & Hc).
  repeat split; assumption.
Qed.

(* ================================================================== *)
(** ** Enumerated modes: writing a name and reading it back *)

Lemma to_Z_of_Z (z : Z) : Text.to_Z (Text.of_Z z) = Some z.
Proof.
  unfold Text.to_Z, Text.of_Z.
  rewrite NilZero.isi.
  - cbn [option_map]. now rewrite DecimalZ.of_to.
  - destruct z; cbn [Z.to_int]; try discriminate.
    intros [= H]. now apply DecimalPos.Unsigned.to_uint_nonnil in H.
  - destruct z; cbn [Z.to_int]; try discriminate.
    intros [= H]. now apply DecimalPos.Unsigned.to_uint_nonnil in H.
Qed.

Lemma index_of_In (t : list string) (m : string) :
  In m t ->
  exists i, index_of t m = Some i
            /\ 0 <= i < Z.of_nat (List.length t)
            /\ nth (Z.to_nat i) t ""%string = m.
Proof.
  induction t as [|x rest IH]; intros Hin; [destruct Hin|].
  cbn [index_of]. destruct (String.eqb_spec x m) as [->|Hne].
  - exists 0. cbn [List.length nth Z.to_nat]. repeat split; lia.
  - destruct Hin as [Hx|Hin]; [contradiction|].
    destruct (IH Hin) as (i & Hi & Hr & Hn). exists (Z.succ i).
    rewrite Hi. cbn [option_map List.length]. split; [reflexivity|]. split; [lia|].
    rewrite Z2Nat.inj_succ by lia. exact Hn.
Qed.

Lemma tuple_contains_In (t : list string) (m : string) :
  In m t -> tuple_contains t (VStr m) = true.
Proof.
  intros H. cbn [tuple_contains]. apply existsb_exists.
  exists m. split; [exact H|apply String.eqb_refl].
Qed.

Lemma session_write_int (s : SynthHD) (i : Z) (attribute : string) (code : ascii) q :
  lookup API attribute
  = Some {| value_type := Some t_int;
            write_template := Some (String code "{}");
            query_command := q |} ->
  code <> "{"%char ->
  Session.write attribute [VInt i] s
  = (Ok tt, transmit s (String code (Text.of_Z i))).
Proof.
  intros Hl Hc. unfold Session.write. rewrite Hl. cbn [write_template].
  assert (Hf : Text.format (String code "{}") [VInt i]
               = Some (String code (Text.of_Z i))).
  { cbn [Text.format].
    destruct code as [[] [] [] [] [] [] [] []];
      try (exfalso; apply Hc; reflexivity);
      cbn [Text.format_plain Text.format option_map]; now rewrite append_empty. }
  rewrite Hf. reflexivity.
Qed.

(** Writing the name [m] of a tuple of modes through the attribute of
    letter [code], after the lines [prefix] -- nothing for a device
    property, the select line for a channel property -- and reading it
    back from a device that reports the index it was sent. *)
Definition mode_round_trip (modes : list string) (set : value -> M unit)
           (get : M value) (prefix : list string) (code : ascii)
           (m : string) out rest chs : Prop :=
  exists i,
    index_of modes m = Some i
    /\ (forall replies,
           set (VStr m) (device out replies chs)
           = (Ok tt, device (out ++ prefix ++ [String code (Text.of_Z i)]) replies chs))
    /\ (set (VStr m) ;; get) (device out (Text.of_Z i :: rest) chs)
       = (Ok (VStr m),
          device (out ++ prefix ++ [String code (Text.of_Z i)]
                      ++ prefix ++ [String code "?"]) rest chs).

(** X7.  Writing a mode name and reading it back.  For each of the three
    enumerated properties, assigning a name of its tuple transmits the
    letter of the attribute followed by the position of the first
    occurrence of the name, and reading the property back from a device
    that reports this index returns the same name; this also holds for the
    trigger mode [reserved], which is written as 6. *)
Theorem modes_set_then_get (ch : SynthHDChannel) (m : string) out rest chs :
  (In m Device.reference_modes ->
   mode_round_trip Device.reference_modes Device.set_reference_mode
                   Device.reference_mode [] "x" m out rest chs)
  /\ (In m Device.trigger_modes ->
      mode_round_trip Device.trigger_modes Device.set_trigger_mode
                      Device.trigger_mode [] "w" m out rest chs)
  /\ (In m Channel.temp_compensation_modes ->
      mode_round_trip Channel.temp_compensation_modes
                      (Channel.set_temp_compensation_mode ch)
                      (Channel.temp_compensation_mode ch)
                      [select_line (_index ch)] "Z" m out rest chs).
Proof.
  split; [|split]; intros Hin;
    destruct (index_of_In _ _ Hin) as (i & Hi & Hr & Hn);
    pose proof (tuple_contains_In _ _ Hin) as Hc;
    exists i; (split; [exact Hi|]).
  - assert (Hset : forall replies,
               Device.set_reference_mode (VStr m) (device out replies chs)
               = (Ok tt, device (out ++ [] ++ [String "x" (Text.of_Z i)]) replies chs)).
    { intros replies. unfold Device.set_reference_mode. rewrite Hc. cbn [negb].
      unfold tuple_index. rewrite Hi. rewrite (bind_ok _ _ _ _ (VInt i)) by reflexivity.
      rewrite (session_write_int _ i "reference_mode" "x" _ eq_refl) by discriminate.
      reflexivity. }
    split; [exact Hset|].
    rewrite (bind_ok _ _ _ _ _ (Hset _)). unfold Device.reference_mode.
    rewrite (bind_ok _ _ _ _ _
               (session_read_int "reference_mode" "x" _ _ i _ _ _ eq_refl
                  ltac:(discriminate) (to_Z_of_Z i))).
    destruct (tuple_getitem_int Device.reference_modes i
                (device ((out ++ [] ++ [String "x" (Text.of_Z i)]) ++ ["x?"%string]) rest chs))
      as (_ & _ & H3).
    rewrite (H3 Hr), Hn. cbn [app]. rewrite <- !app_assoc. reflexivity.
  - assert (Hset : forall replies,
               Device.set_trigger_mode (VStr m) (device out replies chs)
               = (Ok tt, device (out ++ [] ++ [String "w" (Text.of_Z i)]) replies chs)).
    { intros replies. unfold Device.set_trigger_mode. rewrite Hc. cbn [negb].
      unfold tuple_index. rewrite Hi. rewrite (bind_ok _ _ _ _ (VInt i)) by reflexivity.
      rewrite (session_write_int _ i "trig_function" "w" _ eq_refl) by discriminate.
      reflexivity. }
    split; [exact Hset|].
    rewrite (bind_ok _ _ _ _ _ (Hset _)). unfold Device.trigger_mode.
    rewrite (bind_ok _ _ _ _ _
               (session_read_int "trig_function" "w" _ _ i _ _ _ eq_refl
                  ltac:(discriminate) (to_Z_of_Z i))).
    destruct (tuple_getitem_int Device.trigger_modes i
                (device ((out ++ [] ++ [String "w" (Text.of_Z i)]) ++ ["w?"%string]) rest chs))
      as (_ & _ & H3).
    rewrite (H3 Hr), Hn. cbn [app]. rewrite <- !app_assoc. reflexivity.
  - assert (Hset : forall replies,
               Channel.set_temp_compensation_mode ch (VStr m) (device out replies chs)
               = (Ok tt, device (out ++ [select_line (_index ch)]
                                     ++ [String "Z" (Text.of_Z i)]) replies chs)).
    { intros replies. unfold Channel.set_temp_compensation_mode. rewrite Hc. cbn [negb].
      unfold tuple_index. rewrite Hi. rewrite (bind_ok _ _ _ _ (VInt i)) by reflexivity.
      rewrite channel_write_eq.
      rewrite (session_write_int _ i "temp_comp_mode" "Z" _ eq_refl) by discriminate.
      rewrite !transmit_device, <- app_assoc. reflexivity. }
    split; [exact Hset|].
    rewrite (bind_ok _ _ _ _ _ (Hset _)). unfold Channel.temp_compensation_mode.
    assert (Hread : Channel.read ch "temp_comp_mode" []
                      (device (out ++ [select_line (_index ch)] ++ [String "Z" (Text.of_Z i)])
                              (Text.of_Z i :: rest) chs)
                    = (Ok (VInt i),
                       device (((out ++ [select_line (_index ch)]
                                     ++ [String "Z" (Text.of_Z i)])
                                ++ [select_line (_index ch)]) ++ ["Z?"%string]) rest chs)).
    { rewrite channel_read_eq, transmit_device.
      apply (session_read_int "temp_comp_mode" "Z" _ _ i _ _ _ eq_refl
               ltac:(discriminate) (to_Z_of_Z i)). }
    rewrite (bind_ok _ _ _ _ _ Hread).
    destruct (tuple_getitem_int Channel.temp_compensation_modes i
                (device (((out ++ [select_line (_index ch)] ++ [String "Z" (Text.of_Z i)])
                          ++ [select_line (_index ch)]) ++ ["Z?"%string]) rest chs))
      as (_ & _ & H3).
    rewrite (H3 Hr), Hn. cbn [app]. rewrite <- !app_assoc. reflexivity.
Qed.

(** X8.  The setters of the temperature compensation mode and of the
    trigger mode raise [ValueError] for every value that is not a name of
    their tuple -- a string outside the tuple as well as a number or an
    index -- and then leave the device as it was: nothing is transmitted. *)
Theorem mode_setters_reject_unknown
        (ch : SynthHDChannel) (v : value) (s : SynthHD) :
  ((forall m, In m Channel.temp_compensation_modes -> v <> VStr m) ->
   Channel.set_temp_compensation_mode ch v s = (Raise ValueError, s))
  /\ ((forall m, In m Device.trigger_modes -> v <> VStr m) ->
      Device.set_trigger_mode v s = (Raise ValueError, s)).
Proof.
  split; intros H.
  - unfold Channel.set_temp_compensation_mode.
    now rewrite (tuple_contains_false _ _ H).
  - unfold Device.set_trigger_mode.
    now rewrite (tuple_contains_false _ _ H).
Qed.

(* ================================================================== *)
(** ** Indexing the device *)

(** X9.  [device[key]] on a device in any state it can reach after
    construction: the keys 0 and 1 give the channel views of index 0 and
    1, the keys -2 and -1 count from the end and give the same two views,
    and every other integer raises [IndexError]; the device is not
    touched. *)
Theorem getitem_wraps_or_raises
        (link : Transport) (calls : list call) (key : Z) :
  let d := run_all calls (Device.__init__ link) in
  Device.__getitem__ key d
  = (if (-2 <=? key) && (key <? 2) then Ok {| _index := key mod 2 |}
     else Raise IndexError, d).
Proof.
  intros d.
  assert (Hch : _channels d = [{| _index := 0 |}; {| _index := 1 |}])
    by (subst d; rewrite run_all_channels; reflexivity).
  unfold Device.__getitem__. rewrite Hch. cbn [List.length Z.of_nat Pos.of_succ_nat Pos.succ].
  destruct (Z.leb_spec (-2) key) as [Hlo|Hlo];
    destruct (Z.ltb_spec key 2) as [Hhi|Hhi]; cbn [andb].
  - assert (Hk : key = -2 \/ key = -1 \/ key = 0 \/ key = 1) by lia.
    destruct Hk as [-> | [-> | [-> | ->]]]; reflexivity.
  - destruct (Z.ltb_spec key 0); [lia|].
    destruct (Z.ltb_spec key 0); [lia|]. cbn [orb].
    destruct (Z.leb_spec 2 key); [reflexivity|lia].
  - destruct (Z.ltb_spec key 0); [|lia].
    destruct (Z.ltb_spec (key + 2) 0); [reflexivity|lia].
  - lia.
Qed.

(* ================================================================== *)
(** ** The text of a frequency *)

(** The integer rendered with seven decimals for a number of the
    frequency range: within 0.501 of ten times the number. *)
Lemma mhz_text_value (m0 : positive) (e0 : Z) :
  2 ^ 52 <= Zpos m0 < 2 ^ 53 -> -27 <= e0 <= -19 ->
  let x0 := S754_finite false m0 e0 in
  (53000000 <= to_Q x0 <= 13999999999)%Q ->
  exists m1 e1,
    Float.div x0 f_1e6 = S754_finite false m1 e1
    /\ (Qabs (inject_Z (Float.scaled m1 e1 7) - 10 * to_Q x0) <= 501 # 1000)%Q.
Proof.
  intros Hm0 He0 x0 HX0.
  assert (Hd0 : Zpos (digits2_pos m0) = 53)
    by (apply (Zdigits2_unique (Zpos m0) 53); cbn; lia).
  pose proof (div_Q m0 8589934592000000 e0 (-33)) as H1.
  cbv zeta in H1. rewrite Hd0 in H1.
  change (Zpos (digits2_pos 8589934592000000)) with 53 in H1.
  destruct H1 as (m1 & e1 & Hdiv & Hm1 & He1 & HQ1); try lia.
  specialize (HQ1 (to_Q x0 * (1 # 1000000))%Q).
  change (S754_finite false 8589934592000000 (-33)) with f_1e6 in *.
  fold x0 in HQ1, Hdiv.
  assert (HQ1' : (to_Q x0 * (1 # 1000000) * to_Q f_1e6 == to_Q x0)%Q)
    by (rewrite to_Q_1e6; ring).
  specialize (HQ1 HQ1'). clear HQ1'.
  exists m1, e1. split; [exact Hdiv|].
  pose proof (scaled_Q m1 e1 ltac:(lia)) as HN.
  change (inject_Z (10 ^ 7)) with 10000000%Q in HN.
  set (N := Float.scaled m1 e1 7) in *.
  set (X0 := to_Q x0) in *. set (X1 := to_Q (S754_finite false m1 e1)) in *.
  apply Qabs_bounds in HQ1. apply Qabs_bounds in HN.
  unfold u53 in HQ1. change (1 # 2 ^ 53)%Q with (1 # 9007199254740992)%Q in HQ1.
  apply Qabs_Qle_condition. split; lra.
Qed.

(** X10.  What the frequency setter puts on the wire.  For a number [v] of
    the range [53e6, 13999999999] Hz the setter transmits, after the select
    line, [f] and the seven-decimal text of an integer [N] of tenths of a
    hertz, with [N / 10] within 0.0501 Hz of [v]; when [v] is an integer
    number of hertz, [N] is exactly [10 * v]: the binary division by [1e6]
    leaves no trace in the transmitted digits. *)
Theorem frequency_text_accuracy (ch : SynthHDChannel) (v : value) (s : SynthHD) :
  inside 53000000 13999999999 f_53e6 f_13999_999999e6 v ->
  (forall f, v = VFloat f -> valid_binary 53 1024 f = true) ->
  exists N,
    Channel.set_frequency ch v s
    = (Ok tt, transmit (transmit s (select_line (_index ch)))
                       (String "f" (Text.fixed 7 false N)))
    /\ (Qabs (inject_Z N - 10 * value_Q v) <= 501 # 1000)%Q
    /\ (forall z, v = VInt z -> N = 10 * z).
Proof.
  intros Hin Hvalid.
  destruct (as_float_in_band v s Hin Hvalid) as (m0 & e0 & Has & Hb & HQ).
  pose proof (in_band_Q m0 e0 Hb) as HX0.
  destruct Hb as (Hm0 & He0 & _).
  destruct (mhz_text_value m0 e0 Hm0 He0 HX0) as (m1 & e1 & Hdiv & HN).
  exists (Float.scaled m1 e1 7).
  assert (Htd : truediv_float v f_1e6 s = (Ok (VFloat (S754_finite false m1 e1)), s)).
  { unfold truediv_float, bind. rewrite Has, Hdiv. reflexivity. }
  rewrite HQ in HN.
  split; [|split; [exact HN|]].
  - rewrite set_frequency_guarded.
    rewrite (guard_inside _ _ _ _ f_53e6_integer f_13999_999999e6_integer v Hin).
    rewrite (bind_ok _ _ _ _ _ Htd). rewrite channel_write_eq.
    unfold Session.write.
    change (lookup API "frequency")
      with (Some {| value_type := Some t_float;
                    write_template := Some "f{:.7f}"%string;
                    query_command := Some "f?"%string |}).
    cbn [write_template].
    assert (Hf : Text.format "f{:.7f}" [VFloat (S754_finite false m1 e1)]
                 = Some (String "f" (Text.fixed 7 false (Float.scaled m1 e1 7)))).
    { cbn [Text.format option_map]. change (Text.digit_value "7") with (Some 7).
      cbv iota. cbn [Text.format_fixed Text.format].
      now rewrite append_empty. }
    rewrite Hf. reflexivity.
  - intros z ->. cbn [value_Q] in HN.
    apply Qabs_bounds in HN.
    set (N := Float.scaled m1 e1 7) in *.
    assert (H1 : N < 10 * z + 1).
    { rewrite Zlt_Qlt, inject_Z_plus, inject_Z_mult.
      change (inject_Z 10) with 10%Q. change (inject_Z 1) with 1%Q. lra. }
    assert (H2 : 10 * z - 1 < N).
    { rewrite Zlt_Qlt. unfold Z.sub. rewrite inject_Z_plus, inject_Z_mult.
      change (inject_Z 10) with 10%Q. change (inject_Z (- (1))) with (- (1))%Q. lra. }
    lia.
Qed.

Lemma channel_switches_round_trip_witness :
  Channel.set_rf_mute {| _index := 0 |} (VInt 1) idle = (Raise ValueError, idle)
  /\ Channel.set_pa_enable {| _index := 0 |} (VInt 1) idle = (Raise ValueError, idle)
  /\ Channel.set_pll_enable {| _index := 0 |} (VInt 1) idle = (Raise ValueError, idle).
Proof.
  pose proof (channel_switches_round_trip {| _index := 0 |} true (VInt 1) [] [] [] idle)
    as H.
  cbv zeta in H. destruct H as (_ & _ & _ & H). apply H. exact I.
Defined.

Lemma enable_round_trip_witness :
  Channel.set_enable {| _index := 1 |} (VInt 1) idle = (Raise TypeError, idle).
Proof.
  pose proof (enable_round_trip {| _index := 1 |} true (VInt 1) [] [] [] idle) as H.
  cbv zeta in H. destruct H as (_ & _ & H). apply H. exact I.
Defined.

Lemma device_switches_round_trip_witness :
  Device.set_sweep_enable (VStr "on") idle = (Raise ValueError, idle)
  /\ Device.set_fm_enable (VStr "on") idle = (Raise ValueError, idle).
Proof.
  pose proof (device_switches_round_trip true (VStr "on") [] [] [] idle) as H.
  cbv zeta in H. destruct H as ((_ & H1) & _ & _ & _ & (_ & H5)).
  split; [apply H1|apply H5]; exact I.
Defined.

Lemma modes_set_then_get_witness :
  mode_round_trip Device.reference_modes Device.set_reference_mode
                  Device.reference_mode [] "x" "internal 10mhz" [] [] []
  /\ mode_round_trip Device.trigger_modes Device.set_trigger_mode
                     Device.trigger_mode [] "w" "reserved" [] [] []
  /\ mode_round_trip Channel.temp_compensation_modes
                     (Channel.set_temp_compensation_mode {| _index := 1 |})
                     (Channel.temp_compensation_mode {| _index := 1 |})
                     [select_line 1] "Z" "1 sec" [] [] [].
Proof.
  split; [|split].
  - apply (proj1 (modes_set_then_get {| _index := 1 |} "internal 10mhz" [] [] [])).
    cbn. tauto.
  - apply (proj1 (proj2 (modes_set_then_get {| _index := 1 |} "reserved" [] [] []))).
    cbn. tauto.
  - apply (proj2 (proj2 (modes_set_then_get {| _index := 1 |} "1 sec" [] [] []))).
    cbn. tauto.
Defined.

Lemma mode_setters_reject_unknown_witness :
  Channel.set_temp_compensation_mode {| _index := 0 |} (VInt 3) idle
  = (Raise ValueError, idle)
  /\ Device.set_trigger_mode (VStr "enabled") idle = (Raise ValueError, idle).
Proof.
  split.
  - apply (proj1 (mode_setters_reject_unknown {| _index := 0 |} (VInt 3) idle)).
    intros m _. discriminate.
  - apply (proj2 (mode_setters_reject_unknown {| _index := 0 |} (VStr "enabled") idle)).
    intros m Hin. cbn in Hin.
    repeat (destruct Hin as [<-|Hin]; [discriminate|]). destruct Hin.
Defined.

Lemma frequency_text_accuracy_witness :
  exists N,
    Channel.set_frequency {| _index := 0 |} (VInt 2450000001) idle
    = (Ok tt, transmit (transmit idle (select_line 0))
                       (String "f" (Text.fixed 7 false N)))
    /\ (Qabs (inject_Z N - 10 * value_Q (VInt 2450000001)) <= 501 # 1000)%Q
    /\ (forall z, VInt 2450000001 = VInt z -> N = 10 * z).
Proof.
  apply (frequency_text_accuracy {| _index := 0 |} (VInt 2450000001) idle).
  - cbn [inside]. lia.
  - intros f H. discriminate H.
Defined.

(* ================================================================== *)
(** ** Assignments never wait for the device *)

(** The calls that assign a property or only send: the initialisations,
    the raw writes, the channel selection, [save] and every setter. *)
Definition assigns_channel (c : channel_call) : bool :=
  match c with
  | c_init | c_write _ _ | c_select
  | c_set_frequency _ | c_set_power _ | c_set_temp_compensation_mode _
  | c_set_vga_dac _ | c_set_phase _ | c_set_rf_mute _ | c_set_pa_enable _
  | c_set_pll_enable _ | c_set_enable _ => true
  | _ => false
  end.

Definition assigns (c : call) : bool :=
  match c with
  | d_channel _ c => assigns_channel c
  | d_init | d_write _ _ | d_save
  | d_set_reference_mode _ | d_set_trigger_mode _
  | d_set_reference_frequency _ | d_set_sweep_enable _ | d_set_am_enable _
  | d_set_pulse_mod_enable _ | d_set_dual_pulse_mod_enable _
  | d_set_fm_enable _ => true
  | _ => false
  end.

(** A computation that consumes no reply of the device. *)
Definition keeps_pending {A} (m : M A) : Prop :=
  forall s, pending (_dev (snd (m s))) = pending (_dev s).

Lemma quiet_ret {A} (a : A) : keeps_pending (ret a).
Proof. intros s. reflexivity. Qed.

Lemma quiet_raise {A} (e : exn) : keeps_pending (@raise A e).
Proof. intros s. reflexivity. Qed.

Lemma quiet_bind {A B} (m : M A) (k : A -> M B) :
  keeps_pending m -> (forall a, keeps_pending (k a)) ->
  keeps_pending (bind m k).
Proof.
  intros Hm Hk s. unfold bind. specialize (Hm s).
  destruct (m s) as [[a|e] s']; cbn [snd] in *.
  - now rewrite Hk.
  - exact Hm.
Qed.

Lemma quiet_write_line (line : string) : keeps_pending (write_line line).
Proof. intros s. reflexivity. Qed.

Lemma quiet_if {A} (b : bool) (m1 m2 : M A) :
  keeps_pending m1 -> keeps_pending m2 ->
  keeps_pending (if b then m1 else m2).
Proof. now destruct b. Qed.

Create HintDb quiet.
#[local] Hint Resolve quiet_ret quiet_raise quiet_write_line : quiet.
#[local] Hint Extern 2 (keeps_pending (bind _ _)) =>
  apply quiet_bind; [|intro] : quiet.
#[local] Hint Extern 2 (keeps_pending (if _ then _ else _)) =>
  apply quiet_if : quiet.
#[local] Hint Extern 3 (keeps_pending (match ?x with _ => _ end)) =>
  destruct x : quiet.

Lemma quiet_session_write attribute args :
  keeps_pending (Session.write attribute args).
Proof. unfold Session.write. auto 8 with quiet. Qed.

Lemma quiet_as_float v : keeps_pending (as_float v).
Proof. unfold as_float, float_of_int. auto 8 with quiet. Qed.

Lemma quiet_tuple_index t v : keeps_pending (tuple_index t v).
Proof. unfold tuple_index. auto 8 with quiet. Qed.

#[local] Hint Resolve quiet_session_write quiet_as_float quiet_tuple_index
  : quiet.

Ltac quiet := autounfold with keeps; auto 30 with quiet.

Lemma quiet_channel_init ch : keeps_pending (Channel.init ch).
Proof. quiet. Qed.

Lemma quiet_run_channel ch c :
  assigns_channel c = true -> keeps_pending (run_channel ch c).
Proof. destruct c; cbn [assigns_channel run_channel]; try discriminate; intros _; quiet. Qed.

Lemma quiet_for_each chs (body : SynthHDChannel -> M unit) :
  (forall ch, keeps_pending (body ch)) ->
  keeps_pending (Device.for_each chs body).
Proof.
  intros Hb. induction chs as [|ch rest IH]; cbn [Device.for_each].
  - apply quiet_ret.
  - apply quiet_bind; auto.
Qed.

Lemma quiet_device_init : keeps_pending Device.init.
Proof.
  unfold Device.init.
  repeat (apply quiet_bind; [quiet|intros _]).
  intros s. apply quiet_for_each. apply quiet_channel_init.
Qed.

Lemma quiet_getitem key : keeps_pending (Device.__getitem__ key).
Proof.
  intros s. unfold Device.__getitem__.
  destruct (_ || _); [reflexivity|].
  now destruct (nth_error _ _).
Qed.

(** X11.  No assignment waits for the device.  Every call that assigns a
    property of the device or of a channel -- and likewise [init], [save],
    [select] and a raw [write] -- leaves the pending replies of the link
    untouched, whether it returns or raises: it never reads a line. *)
Theorem assignments_never_read (c : call) (s : SynthHD) :
  assigns c = true ->
  pending (_dev (snd (run c s))) = pending (_dev s).
Proof.
  intros H. revert s. change (keeps_pending (run c)).
  destruct c; cbn [assigns run] in *; try discriminate; try (quiet; fail).
  - apply quiet_bind; [apply quiet_getitem|intros ch; now apply quiet_run_channel].
  - unfold returns_none. apply quiet_bind; [apply quiet_device_init|intro; apply quiet_ret].
Qed.

Lemma assignments_never_read_witness :
  pending (_dev (snd (run (d_channel 1 (c_set_enable (VBool true)))
                          (replying ["1"; "0"]%string))))
  = ["1"; "0"]%string.
Proof.
  apply (assignments_never_read (d_channel 1 (c_set_enable (VBool true)))
           (replying ["1"; "0"]%string)).
  reflexivity.
Defined.

(* ================================================================== *)
(** ** The typed properties and the attribute table *)

(** The errors by which the session answers a misuse of the attribute
    table: a name it does not hold, a direction the attribute does not
    have, arguments that do not fit the template. *)
Definition table_misuse (e : exn) : bool :=
  match e with
  | UnknownAttribute | InvalidAttribute | ArgumentMismatch => true
  | _ => false
  end.

(** The calls that go through a method or a property of the two classes,
    that is, all but the raw [write] and [read], whose attribute name and
    arguments are the caller's. *)
Definition typed_channel (c : channel_call) : bool :=
  match c with
  | c_write _ _ | c_read _ _ => false
  | _ => true
  end.

Definition typed (c : call) : bool :=
  match c with
  | d_channel _ c => typed_channel c
  | d_write _ _ | d_read _ _ => false
  | _ => true
  end.

(** A computation that never misuses the table. *)
Definition addresses_table {A} (m : M A) : Prop :=
  forall s e, fst (m s) = Raise e -> table_misuse e = false.

Lemma fine_ret {A} (a : A) : addresses_table (ret a).
Proof. intros s e H. discriminate H. Qed.

Lemma fine_raise {A} (e : exn) :
  table_misuse e = false -> addresses_table (@raise A e).
Proof. intros He s e' H. cbn in H. now injection H as <-. Qed.

(** Binding, knowing of the first computation what it returns. *)
Lemma fine_bind_post {A B} (P : A -> Prop) (m : M A) (k : A -> M B) :
  addresses_table m ->
  (forall s a s', m s = (Ok a, s') -> P a) ->
  (forall a, P a -> addresses_table (k a)) ->
  addresses_table (bind m k).
Proof.
  intros Hm Hp Hk s e. unfold bind. specialize (Hm s). specialize (Hp s).
  destruct (m s) as [[a|e'] s'].
  - apply (Hk a (Hp a s' eq_refl)).
  - cbn [fst]. intros [= <-]. now apply Hm.
Qed.

Lemma fine_bind {A B} (m : M A) (k : A -> M B) :
  addresses_table m -> (forall a, addresses_table (k a)) ->
  addresses_table (bind m k).
Proof.
  intros Hm Hk. apply (fine_bind_post (fun _ => True)); auto.
Qed.

Lemma fine_if {A} (b : bool) (m1 m2 : M A) :
  addresses_table m1 -> addresses_table m2 ->
  addresses_table (if b then m1 else m2).
Proof. now destruct b. Qed.

(** A write whose attribute is in the table, has a template, and whose
    arguments the template takes. *)
Lemma fine_write (attribute : string) (args : list value) a tpl line :
  lookup API attribute = Some a ->
  write_template a = Some tpl ->
  Text.format tpl args = Some line ->
  addresses_table (Session.write attribute args).
Proof.
  intros Hl Ht Hf s e. unfold Session.write. rewrite Hl, Ht, Hf.
  intros H. discriminate H.
Qed.

(** A read without arguments of an attribute that is in the table and has
    a query command and a value type. *)
Lemma fine_read (attribute : string) a q line ty :
  lookup API attribute = Some a ->
  query_command a = Some q ->
  Text.format q [] = Some line ->
  value_type a = Some ty ->
  addresses_table (Session.read attribute []).
Proof.
  intros Hl Hq Hf Hty s e. unfold Session.read. rewrite Hl, Hq, Hf, Hty.
  unfold bind, write_line, read_line. cbn [_dev sent pending _channels].
  destruct (pending (_dev s)) as [|reply rest]; cbn [fst].
  - now intros [= <-].
  - unfold Session.parse.
    destruct ty;
      [destruct (Text.to_Z reply)|destruct (Text.to_float reply)| |];
      cbn [fst ret raise]; intros H; try discriminate H; now injection H as <-.
Qed.

Lemma fine_select ch : addresses_table (Channel.select ch).
Proof.
  unfold Channel.select.
  eapply fine_write; [reflexivity|reflexivity|reflexivity].
Qed.

Lemma fine_as_float v : addresses_table (as_float v).
Proof.
  intros s e. unfold as_float, float_of_int.
  destruct v as [|b|z|f|t]; cbn [fst ret raise]; intros H; try discriminate H;
    try (now injection H as <-).
  - destruct (Float.of_Z (Z_of_bool b)); cbn in H; try discriminate H;
      now injection H as <-.
  - destruct (Float.of_Z z); cbn in H; try discriminate H; now injection H as <-.
Qed.

Lemma fine_tuple_getitem t i : addresses_table (tuple_getitem t i).
Proof.
  intros s e. unfold tuple_getitem.
  destruct i as [|b|z|f|m]; cbn [fst raise]; try (now intros [= <-]).
  - destruct (_ || _); [now intros [= <-]|].
    destruct (nth_error _ _); cbn; intros H; try discriminate H; now injection H as <-.
  - destruct (_ || _); [now intros [= <-]|].
    destruct (nth_error _ _); cbn; intros H; try discriminate H; now injection H as <-.
Qed.

Lemma fine_tuple_index t v : addresses_table (tuple_index t v).
Proof.
  intros s e. unfold tuple_index.
  destruct v as [|b|z|f|m]; cbn [fst raise]; try (now intros [= <-]).
  destruct (index_of t m); cbn; intros H; try discriminate H; now injection H as <-.
Qed.

Lemma tuple_index_returns_int t v s a s' :
  tuple_index t v s = (Ok a, s') -> exists i, a = VInt i.
Proof.
  unfold tuple_index. destruct v as [|b|z|f|m]; try discriminate.
  destruct (index_of t m) as [i|]; [|discriminate].
  intros [= <- _]. now exists i.
Qed.

Lemma truediv_returns_float v c s a s' :
  truediv_float v c s = (Ok a, s') -> exists f, a = VFloat f.
Proof.
  unfold truediv_float, bind. destruct (as_float v s) as [[f|e] s1]; [|discriminate].
  intros [= <- _]. now eexists.
Qed.

Lemma fine_truediv v c : addresses_table (truediv_float v c).
Proof.
  unfold truediv_float. apply fine_bind; [apply fine_as_float|intro; apply fine_ret].
Qed.

Lemma fine_mul v c : addresses_table (mul_float v c).
Proof.
  unfold mul_float. apply fine_bind; [apply fine_as_float|intro; apply fine_ret].
Qed.

Ltac fine_read_now :=
  eapply fine_read; [reflexivity|reflexivity|reflexivity|reflexivity].

Ltac fine_write_now :=
  eapply fine_write; [reflexivity|reflexivity|reflexivity].

(** A channel write or read is fine when the session's is. *)
Lemma fine_channel_write ch attribute args :
  addresses_table (Session.write attribute args) ->
  addresses_table (Channel.write ch attribute args).
Proof.
  intros H. unfold Channel.write. apply fine_bind; [apply fine_select|intro; exact H].
Qed.

Lemma fine_channel_read ch attribute :
  addresses_table (Session.read attribute []) ->
  addresses_table (Channel.read ch attribute []).
Proof.
  intros H. unfold Channel.read. apply fine_bind; [apply fine_select|intro; exact H].
Qed.

Lemma fine_write_fixed (attribute : string) (code : ascii) (k : ascii) (q : option string)
      ty (v : value) :
  lookup API attribute
  = Some {| value_type := ty;
            write_template :=
              Some (String code (String "{" (String ":" (String "." (String k "f}")))));
            query_command := q |} ->
  code <> "{"%char ->
  (exists n, Text.digit_value k = Some n) ->
  number v ->
  addresses_table (Session.write attribute [v]).
Proof.
  intros Hl Hc [n Hk] Hv.
  destruct (Text.too_large v) eqn:Hlarge.
  - (* an integer beyond binary64: OverflowError *)
    intros s e. unfold Session.write. rewrite Hl. cbn [write_template].
    assert (Hfail : Text.failure
                      (String code (String "{" (String ":" (String "." (String k "f}")))))
                      [v] = OverflowError).
    { destruct code as [[] [] [] [] [] [] [] []];
        try (exfalso; apply Hc; reflexivity);
        cbn [Text.failure]; rewrite Hlarge; reflexivity. }
    rewrite Hfail.
    destruct (Text.format _ [v]); cbn [fst]; intros H; [discriminate H|].
    now injection H as <-.
  - destruct (format_fixed_number n v Hv Hlarge) as [x Hx].
    eapply fine_write; [exact Hl|reflexivity|].
    destruct code as [[] [] [] [] [] [] [] []];
      try (exfalso; apply Hc; reflexivity);
      cbn [Text.format option_map]; rewrite Hk, Hx; reflexivity.
Qed.

Lemma fine_write_plain (attribute : string) (code : ascii) (q : option string)
      ty (v : value) :
  lookup API attribute
  = Some {| value_type := ty;
            write_template := Some (String code "{}");
            query_command := q |} ->
  code <> "{"%char ->
  integer v ->
  addresses_table (Session.write attribute [v]).
Proof.
  intros Hl Hc Hv.
  assert (Hx : exists x, Text.format_plain v = Some x)
    by (destruct v; cbn [integer] in Hv; try contradiction; eexists; reflexivity).
  destruct Hx as [x Hx].
  eapply fine_write; [exact Hl|reflexivity|].
  destruct code as [[] [] [] [] [] [] [] []];
    try (exfalso; apply Hc; reflexivity);
    cbn [Text.format option_map]; rewrite Hx; reflexivity.
Qed.

Ltac fine_step :=
  lazymatch goal with
  | |- addresses_table (ret _) => apply fine_ret
  | |- addresses_table (raise _) => apply fine_raise; reflexivity
  | |- addresses_table (bind _ _) => apply fine_bind; [|intro]
  | |- addresses_table (if _ then _ else _) => apply fine_if
  | |- addresses_table (Channel.select _) => apply fine_select
  | |- addresses_table (tuple_getitem _ _) => apply fine_tuple_getitem
  | |- addresses_table (tuple_index _ _) => apply fine_tuple_index
  | |- addresses_table (truediv_float _ _) => apply fine_truediv
  | |- addresses_table (mul_float _ _) => apply fine_mul
  | |- addresses_table (Channel.read _ _ _) => apply fine_channel_read
  | |- addresses_table (Channel.write _ _ _) => apply fine_channel_write
  | |- addresses_table (Session.read _ _) => fine_read_now
  | |- addresses_table (Session.write _ _) => fine_write_now
  end.

Ltac fine := repeat fine_step.

(** The conjunct of [H] that is the goal, found by its syntax. *)
Ltac pick H :=
  lazymatch goal with
  | |- ?G =>
      lazymatch type of H with
      | G /\ _ => exact (proj1 H)
      | _ /\ _ => pick (proj2 H)
      | G => exact H
      end
  end.

Lemma fine_channel_setters ch v :
  addresses_table (Channel.set_frequency ch v)
  /\ addresses_table (Channel.set_power ch v)
  /\ addresses_table (Channel.set_temp_compensation_mode ch v)
  /\ addresses_table (Channel.set_vga_dac ch v)
  /\ addresses_table (Channel.set_phase ch v)
  /\ addresses_table (Channel.set_rf_mute ch v)
  /\ addresses_table (Channel.set_pa_enable ch v)
  /\ addresses_table (Channel.set_pll_enable ch v)
  /\ addresses_table (Channel.set_enable ch v).
Proof.
  repeat split.
  - unfold Channel.set_frequency. apply fine_if; [fine|].
    apply (fine_bind_post (fun a => exists f, a = VFloat f));
      [apply fine_truediv|apply truediv_returns_float|].
    intros a [f ->]. apply fine_channel_write.
    apply (fine_write_fixed "frequency" "f" "7" _ _ _ eq_refl);
      [discriminate|eexists; reflexivity|exact I].
  - unfold Channel.set_power.
    destruct v; cbn [isinstance_float_int negb]; fine;
      apply (fine_write_fixed "power" "W" "3" _ _ _ eq_refl);
      (discriminate || (eexists; reflexivity) || exact I).
  - unfold Channel.set_temp_compensation_mode. apply fine_if; [fine|].
    apply (fine_bind_post (fun a => exists i, a = VInt i));
      [apply fine_tuple_index|apply tuple_index_returns_int|].
    intros a [i ->]. fine.
  - unfold Channel.set_vga_dac.
    destruct v; cbn [isinstance_int negb]; fine.
  - unfold Channel.set_phase.
    destruct v; cbn [isinstance_float_int negb]; fine;
      apply (fine_write_fixed "phase_step" "~" "3" _ _ _ eq_refl);
      (discriminate || (eexists; reflexivity) || exact I).
  - unfold Channel.set_rf_mute. destruct v; cbn [isinstance_bool negb]; fine.
  - unfold Channel.set_pa_enable. destruct v; cbn [isinstance_bool negb]; fine.
  - unfold Channel.set_pll_enable. destruct v; cbn [isinstance_bool negb]; fine.
  - unfold Channel.set_enable, Channel.set_rf_mute, Channel.set_pa_enable,
      Channel.set_pll_enable.
    destruct v; cbn [isinstance_bool negb py_not]; fine.
Qed.

Lemma fine_channel_init self : addresses_table (Channel.init self).
Proof.
  unfold Channel.init.
  apply fine_bind; [pick (fine_channel_setters self (VBool false))|intros _].
  apply fine_bind;
    [pick (fine_channel_setters self (start Channel.frequency_range))|intros _].
  apply fine_bind;
    [pick (fine_channel_setters self (start Channel.power_range))|intros _].
  apply fine_bind;
    [pick (fine_channel_setters self (VFloat (S754_zero false)))|intros _].
  pick (fine_channel_setters self (VStr "10 sec")).
Qed.

Lemma fine_returns_none (m : M unit) :
  addresses_table m -> addresses_table (returns_none m).
Proof.
  intros H. unfold returns_none. apply fine_bind; [exact H|intro; apply fine_ret].
Qed.

Lemma fine_channel_getters ch :
  addresses_table (Channel.frequency ch)
  /\ addresses_table (Channel.power ch)
  /\ addresses_table (Channel.calibrated ch)
  /\ addresses_table (Channel.temp_compensation_mode ch)
  /\ addresses_table (Channel.vga_dac ch)
  /\ addresses_table (Channel.phase ch)
  /\ addresses_table (Channel.rf_mute ch)
  /\ addresses_table (Channel.pa_enable ch)
  /\ addresses_table (Channel.pll_enable ch)
  /\ addresses_table (Channel.lock_status ch).
Proof.
  repeat split.
  - unfold Channel.frequency. fine.
  - unfold Channel.power. fine.
  - unfold Channel.calibrated. fine.
  - unfold Channel.temp_compensation_mode. fine.
  - unfold Channel.vga_dac. fine.
  - unfold Channel.phase. fine.
  - unfold Channel.rf_mute. fine.
  - unfold Channel.pa_enable. fine.
  - unfold Channel.pll_enable. fine.
  - unfold Channel.lock_status. fine.
Qed.

Lemma fine_channel_enable ch : addresses_table (Channel.enable ch).
Proof.
  unfold Channel.enable.
  apply fine_bind; [pick (fine_channel_getters ch)|intro m].
  cbv zeta. apply fine_if; [apply fine_ret|].
  apply fine_bind; [pick (fine_channel_getters ch)|intro p].
  apply fine_if; [apply fine_ret|pick (fine_channel_getters ch)].
Qed.

Lemma fine_run_channel ch c :
  typed_channel c = true -> addresses_table (run_channel ch c).
Proof.
  destruct c; cbn [typed_channel run_channel]; try discriminate; intros _;
    lazymatch goal with
    | |- addresses_table (returns_none (Channel.init _)) =>
        apply fine_returns_none, fine_channel_init
    | |- addresses_table (returns_none (Channel.select _)) =>
        apply fine_returns_none, fine_select
    | |- addresses_table (returns_none (_ _ ?v)) =>
        apply fine_returns_none; pick (fine_channel_setters ch v)
    | |- addresses_table (Channel.enable _) => apply fine_channel_enable
    | |- _ => pick (fine_channel_getters ch)
    end.
Qed.

Lemma fine_for_each chs (body : SynthHDChannel -> M unit) :
  (forall ch, addresses_table (body ch)) ->
  addresses_table (Device.for_each chs body).
Proof.
  intros Hb. induction chs as [|ch rest IH]; cbn [Device.for_each].
  - apply fine_ret.
  - apply fine_bind; auto.
Qed.

Lemma fine_device_setters v :
  addresses_table (Device.set_reference_mode v)
  /\ addresses_table (Device.set_trigger_mode v)
  /\ addresses_table (Device.set_reference_frequency v).
Proof.
  repeat split.
  - unfold Device.set_reference_mode. apply fine_if; [fine|].
    apply (fine_bind_post (fun a => exists i, a = VInt i));
      [apply fine_tuple_index|apply tuple_index_returns_int|].
    intros a [i ->]. fine.
  - unfold Device.set_trigger_mode. apply fine_if; [fine|].
    apply (fine_bind_post (fun a => exists i, a = VInt i));
      [apply fine_tuple_index|apply tuple_index_returns_int|].
    intros a [i ->]. fine.
  - unfold Device.set_reference_frequency. apply fine_if; [fine|].
    apply (fine_bind_post (fun a => exists f, a = VFloat f));
      [apply fine_truediv|apply truediv_returns_float|].
    intros a [f ->].
    apply (fine_write_fixed "ref_frequency" "*" "3" _ _ _ eq_refl);
      [discriminate|eexists; reflexivity|exact I].
Qed.

Lemma fine_set_switch (attribute : string) (code : ascii) (q : option string) ty v :
  lookup API attribute
  = Some {| value_type := ty;
            write_template := Some (String code "{}");
            query_command := q |} ->
  code <> "{"%char ->
  addresses_table (Device.set_switch attribute v).
Proof.
  intros Hl Hc. unfold Device.set_switch.
  destruct v; cbn [isinstance_bool negb]; try (apply fine_raise; reflexivity).
  apply (fine_write_plain attribute code _ _ _ Hl Hc). exact I.
Qed.

Lemma fine_device_switches v :
  addresses_table (Device.set_sweep_enable v)
  /\ addresses_table (Device.set_am_enable v)
  /\ addresses_table (Device.set_pulse_mod_enable v)
  /\ addresses_table (Device.set_dual_pulse_mod_enable v)
  /\ addresses_table (Device.set_fm_enable v).
Proof.
  repeat split.
  - apply (fine_set_switch "sweep_cont" "c" _ _ v eq_refl). discriminate.
  - apply (fine_set_switch "am_cont" "A" _ _ v eq_refl). discriminate.
  - apply (fine_set_switch "pulse_cont" "j" _ _ v eq_refl). discriminate.
  - apply (fine_set_switch "dual_pulse_mod" "D" _ _ v eq_refl). discriminate.
  - apply (fine_set_switch "fm_cont" "/" _ _ v eq_refl). discriminate.
Qed.

Lemma fine_device_init : addresses_table Device.init.
Proof.
  unfold Device.init.
  apply fine_bind; [pick (fine_device_setters (VStr "internal 27mhz"))|intros _].
  apply fine_bind; [pick (fine_device_setters (VStr "disabled"))|intros _].
  apply fine_bind; [pick (fine_device_switches (VBool false))|intros _].
  apply fine_bind; [pick (fine_device_switches (VBool false))|intros _].
  apply fine_bind; [pick (fine_device_switches (VBool false))|intros _].
  apply fine_bind; [pick (fine_device_switches (VBool false))|intros _].
  apply fine_bind; [pick (fine_device_switches (VBool false))|intros _].
  intros s e. apply (fine_for_each (_channels s) Channel.init fine_channel_init s e).
Qed.

Lemma fine_getitem key : addresses_table (Device.__getitem__ key).
Proof.
  intros s e. unfold Device.__getitem__.
  destruct (_ || _); [now intros [= <-]|].
  destruct (nth_error _ _); cbn; intros H; try discriminate H; now injection H as <-.
Qed.

Lemma fine_device_save : addresses_table Device.save.
Proof. unfold Device.save. fine. Qed.

Lemma fine_device_getters :
  addresses_table Device.model_type
  /\ addresses_table Device.serial_number
  /\ addresses_table Device.firmware_version
  /\ addresses_table Device.hardware_version
  /\ addresses_table Device.reference_mode
  /\ addresses_table Device.trigger_mode
  /\ addresses_table Device.temperature
  /\ addresses_table Device.reference_frequency
  /\ addresses_table Device.sweep_enable
  /\ addresses_table Device.am_enable
  /\ addresses_table Device.pulse_mod_enable
  /\ addresses_table Device.dual_pulse_mod_enable
  /\ addresses_table Device.fm_enable.
Proof.
  repeat split.
  - unfold Device.model_type. fine.
  - unfold Device.serial_number. fine.
  - unfold Device.firmware_version. fine.
  - unfold Device.hardware_version. fine.
  - unfold Device.reference_mode. fine.
  - unfold Device.trigger_mode. fine.
  - unfold Device.temperature. fine.
  - unfold Device.reference_frequency. fine.
  - unfold Device.sweep_enable, Device.get_switch. fine.
  - unfold Device.am_enable, Device.get_switch. fine.
  - unfold Device.pulse_mod_enable, Device.get_switch. fine.
  - unfold Device.dual_pulse_mod_enable, Device.get_switch. fine.
  - unfold Device.fm_enable, Device.get_switch. fine.
Qed.

(** X12.  The properties agree with the attribute table.  Whatever the
    value assigned and whatever the device replies, no method or property
    of [SynthHD] and [SynthHDChannel] makes the session fail with an
    unknown attribute, with an attribute that cannot be written or read,
    or with arguments that do not fit its template: each one names an
    entry of [API], uses a direction the entry has and passes the
    arguments its template takes.  Only the raw [write] and [read], given
    a caller's attribute name, can fail that way. *)
Theorem typed_calls_address_the_table (c : call) (s : SynthHD) (e : exn) :
  typed c = true ->
  fst (run c s) = Raise e ->
  table_misuse e = false.
Proof.
  intros H. revert s e. change (addresses_table (run c)).
  destruct c; cbn [typed run] in *; try discriminate;
    lazymatch goal with
    | |- addresses_table (bind (Device.__getitem__ _) _) =>
        apply fine_bind; [apply fine_getitem|intro; now apply fine_run_channel]
    | |- addresses_table (bind Device.__len__ _) =>
        intros s e; cbn; discriminate
    | |- addresses_table (returns_none Device.init) =>
        apply fine_returns_none, fine_device_init
    | |- addresses_table (returns_none Device.save) =>
        apply fine_returns_none, fine_device_save
    | |- addresses_table (returns_none (_ ?v)) =>
        apply fine_returns_none;
        first [pick (fine_device_setters v) | pick (fine_device_switches v)]
    | |- _ => pick fine_device_getters
    end.
Qed.



Lemma typed_calls_address_the_table_witness :
  typed (d_channel 0 c_frequency) = true
  /\ fst (run (d_channel 0 c_frequency) idle) = Raise Timeout
  /\ table_misuse Timeout = false.
Proof.
  split; [reflexivity|]. split; [reflexivity|].
  apply (typed_calls_address_the_table (d_channel 0 c_frequency) idle Timeout).
  - reflexivity.
  - reflexivity.
Defined.

(* ================================================================== *)
(** ** Texts with three decimals *)

Module SignedDigitsFacts.

Import Decimal.
Import DecimalFacts.
Import Digits.
Import DigitsFacts.

(** Reading back a signed decimal text made of an integer part and a
    fraction. *)
Lemma to_float_signed_digits (neg : bool) (u1 u2 : uint) :
  u1 <> Nil ->
  Text.to_float ((if neg then "-" else "")
                 ++ NilEmpty.string_of_uint u1
                 ++ String "." (NilEmpty.string_of_uint u2))
  = Some (let m := uval 0 (uapp u1 u2) in
          if m =? 0 then S754_zero neg
          else Float.of_decimal (if neg then - m else m)
                                (- Z.of_nat (nb_digits u2))).
Proof.
  intros Hn.
  assert (Hparse : NilEmpty.uint_of_string
                     (NilEmpty.string_of_uint u1 ++ NilEmpty.string_of_uint u2)
                   = Some (uapp u1 u2))
    by (rewrite <- string_of_uint_app; apply NilEmpty.usu).
  pose proof (split_dot_digits u1 (NilEmpty.string_of_uint u2)) as Hsplit.
  pose proof (length_string_of_uint u2) as Hlen.
  rewrite <- of_uint_uval.
  cbv zeta.
  unfold Text.to_float.
  destruct neg; cbn [String.append].
  - rewrite Hsplit.
    destruct u1; [now elim Hn| ..];
      cbn [NilEmpty.string_of_uint String.append] in *;
      rewrite Hparse, Hlen; now destruct (_ =? 0).
  - destruct u1; [now elim Hn| ..];
      cbn [NilEmpty.string_of_uint String.append] in *;
      rewrite Hsplit, Hparse, Hlen; now destruct (_ =? 0).
Qed.

(** The text of a number with three decimals reads back as the nearest
    binary64 number of that decimal, a zero keeping its sign. *)
Lemma to_float_signed_fixed3 (neg : bool) (N : Z) :
  0 <= N ->
  Text.to_float (Text.fixed 3 neg N)
  = Some (if N =? 0 then S754_zero neg
          else Float.of_decimal (if neg then - N else N) (-3)).
Proof.
  intros HN.
  pose proof (Z.div_mod N (10 ^ 3) ltac:(lia)) as Hdm.
  pose proof (Z.mod_pos_bound N (10 ^ 3) ltac:(lia)) as Hr.
  assert (Hq : 0 <= N / 10 ^ 3) by (apply Z.div_pos; lia).
  set (q := N / 10 ^ 3) in *. set (r := N mod 10 ^ 3) in *.
  unfold Text.fixed. fold q r. change (3 =? 0) with false. cbv iota.
  change (Z.to_nat 3) with 3%nat.
  rewrite (of_Z_digits q), (of_Z_digits r) by lia.
  unfold Text.pad. rewrite length_string_of_uint, zeros_string.
  rewrite <- string_of_uint_app.
  set (u2 := uapp (Nat.iter (3 - nb_digits (digits_of r)) D0 Nil) (digits_of r)).
  pose proof (nb_digits_digits_of r 3 ltac:(exact Hr) ltac:(lia)) as Hlen.
  assert (Hn2 : nb_digits u2 = 3%nat).
  { subst u2. rewrite nb_digits_uapp, nb_digits_zeros. lia. }
  assert (Hv2 : uval 0 u2 = r).
  { subst u2. rewrite uval_app, uval_zeros, Z.mul_0_l. apply uval_digits_of. lia. }
  assert (Hv : uval 0 (uapp (digits_of q) u2) = N).
  { rewrite uval_app, uval_shift, Hn2, Hv2, uval_digits_of by lia.
    change (Z.of_nat 3) with 3. lia. }
  change (NilEmpty.string_of_uint (digits_of q) ++ "." ++ NilEmpty.string_of_uint u2)%string
    with (NilEmpty.string_of_uint (digits_of q) ++ String "." (NilEmpty.string_of_uint u2))%string.
  rewrite to_float_signed_digits by apply digits_of_nonnil.
  cbv zeta. rewrite Hv, Hn2. reflexivity.
Qed.

End SignedDigitsFacts.

(** The integer a finite number is rendered from, with [k = 3]: within one
    half of the number times [10^3]. *)
Lemma scaled3_Q (m : positive) (e : Z) :
  e < 0 ->
  (Qabs (inject_Z (Float.scaled m e 3) - to_Q (S754_finite false m e) * inject_Z (10 ^ 3))
   <= 1 # 2)%Q.
Proof.
  intros He. unfold Float.scaled.
  replace (0 <=? e) with false by (symmetry; apply Z.leb_gt; exact He).
  set (t := 2 ^ (- e)).
  assert (Ht : 0 < t) by (apply Z.pow_pos_nonneg; lia).
  pose proof (round_half_even_spec (Zpos m * 10 ^ 3) t Ht ltac:(lia)) as Hab.
  set (N := Float.round_half_even (Zpos m * 10 ^ 3) t) in *.
  assert (H1 : 2 * N * t - 2 * (Zpos m * 10 ^ 3) <= t) by lia.
  assert (H2 : - t <= 2 * N * t - 2 * (Zpos m * 10 ^ 3)) by lia.
  rewrite Zle_Qle in H1, H2. unfold Z.sub in H1, H2.
  repeat (rewrite inject_Z_mult in H1 || rewrite inject_Z_plus in H1
          || rewrite inject_Z_opp in H1).
  repeat (rewrite inject_Z_mult in H2 || rewrite inject_Z_plus in H2
          || rewrite inject_Z_opp in H2).
  cbn [to_Q Float.signed cond_Zopp].
  pose proof (pow2_inverse e ltac:(lia)) as Hinv. fold t in Hinv.
  assert (Htq : (inject_Z 0 < inject_Z t)%Q) by (rewrite <- Zlt_Qlt; exact Ht).
  change (inject_Z 0) with 0%Q in Htq.
  set (tq := inject_Z t) in *. set (c := pow2 e) in *.
  set (mq := inject_Z (Zpos m)) in *. set (nq := inject_Z N) in *.
  set (k3 := inject_Z (10 ^ 3)) in *.
  change (inject_Z 2) with 2%Q in H1, H2.
  assert (Hm : (mq * c * k3 * tq == mq * k3)%Q).
  { setoid_replace (mq * c * k3 * tq)%Q with (mq * k3 * (c * tq))%Q by ring.
    rewrite Hinv. ring. }
  apply Qabs_Qle_condition. split.
  - apply Qmult_le_r with (z := tq); [exact Htq|]. lra.
  - apply Qmult_le_r with (z := tq); [exact Htq|]. lra.
Qed.

(** The sign of a quotient is the sign of its numerator when the divisor
    is positive. *)
Lemma div_sign (s : bool) (mx my : positive) (ex ey : Z) (m : positive) (e : Z) :
  Float.div (S754_finite false mx ex) (S754_finite false my ey) = S754_finite false m e ->
  Float.div (S754_finite s mx ex) (S754_finite false my ey) = S754_finite s m e.
Proof.
  unfold Float.div, SFdiv. cbn [xorb]. rewrite xorb_false_r.
  destruct (SFdiv_core_binary _ _ _ _ _ _) as [[mz ez] lz].
  unfold binary_round_aux.
  destruct (shr_fexp _ _ mz ez lz) as [mrs' e'].
  destruct (shr_fexp _ _ _ e' loc_Exact) as [mrs'' e''].
  destruct (shr_m mrs''); [discriminate| |discriminate].
  destruct (e'' <=? _); [|discriminate].
  intros [= -> ->]. reflexivity.
Qed.

Lemma to_Q_sign (s : bool) (m : positive) (e : Z) :
  (to_Q (S754_finite s m e)
   == if s then - to_Q (S754_finite false m e) else to_Q (S754_finite false m e))%Q.
Proof.
  destruct s; cbn [to_Q Float.signed cond_Zopp]; [|reflexivity].
  change (Z.neg m) with (- Z.pos m). rewrite inject_Z_opp. ring.
Qed.

(** The number read back from a text with three decimals of at most
    seven digits: the thousandth part of its digits, up to the rounding of
    binary64. *)
Lemma read_fixed3 (neg : bool) (N : Z) :
  0 <= N <= 1000000 ->
  exists y,
    Text.to_float (Text.fixed 3 neg N) = Some y
    /\ (Qabs (to_Q y - (if neg then - inject_Z N else inject_Z N) * (1 # 1000))
        <= 1 # 1000000000)%Q.
Proof.
  intros HN. rewrite SignedDigitsFacts.to_float_signed_fixed3 by lia.
  destruct N as [|n|n]; [| |lia].
  - exists (S754_zero neg). split; [reflexivity|].
    cbn [to_Q]. destruct neg; apply Qabs_Qle_condition; split; discriminate.
  - change (Z.pos n =? 0) with false. cbv iota.
    assert (Hdu : Zpos (digits2_pos n) <= 20).
    { destruct (Z.le_gt_cases (Zpos (digits2_pos n)) 20) as [H|H]; [exact H|exfalso].
      destruct (digits2_pos_bounds n) as [Hl _].
      assert (2 ^ 20 <= 2 ^ (Zpos (digits2_pos n) - 1)) by (apply Z.pow_le_mono_r; lia).
      change (2 ^ 20) with 1048576 in *. lia. }
    pose proof (div_Q n 1000 0 0) as H2. cbv zeta in H2.
    change (Zpos (digits2_pos 1000)) with 10 in H2.
    destruct H2 as (my & ey & Hdiv & Hmy & Hey & HQ); try lia.
    specialize (HQ (inject_Z (Zpos n) * (1 # 1000))%Q).
    assert (HQ' : (inject_Z (Zpos n) * (1 # 1000)
                   * to_Q (S754_finite false 1000 0)
                   == to_Q (S754_finite false n 0))%Q).
    { cbn [to_Q Float.signed cond_Zopp].
      change (pow2 0) with 1%Q. change (inject_Z 1000) with 1000%Q. ring. }
    specialize (HQ HQ'). clear HQ'.
    exists (S754_finite neg my ey). split.
    + f_equal. destruct neg.
      * change (Float.of_decimal (- Z.pos n) (-3))
          with (Float.div (S754_finite true n 0) (S754_finite false 1000 0)).
        apply div_sign, Hdiv.
      * exact Hdiv.
    + rewrite to_Q_sign.
      assert (Hn : (inject_Z (Zpos n) <= 1000000)%Q).
      { change 1000000%Q with (inject_Z 1000000). rewrite <- Zle_Qle. lia. }
      assert (Hn0 : (0 <= inject_Z (Zpos n))%Q).
      { change 0%Q with (inject_Z 0). rewrite <- Zle_Qle. lia. }
      set (Y := to_Q (S754_finite false my ey)) in *.
      set (Nq := inject_Z (Zpos n)) in *.
      apply Qabs_bounds in HQ. unfold u53 in HQ.
      change (1 # 2 ^ 53)%Q with (1 # 9007199254740992)%Q in HQ.
      destruct neg; apply Qabs_Qle_condition; split; lra.
Qed.

(* ================================================================== *)
(** ** The reference frequency round trip *)









(* ================================================================== *)
(** ** The VGA DAC round trip *)

(** X14.  The VGA DAC value round trip.  Assigning an integer [z] to
    [vga_dac] transmits, after the channel-select line, the letter [a]
    followed by [z] in base 10, whatever [z] is: the setter compares it
    with no range, so a negative number and a number above 45000 are
    transmitted like any other.  Reading the property back from a device
    that reports the number it was sent returns [z] itself. *)
Theorem vga_dac_round_trip (ch : SynthHDChannel) (z : Z) out rest chs :
  (forall replies,
      Channel.set_vga_dac ch (VInt z) (device out replies chs)
      = (Ok tt,
         device (out ++ [select_line (_index ch); String "a" (Text.of_Z z)])
                replies chs))
  /\ (Channel.set_vga_dac ch (VInt z) ;; Channel.vga_dac ch)
       (device out (Text.of_Z z :: rest) chs)
     = (Ok (VInt z),
        device (out ++ [select_line (_index ch); String "a" (Text.of_Z z);
                        select_line (_index ch); "a?"%string]) rest chs).
Proof.
  assert (Hset : forall replies,
             Channel.set_vga_dac ch (VInt z) (device out replies chs)
             = (Ok tt,
                device (out ++ [select_line (_index ch); String "a" (Text.of_Z z)])
                       replies chs)).
  { intros replies. unfold Channel.set_vga_dac. cbn [isinstance_int negb].
    rewrite channel_write_eq.
    rewrite (session_write_int _ z "vga_dac" "a" _ eq_refl) by discriminate.
    rewrite !transmit_device, <- app_assoc. reflexivity. }
  split; [exact Hset|].
  rewrite (bind_ok _ _ _ _ _ (Hset _)). unfold Channel.vga_dac.
  rewrite channel_read_eq, transmit_device.
  rewrite (session_read_int "vga_dac" "a" _ _ z _ _ _ eq_refl
             ltac:(discriminate) (to_Z_of_Z z)).
  rewrite <- !app_assoc. reflexivity.
Qed.

(* ================================================================== *)
(** ** The round trip of power and phase *)

(** [float(-p)] is the opposite of [float(p)]. *)
Lemma of_Z_negative (p m : positive) (e : Z) :
  Float.of_Z (Zpos p) = S754_finite false m e ->
  Float.of_Z (Zneg p) = S754_finite true m e.
Proof.
  unfold Float.of_Z, binary_normalize, binary_round.
  destruct (shl_align _ _ _) as [mz ez].
  unfold binary_round_aux.
  destruct (shr_fexp _ _ (Zpos mz) ez loc_Exact) as [mrs' e'].
  destruct (shr_fexp _ _ _ e' loc_Exact) as [mrs'' e''].
  destruct (shr_m mrs''); [discriminate| |discriminate].
  destruct (e'' <=? _); [|discriminate].
  intros [= -> ->]. reflexivity.
Qed.

(** The digits of a positive integer below [2^53], which binary64 holds
    exactly, are those of the integer. *)
Lemma scaled_of_Z (k z : Z) (m : positive) (e : Z) :
  0 <= k -> 0 < z ->
  2 ^ 52 <= Zpos m < 2 ^ 53 -> Zpos m = z * 2 ^ (- e) ->
  Float.scaled m e k = z * 10 ^ k.
Proof.
  intros Hk Hz Hm Hv.
  assert (He : e <= 0).
  { destruct (Z.le_gt_cases e 0) as [H|H]; [exact H|exfalso].
    rewrite Z.pow_neg_r in Hv by lia.
    pose proof (Z.pow_pos_nonneg 2 52 ltac:(lia) ltac:(lia)). lia. }
  unfold Float.scaled. destruct (Z.leb_spec 0 e) as [H0|H0].
  - assert (e = 0) by lia. subst e. cbn [Z.opp] in Hv.
    rewrite Z.pow_0_r in *. lia.
  - set (t := 2 ^ (- e)) in *.
    assert (Ht : 0 < t) by (apply Z.pow_pos_nonneg; lia).
    unfold Float.round_half_even. rewrite Hv.
    replace (z * t * 10 ^ k) with (z * 10 ^ k * t) by ring.
    rewrite Z.div_mul, Z.mod_mul by lia.
    change (2 * 0) with 0. destruct (Z.compare_spec 0 t); lia.
Qed.

(** Fixed notation of an integer that binary64 holds exactly. *)
Lemma fixed_int_exact (k z : Z) :
  0 <= k -> Z.abs z < 2 ^ 53 ->
  Text.fixed_int k z = Some (Text.fixed k (z <? 0) (Z.abs z * 10 ^ k)).
Proof.
  intros Hk Hz. unfold Text.fixed_int. destruct z as [|p|p].
  - reflexivity.
  - destruct (of_Z_exact (Zpos p)) as (m & e & Hf & Hm & _ & Hv); [lia|].
    rewrite Hf. cbn [Text.fixed_float]. change (Z.pos p <? 0) with false.
    rewrite (scaled_of_Z k (Zpos p) m e Hk ltac:(lia) Hm Hv). reflexivity.
  - destruct (of_Z_exact (Zpos p)) as (m & e & Hf & Hm & _ & Hv); [lia|].
    rewrite (of_Z_negative p m e Hf). cbn [Text.fixed_float].
    change (Z.neg p <? 0) with true.
    rewrite (scaled_of_Z k (Zpos p) m e Hk ltac:(lia) Hm Hv). reflexivity.
Qed.

(** What has a text in fixed notation is no integer too large. *)
Lemma formatted_not_too_large (k : Z) (v : value) (x : string) :
  Text.format_fixed k v = Some x -> Text.too_large v = false.
Proof.
  destruct v as [|b|z|f|t]; cbn [Text.format_fixed Text.too_large];
    try reflexivity.
  unfold Text.fixed_int. destruct (Float.of_Z z); try reflexivity.
  intros H. discriminate H.
Qed.

(** A binary64 number between [-1000] and [1000] is a zero or a finite
    number with a fraction. *)
Lemma small_float (f : spec_float) :
  valid_binary 53 1024 f = true ->
  SFleb (SFopp f_1e3) f = true -> SFleb f f_1e3 = true ->
  (exists s, f = S754_zero s)
  \/ exists s m e, f = S754_finite s m e /\ e < 0 /\ Zpos m <= 1000 * 2 ^ (- e).
Proof.
  intros Hv Hlo Hhi.
  destruct f as [s|s| |s m e].
  - left. now exists s.
  - destruct s; [discriminate Hlo|discriminate Hhi].
  - discriminate Hlo.
  - right. exists s, m, e. split; [reflexivity|].
    cbn [valid_binary] in Hv. unfold bounded, canonical_mantissa in Hv.
    apply andb_true_iff in Hv. destruct Hv as [Hc _]. apply Z.eqb_eq in Hc.
    unfold fexp, emin in Hc.
    destruct (digits2_pos_bounds m) as [_ Hu].
    assert (Hm : Zpos m < 2 ^ 53).
    { assert (2 ^ Zpos (digits2_pos m) <= 2 ^ 53) by (apply Z.pow_le_mono_r; lia).
      lia. }
    change (2 ^ 53) with 9007199254740992 in Hm.
    assert (Hb : e < -43 \/ (e = -43 /\ Zpos m <= 8796093022208000)).
    { destruct s.
      - unfold SFleb, SFcompare, SFopp, f_1e3 in Hlo.
        rewrite Pos.compare_cont_spec in Hlo. cbn [Pos.switch_Eq] in Hlo.
        destruct (Z.compare_spec (-43) e); [right|discriminate Hlo|left; lia].
        split; [lia|].
        destruct (Pos.compare_spec 8796093022208000 m) as [E|E|E];
          [rewrite E; apply Z.le_refl
          |discriminate Hlo
          |apply Z.lt_le_incl; exact E].
      - unfold SFleb, SFcompare, f_1e3 in Hhi.
        rewrite Pos.compare_cont_spec in Hhi. cbn [Pos.switch_Eq] in Hhi.
        destruct (Z.compare_spec e (-43)); [right|left; lia|discriminate Hhi].
        split; [lia|].
        destruct (Pos.compare_spec m 8796093022208000) as [E|E|E];
          [rewrite E; apply Z.le_refl
          |apply Z.lt_le_incl; exact E
          |discriminate Hhi]. }
    destruct Hb as [Hb|[-> Hb]].
    + split; [lia|].
      assert (H44 : 2 ^ 44 <= 2 ^ (- e)) by (apply Z.pow_le_mono_r; lia).
      change (2 ^ 44) with 17592186044416 in H44. lia.
    + split; [lia|]. change (2 ^ (- -43)) with 8796093022208. lia.
Qed.

(** The digits a number between [-1000] and [1000] is rendered from, with
    three decimals: at most seven, and within half a thousandth of the
    number. *)
Lemma fixed3_value (v : value) :
  inside (-1000) 1000 (SFopp f_1e3) f_1e3 v ->
  (forall f, v = VFloat f -> valid_binary 53 1024 f = true) ->
  exists neg N,
    Text.format_fixed 3 v = Some (Text.fixed 3 neg N)
    /\ 0 <= N <= 1000000
    /\ (Qabs ((if neg then - inject_Z N else inject_Z N) * (1 # 1000) - value_Q v)
        <= 1 # 2000)%Q.
Proof.
  intros Hin Hvalid. destruct v as [|b|z|f|t]; cbn [inside] in Hin; try contradiction.
  - exists false, (Z_of_bool b * 10 ^ 3). split; [destruct b; reflexivity|].
    split; [destruct b; cbn; lia|].
    cbn [value_Q]. rewrite inject_Z_mult. change (inject_Z (10 ^ 3)) with 1000%Q.
    apply Qabs_Qle_condition. split; lra.
  - exists (z <? 0), (Z.abs z * 10 ^ 3).
    split; [apply fixed_int_exact; change (2 ^ 53) with 9007199254740992; lia|].
    change (10 ^ 3) with 1000. split; [lia|].
    cbn [value_Q]. rewrite inject_Z_mult. change (inject_Z 1000) with 1000%Q.
    destruct (Z.ltb_spec z 0).
    + rewrite Z.abs_neq by lia. rewrite inject_Z_opp.
      apply Qabs_Qle_condition. split; lra.
    + rewrite Z.abs_eq by lia.
      apply Qabs_Qle_condition. split; lra.
  - destruct Hin as [Hlo Hhi].
    destruct (small_float f (Hvalid f eq_refl) Hlo Hhi)
      as [[s ->]|(s & m & e & -> & He & Hm)].
    + exists s, 0. split; [reflexivity|]. split; [lia|].
      cbn [value_Q to_Q]. destruct s; apply Qabs_Qle_condition; split; discriminate.
    + exists s, (Float.scaled m e 3). split; [reflexivity|].
      pose proof (scaled3_Q m e He) as HN.
      assert (Hb : 0 <= Float.scaled m e 3 <= 1000000).
      { unfold Float.scaled.
        replace (0 <=? e) with false by (symmetry; apply Z.leb_gt; exact He).
        assert (Ht : 0 < 2 ^ (- e)) by (apply Z.pow_pos_nonneg; lia).
        pose proof (round_half_even_spec (Zpos m * 10 ^ 3) (2 ^ (- e)) Ht ltac:(lia)) as Hab.
        change (10 ^ 3) with 1000 in *.
        set (t := 2 ^ (- e)) in *.
        set (N := Float.round_half_even (Zpos m * 1000) t) in *.
        split; nia. }
      split; [exact Hb|].
      cbn [value_Q]. rewrite (to_Q_sign s m e).
      change (inject_Z (10 ^ 3)) with 1000%Q in HN.
      set (X := to_Q (S754_finite false m e)) in *.
      set (Nq := inject_Z (Float.scaled m e 3)) in *.
      apply Qabs_bounds in HN.
      destruct s; apply Qabs_Qle_condition; split; lra.
Qed.

(** X15.  The round trip of power and phase.  For a number [v] between
    [-1000] and [1000] (an integer, a boolean, or a binary64 number), which
    covers the ranges [-60, 20] dBm and [0, 360] degrees, the setters of
    power and of phase transmit, after the channel-select line, the letter
    of the attribute followed by [v] in fixed notation with three decimals,
    and return normally.  On a device that reports the text it was sent,
    the getters return the nearest binary64 number of that text, which is
    within 0.000501 of [v]: the round trip keeps the third decimal. *)
Theorem power_phase_round_trip (ch : SynthHDChannel) (v : value) (s : SynthHD) :
  inside (-1000) 1000 (SFopp f_1e3) f_1e3 v ->
  (forall f, v = VFloat f -> valid_binary 53 1024 f = true) ->
  exists text,
    Text.format_fixed 3 v = Some text
    /\ Channel.set_power ch v s
       = (Ok tt, transmit (transmit s (select_line (_index ch))) (String "W" text))
    /\ Channel.set_phase ch v s
       = (Ok tt, transmit (transmit s (select_line (_index ch))) (String "~" text))
    /\ forall out rest chs,
        exists y,
          Text.to_float text = Some y
          /\ Channel.power ch (device out (text :: rest) chs)
             = (Ok (VFloat y),
                device (out ++ [select_line (_index ch); "W?"%string]) rest chs)
          /\ Channel.phase ch (device out (text :: rest) chs)
             = (Ok (VFloat y),
                device (out ++ [select_line (_index ch); "~?"%string]) rest chs)
          /\ (Qabs (to_Q y - value_Q v) <= 501 # 1000000)%Q.
Proof.
  intros Hin Hvalid.
  destruct (fixed3_value v Hin Hvalid) as (neg & N & Hf & HN & HQ).
  assert (Hnum : number v) by (destruct v; cbn [inside] in Hin; try contradiction; exact I).
  assert (Hisn : isinstance_float_int v = true) by (destruct v; try contradiction; reflexivity).
  exists (Text.fixed 3 neg N). split; [exact Hf|].
  split; [|split].
  - unfold Channel.set_power. rewrite Hisn. cbn [negb].
    destruct (channel_write_fixed3 ch s v "power" "W" _ eq_refl ltac:(discriminate)
                Hnum (formatted_not_too_large 3 v _ Hf))
      as (x & Hx & Hw).
    rewrite Hf in Hx. injection Hx as <-. exact Hw.
  - unfold Channel.set_phase. rewrite Hisn. cbn [negb].
    destruct (channel_write_fixed3 ch s v "phase_step" "~" _ eq_refl ltac:(discriminate)
                Hnum (formatted_not_too_large 3 v _ Hf))
      as (x & Hx & Hw).
    rewrite Hf in Hx. injection Hx as <-. exact Hw.
  - intros out rest chs.
    destruct (read_fixed3 neg N HN) as (y & Hy & HY).
    exists y. split; [exact Hy|]. split; [|split].
    + unfold Channel.power. rewrite channel_read_eq, transmit_device.
      rewrite (session_read_float "power" "W" _ _ _ _ _ _ eq_refl
                 ltac:(discriminate) Hy).
      rewrite <- app_assoc. reflexivity.
    + unfold Channel.phase. rewrite channel_read_eq, transmit_device.
      rewrite (session_read_float "phase_step" "~" _ _ _ _ _ _ eq_refl
                 ltac:(discriminate) Hy).
      rewrite <- app_assoc. reflexivity.
    + set (Y := to_Q y) in *. set (V := value_Q v) in *.
      set (D := ((if neg then - inject_Z N else inject_Z N) * (1 # 1000))%Q) in *.
      apply Qabs_bounds in HQ. apply Qabs_bounds in HY.
      apply Qabs_Qle_condition. split; lra.
Qed.

Lemma power_phase_round_trip_witness :
  exists text,
    Text.format_fixed 3 (VFloat (Float.of_decimal (-605) (-1))) = Some text
    /\ Channel.set_power {| _index := 1 |}
         (VFloat (Float.of_decimal (-605) (-1))) idle
       = (Ok tt, transmit (transmit idle (select_line 1)) (String "W" text))
    /\ Channel.set_phase {| _index := 1 |}
         (VFloat (Float.of_decimal (-605) (-1))) idle
       = (Ok tt, transmit (transmit idle (select_line 1)) (String "~" text))
    /\ forall out rest chs,
        exists y,
          Text.to_float text = Some y
          /\ Channel.power {| _index := 1 |} (device out (text :: rest) chs)
             = (Ok (VFloat y), device (out ++ [select_line 1; "W?"%string]) rest chs)
          /\ Channel.phase {| _index := 1 |} (device out (text :: rest) chs)
             = (Ok (VFloat y), device (out ++ [select_line 1; "~?"%string]) rest chs)
          /\ (Qabs (to_Q y - value_Q (VFloat (Float.of_decimal (-605) (-1))))
              <= 501 # 1000000)%Q.
Proof.
  apply (power_phase_round_trip {| _index := 1 |}
           (VFloat (Float.of_decimal (-605) (-1))) idle).
  - split; reflexivity.
  - intros f [= <-]. reflexivity.
Defined.

(* ================================================================== *)
(** ** The frequency property: unit conversion in both directions *)



